(** * Reactive cross-chain stop-rebalance contracts: a shallow embedding

    The three Solidity contracts of [reactive-casr/contracts]
    (OriginPosition, ReactiveManager, DestinationHandler) are embedded as
    state-passing functions over records.  A call either returns a value
    together with the new contract state and the events it emitted, or it
    reverts; a revert discards every effect of the call (the EVM rolls the
    whole transaction back).

    Conventions
    - [uint256], [address] and [bytes32] are integers ([Z]) in their
      ranges; [int256] is a signed [Z]; checked arithmetic (Solidity 0.8)
      is written out with its overflow panic;
    - [bytes] is a list of bytes, [string] a Rocq string;
    - a Solidity [mapping] is a [gmap] read with [mapping_get], so that
      an absent key reads as the zero value of the value type;
    - [keccak256] and ECDSA recovery are parameters ([Crypto]). *)

From Stdlib Require Import ZArith List String Lia.
From Stdlib.Strings Require Import Byte.
From stdpp Require Import base option gmap.

Local Open Scope Z_scope.

(** ** Machine types *)

Definition uint256 := Z.
Definition int256 := Z.
Definition address := Z.
Definition bytes32 := Z.
Definition bytes := list byte.

Definition MAX_UINT256 : Z := 2 ^ 256 - 1.
Definition MIN_INT256 : Z := - 2 ^ 255.
Definition MAX_INT256 : Z := 2 ^ 255 - 1.
Definition MAX_ADDRESS : Z := 2 ^ 160 - 1.

Definition byte_to_Z (b : byte) : Z := Z.of_N (Byte.to_N b).

Definition byte_of_Z (z : Z) : byte :=
  match Byte.of_N (Z.to_N (z mod 256)) with
  | Some b => b
  | None => x00
  end.

(** Big-endian value of a byte string. *)
Definition be_to_Z (b : bytes) : Z :=
  fold_left (fun acc x => acc * 256 + byte_to_Z x) b 0.

(** The [n] low-order bytes of [v], big-endian. *)
Fixpoint Z_to_be (n : nat) (v : Z) : bytes :=
  match n with
  | O => []
  | S k => Z_to_be k (v / 256) ++ [byte_of_Z v]
  end.

Definition bytes_of_string (s : string) : bytes := list_byte_of_string s.
Definition string_of_bytes (b : bytes) : string := string_of_list_byte b.

Definition blen (b : bytes) : Z := Z.of_nat (length b).

(** [int256(x)] on a [uint256]: the two's complement reading of the word. *)
Definition to_int256 (w : uint256) : int256 :=
  if w <? 2 ^ 255 then w else w - 2 ^ 256.

(** [uint256(x)] on an [int256]. *)
Definition to_uint256 (x : int256) : uint256 := x mod 2 ^ 256.

(** Reading a Solidity mapping: an unset key holds the zero value. *)
Definition mapping_get {V} (zero : V) (m : gmap Z V) (k : Z) : V :=
  default zero (m !! k).

(** ** ABI encoding *)

Module Abi.

(** One 32-byte word. *)
Definition word (v : Z) : bytes := Z_to_be 32 (v mod 2 ^ 256).

(** An address in packed encoding: 20 bytes. *)
Definition addr20 (a : address) : bytes := Z_to_be 20 (a mod 2 ^ 160).

(** The word stored at byte offset [off] of [d]. *)
Definition word_at (d : bytes) (off : nat) : Z :=
  be_to_Z (firstn 32 (skipn off d)).

Definition zeros (n : nat) : bytes := repeat x00 n.

(** A dynamic byte string: its length, its content, zero padding up to a
    multiple of 32 bytes. *)
Definition tail (b : bytes) : bytes :=
  word (blen b) ++ b ++ zeros (Z.to_nat ((- blen b) mod 32)).

(** [abi.encodePacked] of already packed pieces. *)
Definition encodePacked (parts : list bytes) : bytes := concat parts.

(** [abi.encode(uint256, uint256, int256)]. *)
Definition encode_uint_uint_int (a b : uint256) (c : int256) : bytes :=
  word a ++ word b ++ word c.

(** [abi.decode(data, (uint256, uint256, int256))]: the decoder reverts
    when fewer than three words are present and ignores what follows
    them. *)
Definition decode_uint_uint_int (d : bytes) : option (uint256 * uint256 * int256) :=
  if blen d <? 96 then None
  else Some (word_at d 0, word_at d 32, to_int256 (word_at d 64)).

(** [abi.encode(string, uint256, address)]: three head words (the offset
    of the string, the integer, the address), then the string. *)
Definition encode_string_uint_address (s : string) (n : uint256) (a : address) : bytes :=
  word 96 ++ word n ++ word a ++ tail (bytes_of_string s).

(** [abi.decode(data, (string, uint256, address))] as the 0.8 decoder
    does it: the head must be complete, the address must fit in 160
    bits, and the string must lie inside the data.  [None] is any failure
    of the decoder; the caller fails with it (on a length word above
    [2^64 - 1] the compiled decoder fails by a panic, otherwise by a
    revert without data). *)
Definition decode_string_uint_address (d : bytes) : option (string * uint256 * address) :=
  if blen d <? 96 then None
  else
    let off := word_at d 0 in
    let n := word_at d 32 in
    let a := word_at d 64 in
    if MAX_ADDRESS <? a then None
    else if 2 ^ 64 - 1 <? off then None
    else if blen d <=? off + 31 then None
    else
      let len := word_at d (Z.to_nat off) in
      if 2 ^ 64 - 1 <? len then None
      else if blen d <? off + 32 + len then None
      else Some (string_of_bytes (firstn (Z.to_nat len) (skipn (Z.to_nat off + 32) d)), n, a).

(** [abi.encode(bytes32, bytes32, bytes, bytes)]. *)
Definition encode_b32_b32_bytes_bytes (a b : bytes32) (c d : bytes) : bytes :=
  word a ++ word b ++ word 128 ++ word (128 + blen (tail c)) ++ tail c ++ tail d.

End Abi.

(** Byte-level encodings stay folded during simplification. *)
Arguments be_to_Z : simpl never.
Arguments Z_to_be : simpl never.
Arguments bytes_of_string : simpl never.
Arguments string_of_bytes : simpl never.
Arguments blen : simpl never.
Arguments Abi.word : simpl never.
Arguments Abi.addr20 : simpl never.
Arguments Abi.word_at : simpl never.
Arguments Abi.tail : simpl never.
Arguments Abi.encodePacked : simpl never.
Arguments Abi.encode_uint_uint_int : simpl never.
Arguments Abi.decode_uint_uint_int : simpl never.
Arguments Abi.encode_string_uint_address : simpl never.
Arguments Abi.decode_string_uint_address : simpl never.
Arguments Abi.encode_b32_b32_bytes_bytes : simpl never.

(** ** Cryptographic primitives *)

Class Crypto := {
  (** [keccak256] of a byte string, as a 256-bit word. *)
  keccak256 : bytes -> bytes32;
  (** [ECDSA.recover(hash, signature)]: the signer, or [None] where the
      library reverts on a malformed signature. *)
  ecdsa_recover : bytes32 -> bytes -> option address;
}.

(** ** Transactions *)

Inductive failure :=
| Revert (reason : string)
| Panic (code : Z).

Inductive result (A : Type) :=
| Ok (a : A)
| Err (f : failure).
Arguments Ok {A} a.
Arguments Err {A} f.

(** Call context. *)
Record Env := {
  msg_sender : address;
  msg_value : uint256;
  block_timestamp : uint256;
  block_number : uint256;
  block_chainid : uint256;
}.

(** A computation over a contract state [S] that logs events [E]. *)
Definition tx (S E A : Type) : Type := S * list E -> result (A * (S * list E)).

Definition ret {S E A} (a : A) : tx S E A := fun σ => Ok (a, σ).

Definition bind {S E A B} (m : tx S E A) (k : A -> tx S E B) : tx S E B :=
  fun σ => match m σ with
           | Ok (a, σ') => k a σ'
           | Err f => Err f
           end.

Declare Scope tx_scope.
Delimit Scope tx_scope with tx.
Notation "'let*' x ':=' m 'in' k" := (bind m (fun x => k))
  (at level 10, x name, m at level 100, k at level 200) : tx_scope.
Notation "'let*' ' p ':=' m 'in' k" := (bind m (fun x => match x with p => k end))
  (at level 10, p pattern, m at level 100, k at level 200) : tx_scope.
Notation "m ;; k" := (bind m (fun _ => k))
  (at level 100, k at level 200, right associativity) : tx_scope.

Open Scope tx_scope.

Definition get {S E} : tx S E S := fun σ => Ok (fst σ, σ).
Definition modify {S E} (f : S -> S) : tx S E unit := fun σ => Ok (tt, (f (fst σ), snd σ)).
Definition emit {S E} (e : E) : tx S E unit := fun σ => Ok (tt, (fst σ, snd σ ++ [e])).
Definition revert {S E A} (reason : string) : tx S E A := fun _ => Err (Revert reason).
Definition panic {S E A} (code : Z) : tx S E A := fun _ => Err (Panic code).

Definition require {S E} (c : bool) (reason : string) : tx S E unit :=
  if c then ret tt else revert reason.

(** A function that is not [payable] rejects any attached value. *)
Definition nonpayable {S E} (env : Env) : tx S E unit :=
  if msg_value env =? 0 then ret tt else revert "".

(** Checked [uint256] arithmetic: panic 0x11 on overflow, 0x12 on division
    by zero. *)
Definition checked_add {S E} (a b : uint256) : tx S E uint256 :=
  if a + b <=? MAX_UINT256 then ret (a + b) else panic 17.
Definition checked_sub {S E} (a b : uint256) : tx S E uint256 :=
  if b <=? a then ret (a - b) else panic 17.
Definition checked_mul {S E} (a b : uint256) : tx S E uint256 :=
  if a * b <=? MAX_UINT256 then ret (a * b) else panic 17.
Definition checked_div {S E} (a b : uint256) : tx S E uint256 :=
  if b =? 0 then panic 18 else ret (a / b).
(** Checked negation of an [int256]. *)
Definition checked_neg {S E} (x : int256) : tx S E int256 :=
  if x =? MIN_INT256 then panic 17 else ret (- x).

(** Run a call as a transaction from state [s]. *)
Definition run {S E A} (m : tx S E A) (s : S) : result (A * (S * list E)) := m (s, []).

(** The state a transaction leaves behind: the new state when the call
    returns, the old one when it reverts. *)
Definition exec {S E A} (m : tx S E A) (s : S) : S :=
  match run m s with
  | Ok (_, (s', _)) => s'
  | Err _ => s
  end.

(** The events a transaction logs; none when it reverts. *)
Definition logged {S E A} (m : tx S E A) (s : S) : list E :=
  match run m s with
  | Ok (_, (_, l)) => l
  | Err _ => []
  end.

Definition succeeds {S E A} (m : tx S E A) (s : S) : bool :=
  match run m s with Ok _ => true | Err _ => false end.

Definition fails_with {S E A} (m : tx S E A) (s : S) (reason : string) : Prop :=
  run m s = Err (Revert reason).

(** ** ReactiveManager.sol *)

Module ReactiveManager.

Record Position := {
  user : address;
  originChainId : uint256;
  originContract : address;
  originToken : address;
  positionIdentifier : string;
  threshold : uint256;
  actionType : string;
  gasBudget : uint256;
  isActive : bool;
  createdAt : uint256;
  lastTriggered : uint256;
}.

(** The value an unset key of [positions] reads as. *)
Definition zero_position : Position :=
  {| user := 0; originChainId := 0; originContract := 0; originToken := 0;
     positionIdentifier := ""; threshold := 0; actionType := ""; gasBudget := 0;
     isActive := false; createdAt := 0; lastTriggered := 0 |}.

Record CallbackRequest := {
  destChainId : uint256;
  destContract : address;
  callData : bytes;
  gasLimit : uint256;
  value : uint256;
}.

Record State := {
  positions : gmap Z Position;
  userPositions : gmap Z (list bytes32);
  processedEvents : gmap Z bool;
  originPositionContract : address;
  destinationHandlerContract : address;
  destinationChainId : uint256;
  totalPositions : uint256;
  totalReactiveActions : uint256;
  totalGasUsed : uint256;
  (** Ownable, Pausable, ReentrancyGuard, and the ether held. *)
  owner : address;
  paused : bool;
  entered : bool;
  balance : uint256;
}.

Inductive Event :=
| PositionCreated (positionId : bytes32) (user : address) (originChainId : uint256)
    (originContract : address) (threshold : uint256) (actionType : string)
| PositionUpdated (positionId : bytes32) (newThreshold : uint256) (newActionType : string)
| ReactiveActionTriggered (positionId originTxHash destTxHash : bytes32) (gasUsed : uint256)
| SubscriptionRegistered (subscriptionId : bytes32) (contractAddress : address)
    (eventSignature : bytes32)
| CallbackEmitted (positionId : bytes32) (destChainId : uint256) (destContract : address)
    (callData : bytes)
| GasBudgetUpdated (positionId : bytes32) (newGasBudget : uint256)
| PositionDeactivated (positionId : bytes32) (user : address)
| Paused (account : address)
| Unpaused (account : address).

Definition M := tx State Event.

(** Field updates. *)
Definition set_threshold (v : uint256) (p : Position) : Position :=
  {| user := user p; originChainId := originChainId p; originContract := originContract p;
     originToken := originToken p; positionIdentifier := positionIdentifier p;
     threshold := v; actionType := actionType p; gasBudget := gasBudget p;
     isActive := isActive p; createdAt := createdAt p; lastTriggered := lastTriggered p |}.
Definition set_actionType (v : string) (p : Position) : Position :=
  {| user := user p; originChainId := originChainId p; originContract := originContract p;
     originToken := originToken p; positionIdentifier := positionIdentifier p;
     threshold := threshold p; actionType := v; gasBudget := gasBudget p;
     isActive := isActive p; createdAt := createdAt p; lastTriggered := lastTriggered p |}.
Definition set_gasBudget (v : uint256) (p : Position) : Position :=
  {| user := user p; originChainId := originChainId p; originContract := originContract p;
     originToken := originToken p; positionIdentifier := positionIdentifier p;
     threshold := threshold p; actionType := actionType p; gasBudget := v;
     isActive := isActive p; createdAt := createdAt p; lastTriggered := lastTriggered p |}.
Definition set_isActive (v : bool) (p : Position) : Position :=
  {| user := user p; originChainId := originChainId p; originContract := originContract p;
     originToken := originToken p; positionIdentifier := positionIdentifier p;
     threshold := threshold p; actionType := actionType p; gasBudget := gasBudget p;
     isActive := v; createdAt := createdAt p; lastTriggered := lastTriggered p |}.
Definition set_lastTriggered (v : uint256) (p : Position) : Position :=
  {| user := user p; originChainId := originChainId p; originContract := originContract p;
     originToken := originToken p; positionIdentifier := positionIdentifier p;
     threshold := threshold p; actionType := actionType p; gasBudget := gasBudget p;
     isActive := isActive p; createdAt := createdAt p; lastTriggered := v |}.

Definition with_positions (f : gmap Z Position -> gmap Z Position) (s : State) : State :=
  {| positions := f (positions s); userPositions := userPositions s;
     processedEvents := processedEvents s;
     originPositionContract := originPositionContract s;
     destinationHandlerContract := destinationHandlerContract s;
     destinationChainId := destinationChainId s; totalPositions := totalPositions s;
     totalReactiveActions := totalReactiveActions s; totalGasUsed := totalGasUsed s;
     owner := owner s; paused := paused s; entered := entered s; balance := balance s |}.
Definition with_userPositions (f : gmap Z (list bytes32) -> gmap Z (list bytes32))
    (s : State) : State :=
  {| positions := positions s; userPositions := f (userPositions s);
     processedEvents := processedEvents s;
     originPositionContract := originPositionContract s;
     destinationHandlerContract := destinationHandlerContract s;
     destinationChainId := destinationChainId s; totalPositions := totalPositions s;
     totalReactiveActions := totalReactiveActions s; totalGasUsed := totalGasUsed s;
     owner := owner s; paused := paused s; entered := entered s; balance := balance s |}.
Definition with_processedEvents (f : gmap Z bool -> gmap Z bool) (s : State) : State :=
  {| positions := positions s; userPositions := userPositions s;
     processedEvents := f (processedEvents s);
     originPositionContract := originPositionContract s;
     destinationHandlerContract := destinationHandlerContract s;
     destinationChainId := destinationChainId s; totalPositions := totalPositions s;
     totalReactiveActions := totalReactiveActions s; totalGasUsed := totalGasUsed s;
     owner := owner s; paused := paused s; entered := entered s; balance := balance s |}.
Definition set_totalPositions (v : uint256) (s : State) : State :=
  {| positions := positions s; userPositions := userPositions s;
     processedEvents := processedEvents s;
     originPositionContract := originPositionContract s;
     destinationHandlerContract := destinationHandlerContract s;
     destinationChainId := destinationChainId s; totalPositions := v;
     totalReactiveActions := totalReactiveActions s; totalGasUsed := totalGasUsed s;
     owner := owner s; paused := paused s; entered := entered s; balance := balance s |}.
Definition set_totalReactiveActions (v : uint256) (s : State) : State :=
  {| positions := positions s; userPositions := userPositions s;
     processedEvents := processedEvents s;
     originPositionContract := originPositionContract s;
     destinationHandlerContract := destinationHandlerContract s;
     destinationChainId := destinationChainId s; totalPositions := totalPositions s;
     totalReactiveActions := v; totalGasUsed := totalGasUsed s;
     owner := owner s; paused := paused s; entered := entered s; balance := balance s |}.
Definition set_totalGasUsed (v : uint256) (s : State) : State :=
  {| positions := positions s; userPositions := userPositions s;
     processedEvents := processedEvents s;
     originPositionContract := originPositionContract s;
     destinationHandlerContract := destinationHandlerContract s;
     destinationChainId := destinationChainId s; totalPositions := totalPositions s;
     totalReactiveActions := totalReactiveActions s; totalGasUsed := v;
     owner := owner s; paused := paused s; entered := entered s; balance := balance s |}.
Definition set_paused (v : bool) (s : State) : State :=
  {| positions := positions s; userPositions := userPositions s;
     processedEvents := processedEvents s;
     originPositionContract := originPositionContract s;
     destinationHandlerContract := destinationHandlerContract s;
     destinationChainId := destinationChainId s; totalPositions := totalPositions s;
     totalReactiveActions := totalReactiveActions s; totalGasUsed := totalGasUsed s;
     owner := owner s; paused := v; entered := entered s; balance := balance s |}.
Definition set_entered (v : bool) (s : State) : State :=
  {| positions := positions s; userPositions := userPositions s;
     processedEvents := processedEvents s;
     originPositionContract := originPositionContract s;
     destinationHandlerContract := destinationHandlerContract s;
     destinationChainId := destinationChainId s; totalPositions := totalPositions s;
     totalReactiveActions := totalReactiveActions s; totalGasUsed := totalGasUsed s;
     owner := owner s; paused := paused s; entered := v; balance := balance s |}.
Definition set_balance (v : uint256) (s : State) : State :=
  {| positions := positions s; userPositions := userPositions s;
     processedEvents := processedEvents s;
     originPositionContract := originPositionContract s;
     destinationHandlerContract := destinationHandlerContract s;
     destinationChainId := destinationChainId s; totalPositions := totalPositions s;
     totalReactiveActions := totalReactiveActions s; totalGasUsed := totalGasUsed s;
     owner := owner s; paused := paused s; entered := entered s; balance := v |}.

Definition set_owner (v : address) (s : State) : State :=
  {| positions := positions s; userPositions := userPositions s;
     processedEvents := processedEvents s;
     originPositionContract := originPositionContract s;
     destinationHandlerContract := destinationHandlerContract s;
     destinationChainId := destinationChainId s; totalPositions := totalPositions s;
     totalReactiveActions := totalReactiveActions s; totalGasUsed := totalGasUsed s;
     owner := v; paused := paused s; entered := entered s; balance := balance s |}.

(** [Position storage position = positions[id]; position.f = v]. *)
Definition store_position (id : bytes32) (f : Position -> Position) : M unit :=
  modify (with_positions (fun m => <[id := f (mapping_get zero_position m id)]> m)).

(** The reactive network's system contract. *)
Definition REACTIVE_SYSTEM : address := 1.

(** *** Modifiers *)

Definition whenNotPaused : M unit :=
  let* s := get in require (negb (paused s)) "Pausable: paused".
Definition whenPaused : M unit :=
  let* s := get in require (paused s) "Pausable: not paused".
Definition onlyOwner (env : Env) : M unit :=
  let* s := get in require (owner s =? msg_sender env) "Ownable: caller is not the owner".
Definition nonReentrant {A} (body : M A) : M A :=
  let* s := get in
  require (negb (entered s)) "ReentrancyGuard: reentrant call" ;;
  modify (set_entered true) ;;
  let* r := body in
  modify (set_entered false) ;;
  ret r.

(** A payable call credits the attached value to the contract. *)
Definition payable (env : Env) : M unit :=
  modify (fun s => set_balance (balance s + msg_value env) s).

(** Whether a call's event log carries a callback request for the
    position: the reactive action was triggered. *)
Definition is_callback_for (positionId : bytes32) (e : Event) : bool :=
  match e with
  | CallbackEmitted p _ _ _ => p =? positionId
  | _ => false
  end.
Definition triggered (positionId : bytes32) (events : list Event) : bool :=
  existsb (is_callback_for positionId) events.

Section WithCrypto.
Context {crypto : Crypto}.

Definition POSITION_CREATED_SIGNATURE : bytes32 :=
  keccak256 (bytes_of_string
    "PositionCreated(bytes32,address,address,address,uint256,uint256,uint256)").
Definition PRICE_UPDATE_SIGNATURE : bytes32 :=
  keccak256 (bytes_of_string "PriceUpdate(bytes32,uint256,uint256,int256)").
Definition LIQUIDITY_UPDATE_SIGNATURE : bytes32 :=
  keccak256 (bytes_of_string "LiquidityUpdate(bytes32,uint256,uint256,int256)").

Definition _registerSubscriptions (env : Env) : M unit :=
  let* s := get in
  let subscriptionId1 := keccak256 (Abi.encodePacked
    [Abi.addr20 (originPositionContract s); Abi.word POSITION_CREATED_SIGNATURE;
     Abi.word (block_timestamp env)]) in
  emit (SubscriptionRegistered subscriptionId1 (originPositionContract s)
          POSITION_CREATED_SIGNATURE) ;;
  let subscriptionId2 := keccak256 (Abi.encodePacked
    [Abi.addr20 (originPositionContract s); Abi.word PRICE_UPDATE_SIGNATURE;
     Abi.word (block_timestamp env)]) in
  emit (SubscriptionRegistered subscriptionId2 (originPositionContract s)
          PRICE_UPDATE_SIGNATURE) ;;
  let subscriptionId3 := keccak256 (Abi.encodePacked
    [Abi.addr20 (originPositionContract s); Abi.word LIQUIDITY_UPDATE_SIGNATURE;
     Abi.word (block_timestamp env)]) in
  emit (SubscriptionRegistered subscriptionId3 (originPositionContract s)
          LIQUIDITY_UPDATE_SIGNATURE).

(** The state the constructor starts from: the deployer owns the
    contract. *)
Definition deployed (env : Env) (_originPositionContract _destinationHandlerContract : address)
    (_destinationChainId : uint256) : State :=
  {| positions := ∅; userPositions := ∅; processedEvents := ∅;
     originPositionContract := _originPositionContract;
     destinationHandlerContract := _destinationHandlerContract;
     destinationChainId := _destinationChainId;
     totalPositions := 0; totalReactiveActions := 0; totalGasUsed := 0;
     owner := msg_sender env; paused := false; entered := false; balance := 0 |}.

Definition constructor (env : Env) : M unit := _registerSubscriptions env.

Definition createPosition (env : Env) (originChainId : uint256)
    (originContract originToken : address) (positionIdentifier : string)
    (threshold : uint256) (actionType : string) (gasBudget : uint256) : M bytes32 :=
  payable env ;;
  whenNotPaused ;;
  nonReentrant (
    require (negb (originContract =? 0)) "Invalid origin contract" ;;
    require (0 <? threshold) "Invalid threshold" ;;
    require (0 <? blen (bytes_of_string actionType)) "Invalid action type" ;;
    require (0 <? gasBudget) "Invalid gas budget" ;;
    require (gasBudget <=? msg_value env) "Insufficient gas payment" ;;
    let positionId := keccak256 (Abi.encodePacked
      [Abi.addr20 (msg_sender env); Abi.word originChainId; Abi.addr20 originContract;
       bytes_of_string positionIdentifier; Abi.word threshold;
       bytes_of_string actionType; Abi.word (block_timestamp env);
       Abi.word (block_number env)]) in
    modify (with_positions <[positionId :=
      {| user := msg_sender env; originChainId := originChainId;
         originContract := originContract; originToken := originToken;
         positionIdentifier := positionIdentifier; threshold := threshold;
         actionType := actionType; gasBudget := gasBudget; isActive := true;
         createdAt := block_timestamp env; lastTriggered := 0 |}]>) ;;
    modify (with_userPositions (fun m =>
      <[msg_sender env := mapping_get [] m (msg_sender env) ++ [positionId]]> m)) ;;
    let* s := get in
    let* n := checked_add (totalPositions s) 1 in
    modify (set_totalPositions n) ;;
    emit (PositionCreated positionId (msg_sender env) originChainId originContract
            threshold actionType) ;;
    ret positionId).

Definition updatePosition (env : Env) (positionId : bytes32) (newThreshold : uint256)
    (newActionType : string) (newGasBudget : uint256) : M unit :=
  nonpayable env ;;
  whenNotPaused ;;
  let* s := get in
  let position := mapping_get zero_position (positions s) positionId in
  require (isActive position) "Position not active" ;;
  require (user position =? msg_sender env) "Not position owner" ;;
  require (0 <? newThreshold) "Invalid threshold" ;;
  require (0 <? blen (bytes_of_string newActionType)) "Invalid action type" ;;
  store_position positionId (set_threshold newThreshold) ;;
  store_position positionId (set_actionType newActionType) ;;
  store_position positionId (set_gasBudget newGasBudget) ;;
  emit (PositionUpdated positionId newThreshold newActionType).

Definition _parseLog (log : bytes) : M (bytes32 * bytes32 * bytes) :=
  require (64 <=? blen log) "Invalid log data" ;;
  let eventSignature := be_to_Z (firstn 32 log) in
  let positionId := be_to_Z (firstn 32 (skipn 32 log)) in
  let eventData := skipn 64 log in
  ret (eventSignature, positionId, eventData).

Definition _triggerReactiveAction (env : Env) (positionId : bytes32)
    (triggerReason : string) (triggerData : bytes) : M unit :=
  store_position positionId (set_lastTriggered (block_timestamp env)) ;;
  let* s := get in
  let* n := checked_add (totalReactiveActions s) 1 in
  modify (set_totalReactiveActions n) ;;
  let* s := get in
  let position := mapping_get zero_position (positions s) positionId in
  let callback :=
    {| destChainId := destinationChainId s;
       destContract := destinationHandlerContract s;
       callData :=
         firstn 4 (Abi.word (keccak256 (bytes_of_string
           "processCallback(bytes32,bytes32,bytes,bytes)")))
         ++ Abi.encode_b32_b32_bytes_bytes
              (keccak256 (Abi.encodePacked
                 [Abi.word positionId; Abi.word (block_timestamp env)]))
              positionId
              (Abi.encode_string_uint_address (actionType position) (threshold position)
                 (originToken position))
              [];
       gasLimit := gasBudget position;
       value := 0 |} in
  emit (CallbackEmitted positionId (destChainId callback) (destContract callback)
          (callData callback)) ;;
  emit (ReactiveActionTriggered positionId 0 0 (gasBudget position)) ;;
  let* g := checked_add (totalGasUsed s) (gasBudget position) in
  modify (set_totalGasUsed g).

(** [uint256(x < 0 ? -x : x)]. *)
Definition abs_change (x : int256) : M uint256 :=
  let* a := (if x <? 0 then checked_neg x else ret x) in
  ret (to_uint256 a).

Definition _handlePriceUpdate (env : Env) (positionId : bytes32) (eventData : bytes)
    : M unit :=
  match Abi.decode_uint_uint_int eventData with
  | None => revert ""
  | Some (oldPrice, newPrice, priceChange) =>
      let* absPriceChange := abs_change priceChange in
      let* s := get in
      let position := mapping_get zero_position (positions s) positionId in
      if threshold position <=? absPriceChange then
        _triggerReactiveAction env positionId "price_threshold_exceeded"
          (Abi.encode_uint_uint_int oldPrice newPrice priceChange)
      else ret tt
  end.

Definition _handleLiquidityUpdate (env : Env) (positionId : bytes32) (eventData : bytes)
    : M unit :=
  match Abi.decode_uint_uint_int eventData with
  | None => revert ""
  | Some (oldLiquidity, newLiquidity, liquidityChange) =>
      let* absLiquidityChange := abs_change liquidityChange in
      let* s := get in
      let position := mapping_get zero_position (positions s) positionId in
      if threshold position <=? absLiquidityChange then
        _triggerReactiveAction env positionId "liquidity_threshold_exceeded"
          (Abi.encode_uint_uint_int oldLiquidity newLiquidity liquidityChange)
      else ret tt
  end.

Definition _handlePositionCreated (positionId : bytes32) (eventData : bytes) : M unit :=
  emit (ReactiveActionTriggered positionId 0 0 0).

Definition react (env : Env) (log : bytes) : M unit :=
  nonpayable env ;;
  whenNotPaused ;;
  require (msg_sender env =? REACTIVE_SYSTEM) "Only Reactive Network can call react" ;;
  let* '(eventSignature, positionId, eventData) := _parseLog log in
  let eventHash := keccak256 (Abi.encodePacked
    [Abi.word eventSignature; Abi.word positionId; eventData]) in
  let* s := get in
  require (negb (mapping_get false (processedEvents s) eventHash)) "Event already processed" ;;
  modify (with_processedEvents <[eventHash := true]>) ;;
  let* s := get in
  let position := mapping_get zero_position (positions s) positionId in
  require (isActive position) "Position not active" ;;
  if eventSignature =? PRICE_UPDATE_SIGNATURE then
    _handlePriceUpdate env positionId eventData
  else if eventSignature =? LIQUIDITY_UPDATE_SIGNATURE then
    _handleLiquidityUpdate env positionId eventData
  else if eventSignature =? POSITION_CREATED_SIGNATURE then
    _handlePositionCreated positionId eventData
  else ret tt.

Definition deactivatePosition (env : Env) (positionId : bytes32) : M unit :=
  nonpayable env ;;
  let* s := get in
  let position := mapping_get zero_position (positions s) positionId in
  require (isActive position) "Position not active" ;;
  require ((user position =? msg_sender env) || (msg_sender env =? owner s))
    "Not authorized" ;;
  store_position positionId (set_isActive false) ;;
  emit (PositionDeactivated positionId (user position)).

Definition updateGasBudget (env : Env) (positionId : bytes32) (newGasBudget : uint256)
    : M unit :=
  payable env ;;
  let* s := get in
  let position := mapping_get zero_position (positions s) positionId in
  require (isActive position) "Position not active" ;;
  require (user position =? msg_sender env) "Not position owner" ;;
  require (0 <? newGasBudget) "Invalid gas budget" ;;
  require (newGasBudget <=? msg_value env) "Insufficient gas payment" ;;
  store_position positionId (set_gasBudget newGasBudget) ;;
  emit (GasBudgetUpdated positionId newGasBudget).

Definition pause (env : Env) : M unit :=
  nonpayable env ;;
  onlyOwner env ;;
  whenNotPaused ;;
  modify (set_paused true) ;;
  emit (Paused (msg_sender env)).

Definition unpause (env : Env) : M unit :=
  nonpayable env ;;
  onlyOwner env ;;
  whenPaused ;;
  modify (set_paused false) ;;
  emit (Unpaused (msg_sender env)).

(** The two entrypoints inherited from OpenZeppelin's [Ownable] (the
    library is imported, not part of the repository). *)
Definition transferOwnership (env : Env) (newOwner : address) : M unit :=
  nonpayable env ;;
  onlyOwner env ;;
  require (negb (newOwner =? 0)) "Ownable: new owner is the zero address" ;;
  modify (set_owner newOwner).

Definition renounceOwnership (env : Env) : M unit :=
  nonpayable env ;;
  onlyOwner env ;;
  modify (set_owner 0).

(** The id [createPosition] gives a position. *)
Definition position_id (env : Env) (originChainId : uint256) (originContract : address)
    (positionIdentifier : string) (threshold : uint256) (actionType : string) : bytes32 :=
  keccak256 (Abi.encodePacked
    [Abi.addr20 (msg_sender env); Abi.word originChainId; Abi.addr20 originContract;
     bytes_of_string positionIdentifier; Abi.word threshold;
     bytes_of_string actionType; Abi.word (block_timestamp env);
     Abi.word (block_number env)]).

(** [payable(owner()).transfer(balance)] reverts when the owner does not
    accept the ether; whether it does is outside the contract. *)
Definition withdrawGasFees (env : Env) (owner_accepts : bool) : M unit :=
  nonpayable env ;;
  onlyOwner env ;;
  let* s := get in
  require (0 <? balance s) "No funds to withdraw" ;;
  if owner_accepts then modify (set_balance 0) else revert "".

(** Views. *)
Definition getPosition (s : State) (positionId : bytes32)
    : address * uint256 * address * uint256 * string * uint256 * bool :=
  let position := mapping_get zero_position (positions s) positionId in
  (user position, originChainId position, originContract position, threshold position,
   actionType position, gasBudget position, isActive position).

Definition getUserPositions (s : State) (user : address) : list bytes32 :=
  mapping_get [] (userPositions s) user.

End WithCrypto.

End ReactiveManager.

(** ** External ERC-20 tokens

    The token contracts the handler and the registry call are not part of
    the repository; what their calls answer is a parameter. *)

Record World := {
  (** [address(this)] of the calling contract. *)
  this : address;
  (** [IERC20(token).balanceOf(holder)]; [None] when the call reverts. *)
  erc20_balanceOf : address -> address -> option uint256;
  (** Whether [IERC20(token).safeTransfer(to, amount)] returns. *)
  erc20_transfer : address -> address -> uint256 -> bool;
  (** Whether [IERC20(token).safeTransferFrom(from, to, amount)] returns. *)
  erc20_transferFrom : address -> address -> address -> uint256 -> bool;
}.

(** ** DestinationHandler.sol *)

Module DestinationHandler.

Record State := {
  processedCallbacks : gmap Z bool;
  authorizedCallers : gmap Z bool;
  owner : address;
  paused : bool;
  entered : bool;
}.

Inductive Event :=
| HedgingTradeExecuted (positionId : bytes32) (tokenIn tokenOut : address)
    (amountIn amountOut : uint256) (txHash : bytes32)
| RebalancingExecuted (positionId : bytes32) (actionType : string) (amount : uint256)
    (txHash : bytes32)
| CallbackProcessed (callbackId : bytes32) (success : bool)
| AuthorizedCallerUpdated (caller : address) (authorized : bool)
| Paused (account : address)
| Unpaused (account : address).

Definition M := tx State Event.

Definition with_processedCallbacks (f : gmap Z bool -> gmap Z bool) (s : State) : State :=
  {| processedCallbacks := f (processedCallbacks s);
     authorizedCallers := authorizedCallers s;
     owner := owner s; paused := paused s; entered := entered s |}.
Definition with_authorizedCallers (f : gmap Z bool -> gmap Z bool) (s : State) : State :=
  {| processedCallbacks := processedCallbacks s;
     authorizedCallers := f (authorizedCallers s);
     owner := owner s; paused := paused s; entered := entered s |}.
Definition set_paused (v : bool) (s : State) : State :=
  {| processedCallbacks := processedCallbacks s;
     authorizedCallers := authorizedCallers s;
     owner := owner s; paused := v; entered := entered s |}.
Definition set_entered (v : bool) (s : State) : State :=
  {| processedCallbacks := processedCallbacks s;
     authorizedCallers := authorizedCallers s;
     owner := owner s; paused := paused s; entered := v |}.

Definition set_owner (v : address) (s : State) : State :=
  {| processedCallbacks := processedCallbacks s;
     authorizedCallers := authorizedCallers s;
     owner := v; paused := paused s; entered := entered s |}.

Definition MAX_SLIPPAGE : uint256 := 5 * 10 ^ 16.
Definition DEFAULT_DEADLINE : uint256 := 300.

(** The deployer owns the handler and is its first authorized caller. *)
Definition deployed (env : Env) : State :=
  {| processedCallbacks := ∅;
     authorizedCallers := {[ msg_sender env := true ]};
     owner := msg_sender env; paused := false; entered := false |}.

(** *** Modifiers *)

Definition onlyAuthorized (env : Env) : M unit :=
  let* s := get in
  require (mapping_get false (authorizedCallers s) (msg_sender env)) "Not authorized caller".
Definition whenNotPaused : M unit :=
  let* s := get in require (negb (paused s)) "Pausable: paused".
Definition whenPaused : M unit :=
  let* s := get in require (paused s) "Pausable: not paused".
Definition onlyOwner (env : Env) : M unit :=
  let* s := get in require (owner s =? msg_sender env) "Ownable: caller is not the owner".
Definition nonReentrant {A} (body : M A) : M A :=
  let* s := get in
  require (negb (entered s)) "ReentrancyGuard: reentrant call" ;;
  modify (set_entered true) ;;
  let* r := body in
  modify (set_entered false) ;;
  ret r.

(** *** Internal helpers *)

Definition _calculateSwapOutput (tokenIn tokenOut : address) (amountIn : uint256)
    : M uint256 :=
  let* m := checked_mul amountIn 95 in
  checked_div m 100.

Definition _executeSwap (w : World) (tokenIn tokenOut : address)
    (amountIn amountOut : uint256) : M unit :=
  if erc20_transfer w tokenIn (this w) amountIn then ret tt else revert "".

Definition _executePartialUnwind (positionId : bytes32) (amount : uint256) : M bool :=
  ret true.

Definition _executeRebalance (positionId : bytes32) (amount : uint256) : M bool :=
  ret true.

Section WithCrypto.
Context {crypto : Crypto}.

(** The functions below are declared [external] and are also called by
    name from [processCallback]; such a call runs the callee, with its
    modifiers, in the caller's context ([msg.sender] and [msg.value]
    unchanged). *)

Definition executeHedgingTrade (env : Env) (w : World) (positionId : bytes32)
    (tokenIn tokenOut : address) (amountIn minAmountOut : uint256)
    : M (uint256 * bytes32) :=
  nonpayable env ;;
  onlyAuthorized env ;;
  whenNotPaused ;;
  nonReentrant (
    require (negb (tokenIn =? 0) && negb (tokenOut =? 0)) "Invalid token addresses" ;;
    require (negb (tokenIn =? tokenOut)) "Tokens must be different" ;;
    require (0 <? amountIn) "Invalid amount" ;;
    require (0 <? minAmountOut) "Invalid min amount" ;;
    match erc20_balanceOf w tokenIn (this w) with
    | None => revert ""
    | Some held =>
        require (amountIn <=? held) "Insufficient balance" ;;
        let* amountOut := _calculateSwapOutput tokenIn tokenOut amountIn in
        require (minAmountOut <=? amountOut) "Slippage too high" ;;
        _executeSwap w tokenIn tokenOut amountIn amountOut ;;
        let txHash := keccak256 (Abi.encodePacked
          [Abi.word positionId; Abi.addr20 tokenIn; Abi.addr20 tokenOut;
           Abi.word amountIn; Abi.word amountOut; Abi.word (block_timestamp env)]) in
        emit (HedgingTradeExecuted positionId tokenIn tokenOut amountIn amountOut txHash) ;;
        ret (amountOut, txHash)
    end).

Definition executeRebalancing (env : Env) (positionId : bytes32) (actionType : string)
    (amount : uint256) : M (bool * bytes32) :=
  nonpayable env ;;
  onlyAuthorized env ;;
  whenNotPaused ;;
  nonReentrant (
    require (0 <? amount) "Invalid amount" ;;
    require (0 <? blen (bytes_of_string actionType)) "Invalid action type" ;;
    let* success :=
      (if keccak256 (bytes_of_string actionType)
            =? keccak256 (bytes_of_string "partial_unwind")
       then _executePartialUnwind positionId amount
       else if keccak256 (bytes_of_string actionType)
                 =? keccak256 (bytes_of_string "rebalance")
       then _executeRebalance positionId amount
       else revert "Unsupported action type") in
    let txHash := keccak256 (Abi.encodePacked
      [Abi.word positionId; bytes_of_string actionType; Abi.word amount;
       Abi.word (block_timestamp env)]) in
    emit (RebalancingExecuted positionId actionType amount txHash) ;;
    ret (success, txHash)).

(** [hash.toEthSignedMessageHash()]. *)
Definition toEthSignedMessageHash (hash : bytes32) : bytes32 :=
  keccak256 (Abi.encodePacked
    [[x19]; bytes_of_string "Ethereum Signed Message:"; [x0a]; bytes_of_string "32";
     Abi.word hash]).

(** [recover] is OpenZeppelin's; every signature it turns down is one
    failure here, under the reason of an unrecoverable signature (the
    library has further reasons for a wrong length and a high [s]). *)
Definition validateCallback (env : Env) (positionId : bytes32) (signature : bytes)
    : M bool :=
  let messageHash := keccak256 (Abi.encodePacked
    [Abi.word positionId; Abi.word (block_chainid env)]) in
  let ethSignedMessageHash := toEthSignedMessageHash messageHash in
  match ecdsa_recover ethSignedMessageHash signature with
  | None => revert "ECDSA: invalid signature"
  | Some signer =>
      let* s := get in
      ret (mapping_get false (authorizedCallers s) signer)
  end.

Definition processCallback (env : Env) (w : World) (callbackId positionId : bytes32)
    (actionData signature : bytes) : M bool :=
  nonpayable env ;;
  onlyAuthorized env ;;
  let* s := get in
  require (negb (mapping_get false (processedCallbacks s) callbackId))
    "Callback already processed" ;;
  let* valid := validateCallback env positionId signature in
  require valid "Invalid callback signature" ;;
  modify (with_processedCallbacks <[callbackId := true]>) ;;
  match Abi.decode_string_uint_address actionData with
  | None => revert ""
  | Some (actionType, amount, token) =>
      let* success :=
        (if keccak256 (bytes_of_string actionType) =? keccak256 (bytes_of_string "hedge")
         then
           let* m := checked_mul amount 95 in
           let* minOut := checked_div m 100 in
           let* '(amountOut, txHash) :=
             executeHedgingTrade env w positionId token 0 amount minOut in
           ret (0 <? amountOut)
         else
           let* '(success, _) := executeRebalancing env positionId actionType amount in
           ret success) in
      emit (CallbackProcessed callbackId success) ;;
      ret success
  end.

Definition updateAuthorizedCaller (env : Env) (caller : address) (authorized : bool)
    : M unit :=
  nonpayable env ;;
  onlyOwner env ;;
  modify (with_authorizedCallers <[caller := authorized]>) ;;
  emit (AuthorizedCallerUpdated caller authorized).

Definition pause (env : Env) : M unit :=
  nonpayable env ;;
  onlyOwner env ;;
  whenNotPaused ;;
  modify (set_paused true) ;;
  emit (Paused (msg_sender env)).

Definition unpause (env : Env) : M unit :=
  nonpayable env ;;
  onlyOwner env ;;
  whenPaused ;;
  modify (set_paused false) ;;
  emit (Unpaused (msg_sender env)).

Definition emergencyWithdraw (env : Env) (w : World) (token : address) (amount : uint256)
    : M unit :=
  nonpayable env ;;
  onlyOwner env ;;
  let* s := get in
  if erc20_transfer w token (owner s) amount then ret tt else revert "".

(** The two entrypoints inherited from OpenZeppelin's [Ownable]. *)
Definition transferOwnership (env : Env) (newOwner : address) : M unit :=
  nonpayable env ;;
  onlyOwner env ;;
  require (negb (newOwner =? 0)) "Ownable: new owner is the zero address" ;;
  modify (set_owner newOwner).

Definition renounceOwnership (env : Env) : M unit :=
  nonpayable env ;;
  onlyOwner env ;;
  modify (set_owner 0).

End WithCrypto.

End DestinationHandler.

(** ** OriginPosition.sol *)

Module OriginPosition.

Record Position := {
  user : address;
  token0 : address;
  token1 : address;
  amount0 : uint256;
  amount1 : uint256;
  currentPrice : uint256;
  liquidity : uint256;
  createdAt : uint256;
  isActive : bool;
}.

Definition zero_position : Position :=
  {| user := 0; token0 := 0; token1 := 0; amount0 := 0; amount1 := 0;
     currentPrice := 0; liquidity := 0; createdAt := 0; isActive := false |}.

Record State := {
  positions : gmap Z Position;
  userPositions : gmap Z (list bytes32);
  totalPositions : uint256;
  owner : address;
  paused : bool;
  entered : bool;
}.

Inductive Event :=
| PositionCreated (positionId : bytes32) (user token0 token1 : address)
    (amount0 amount1 price : uint256)
| PriceUpdate (positionId : bytes32) (oldPrice newPrice : uint256) (priceChange : int256)
| LiquidityUpdate (positionId : bytes32) (oldLiquidity newLiquidity : uint256)
    (liquidityChange : int256)
| PositionClosed (positionId : bytes32) (user : address)
| EmergencyWithdraw (positionId : bytes32) (user : address)
| Paused (account : address)
| Unpaused (account : address).

Definition M := tx State Event.

Definition set_currentPrice (v : uint256) (p : Position) : Position :=
  {| user := user p; token0 := token0 p; token1 := token1 p; amount0 := amount0 p;
     amount1 := amount1 p; currentPrice := v; liquidity := liquidity p;
     createdAt := createdAt p; isActive := isActive p |}.
Definition set_liquidity (v : uint256) (p : Position) : Position :=
  {| user := user p; token0 := token0 p; token1 := token1 p; amount0 := amount0 p;
     amount1 := amount1 p; currentPrice := currentPrice p; liquidity := v;
     createdAt := createdAt p; isActive := isActive p |}.
Definition set_isActive (v : bool) (p : Position) : Position :=
  {| user := user p; token0 := token0 p; token1 := token1 p; amount0 := amount0 p;
     amount1 := amount1 p; currentPrice := currentPrice p; liquidity := liquidity p;
     createdAt := createdAt p; isActive := v |}.

Definition with_positions (f : gmap Z Position -> gmap Z Position) (s : State) : State :=
  {| positions := f (positions s); userPositions := userPositions s;
     totalPositions := totalPositions s; owner := owner s; paused := paused s;
     entered := entered s |}.
Definition with_userPositions (f : gmap Z (list bytes32) -> gmap Z (list bytes32))
    (s : State) : State :=
  {| positions := positions s; userPositions := f (userPositions s);
     totalPositions := totalPositions s; owner := owner s; paused := paused s;
     entered := entered s |}.
Definition set_totalPositions (v : uint256) (s : State) : State :=
  {| positions := positions s; userPositions := userPositions s;
     totalPositions := v; owner := owner s; paused := paused s; entered := entered s |}.
Definition set_paused (v : bool) (s : State) : State :=
  {| positions := positions s; userPositions := userPositions s;
     totalPositions := totalPositions s; owner := owner s; paused := v;
     entered := entered s |}.
Definition set_entered (v : bool) (s : State) : State :=
  {| positions := positions s; userPositions := userPositions s;
     totalPositions := totalPositions s; owner := owner s; paused := paused s;
     entered := v |}.

Definition store_position (id : bytes32) (f : Position -> Position) : M unit :=
  modify (with_positions (fun m => <[id := f (mapping_get zero_position m id)]> m)).

Definition set_owner (v : address) (s : State) : State :=
  {| positions := positions s; userPositions := userPositions s;
     totalPositions := totalPositions s; owner := v; paused := paused s;
     entered := entered s |}.

Definition PRICE_PRECISION : uint256 := 10 ^ 18.
(** 50% max price change per update. *)
Definition MAX_PRICE_CHANGE : uint256 := 50 * 10 ^ 16.

Definition deployed (env : Env) : State :=
  {| positions := ∅; userPositions := ∅; totalPositions := 0;
     owner := msg_sender env; paused := false; entered := false |}.

Definition whenNotPaused : M unit :=
  let* s := get in require (negb (paused s)) "Pausable: paused".
Definition whenPaused : M unit :=
  let* s := get in require (paused s) "Pausable: not paused".
Definition onlyOwner (env : Env) : M unit :=
  let* s := get in require (owner s =? msg_sender env) "Ownable: caller is not the owner".
Definition nonReentrant {A} (body : M A) : M A :=
  let* s := get in
  require (negb (entered s)) "ReentrancyGuard: reentrant call" ;;
  modify (set_entered true) ;;
  let* r := body in
  modify (set_entered false) ;;
  ret r.

(** [abs]: [x >= 0 ? x : -x], with the checked negation. *)
Definition abs (x : int256) : M int256 :=
  if 0 <=? x then ret x else checked_neg x.

(** Checked [int256] subtraction. *)
Definition checked_sub_int (a b : int256) : M int256 :=
  if (MIN_INT256 <=? a - b) && (a - b <=? MAX_INT256) then ret (a - b) else panic 17.

Section WithCrypto.
Context {crypto : Crypto}.

Definition createPosition (env : Env) (w : World) (token0 token1 : address)
    (amount0 amount1 : uint256) : M bytes32 :=
  nonpayable env ;;
  whenNotPaused ;;
  nonReentrant (
    require (negb (token0 =? 0) && negb (token1 =? 0)) "Invalid token addresses" ;;
    require (negb (token0 =? token1)) "Tokens must be different" ;;
    require ((0 <? amount0) && (0 <? amount1)) "Amounts must be positive" ;;
    (if erc20_transferFrom w token0 (msg_sender env) (this w) amount0
     then ret tt else revert "") ;;
    (if erc20_transferFrom w token1 (msg_sender env) (this w) amount1
     then ret tt else revert "") ;;
    let* scaled := checked_mul amount1 PRICE_PRECISION in
    let* initialPrice := checked_div scaled amount0 in
    let* initialLiquidity := checked_add amount0 amount1 in
    let positionId := keccak256 (Abi.encodePacked
      [Abi.addr20 (msg_sender env); Abi.addr20 token0; Abi.addr20 token1;
       Abi.word amount0; Abi.word amount1; Abi.word (block_timestamp env);
       Abi.word (block_number env)]) in
    modify (with_positions <[positionId :=
      {| user := msg_sender env; token0 := token0; token1 := token1;
         amount0 := amount0; amount1 := amount1; currentPrice := initialPrice;
         liquidity := initialLiquidity; createdAt := block_timestamp env;
         isActive := true |}]>) ;;
    modify (with_userPositions (fun m =>
      <[msg_sender env := mapping_get [] m (msg_sender env) ++ [positionId]]> m)) ;;
    let* s := get in
    let* n := checked_add (totalPositions s) 1 in
    modify (set_totalPositions n) ;;
    emit (PositionCreated positionId (msg_sender env) token0 token1 amount0 amount1
            initialPrice) ;;
    ret positionId).

Definition updatePrice (env : Env) (positionId : bytes32) (newPrice : uint256) : M unit :=
  nonpayable env ;;
  onlyOwner env ;;
  let* s := get in
  require (isActive (mapping_get zero_position (positions s) positionId)) "Position not active" ;;
  require (0 <? newPrice) "Invalid price" ;;
  let position := mapping_get zero_position (positions s) positionId in
  let oldPrice := currentPrice position in
  let* priceChange :=
    (if oldPrice <? newPrice then
       let* d := checked_sub newPrice oldPrice in
       let* m := checked_mul d PRICE_PRECISION in
       let* q := checked_div m oldPrice in
       ret (to_int256 q)
     else
       let* d := checked_sub oldPrice newPrice in
       let* m := checked_mul d PRICE_PRECISION in
       let* q := checked_div m oldPrice in
       checked_neg (to_int256 q)) in
  let* a := abs priceChange in
  require (to_uint256 a <=? MAX_PRICE_CHANGE) "Price change too large" ;;
  store_position positionId (set_currentPrice newPrice) ;;
  emit (PriceUpdate positionId oldPrice newPrice priceChange).

Definition updateLiquidity (env : Env) (positionId : bytes32) (newLiquidity : uint256)
    : M unit :=
  nonpayable env ;;
  onlyOwner env ;;
  let* s := get in
  require (isActive (mapping_get zero_position (positions s) positionId)) "Position not active" ;;
  require (0 <? newLiquidity) "Invalid liquidity" ;;
  let position := mapping_get zero_position (positions s) positionId in
  let oldLiquidity := liquidity position in
  let* liquidityChange :=
    checked_sub_int (to_int256 newLiquidity) (to_int256 oldLiquidity) in
  store_position positionId (set_liquidity newLiquidity) ;;
  emit (LiquidityUpdate positionId oldLiquidity newLiquidity liquidityChange).

Definition closePosition (env : Env) (w : World) (positionId : bytes32) : M unit :=
  nonpayable env ;;
  nonReentrant (
    let* s := get in
    let position := mapping_get zero_position (positions s) positionId in
    require (isActive position) "Position not active" ;;
    require ((user position =? msg_sender env) || (msg_sender env =? owner s))
      "Not authorized" ;;
    store_position positionId (set_isActive false) ;;
    (if erc20_transfer w (token0 position) (user position) (amount0 position)
     then ret tt else revert "") ;;
    (if erc20_transfer w (token1 position) (user position) (amount1 position)
     then ret tt else revert "") ;;
    emit (PositionClosed positionId (user position))).

Definition emergencyWithdraw (env : Env) (w : World) (positionId : bytes32) : M unit :=
  nonpayable env ;;
  onlyOwner env ;;
  let* s := get in
  let position := mapping_get zero_position (positions s) positionId in
  require (isActive position) "Position not active" ;;
  store_position positionId (set_isActive false) ;;
  (if erc20_transfer w (token0 position) (owner s) (amount0 position)
   then ret tt else revert "") ;;
  (if erc20_transfer w (token1 position) (owner s) (amount1 position)
   then ret tt else revert "") ;;
  emit (EmergencyWithdraw positionId (user position)).

Definition pause (env : Env) : M unit :=
  nonpayable env ;;
  onlyOwner env ;;
  whenNotPaused ;;
  modify (set_paused true) ;;
  emit (Paused (msg_sender env)).

Definition unpause (env : Env) : M unit :=
  nonpayable env ;;
  onlyOwner env ;;
  whenPaused ;;
  modify (set_paused false) ;;
  emit (Unpaused (msg_sender env)).

(** The two entrypoints inherited from OpenZeppelin's [Ownable]. *)
Definition transferOwnership (env : Env) (newOwner : address) : M unit :=
  nonpayable env ;;
  onlyOwner env ;;
  require (negb (newOwner =? 0)) "Ownable: new owner is the zero address" ;;
  modify (set_owner newOwner).

Definition renounceOwnership (env : Env) : M unit :=
  nonpayable env ;;
  onlyOwner env ;;
  modify (set_owner 0).

(** The id [createPosition] gives a position. *)
Definition position_id (env : Env) (token0 token1 : address) (amount0 amount1 : uint256)
    : bytes32 :=
  keccak256 (Abi.encodePacked
    [Abi.addr20 (msg_sender env); Abi.addr20 token0; Abi.addr20 token1;
     Abi.word amount0; Abi.word amount1; Abi.word (block_timestamp env);
     Abi.word (block_number env)]).

(** Views. *)
Definition getPosition (s : State) (positionId : bytes32)
    : address * address * address * uint256 * uint256 * uint256 * uint256 :=
  let position := mapping_get zero_position (positions s) positionId in
  (user position, token0 position, token1 position, amount0 position, amount1 position,
   currentPrice position, liquidity position).

Definition getUserPositions (s : State) (user : address) : list bytes32 :=
  mapping_get [] (userPositions s) user.

End WithCrypto.

End OriginPosition.

(** ** Concrete scenarios

    A stand-in hash and signature scheme, and the states, callers and
    payloads the examples below run on.  The theorems hold for every
    [Crypto]; the examples need one that computes. *)

Module Scenario.

(** A small rolling hash. *)
Definition toy_hash (b : bytes) : bytes32 :=
  fold_left (fun acc x => (acc * 131 + byte_to_Z x + 1) mod 1000003) b 7.

(** A signature is the signer's address, the signed hash and 13 bytes
    of padding (65 bytes, as an ECDSA signature); recovering against
    another hash yields some other address. *)
Definition toy_sign (signer : address) (hash : bytes32) : bytes :=
  Abi.addr20 signer ++ Abi.word hash ++ Abi.zeros 13.

Definition toy_recover (hash : bytes32) (signature : bytes) : option address :=
  if blen signature =? 65 then
    let signer := be_to_Z (firstn 20 signature) in
    if be_to_Z (firstn 32 (skipn 20 signature)) =? hash then Some signer
    else Some ((signer + hash + 1) mod 2 ^ 160)
  else None.

#[export] Instance toy_crypto : Crypto :=
  {| keccak256 := toy_hash; ecdsa_recover := toy_recover |}.

Definition admin : address := 0xA11CE.
Definition alice : address := 0xB0B.
Definition mallory : address := 0xBAD.
Definition relay : address := ReactiveManager.REACTIVE_SYSTEM.
Definition originAddr : address := 0x0A.
Definition handlerAddr : address := 0x0D.
Definition tokenA : address := 0x7A.
Definition tokenB : address := 0x7B.
Definition chain : uint256 := 1597.

Definition ether (tenths : Z) : uint256 := tenths * 10 ^ 17.

Definition call (sender : address) (val : uint256) (time : uint256) : Env :=
  {| msg_sender := sender; msg_value := val; block_timestamp := time;
     block_number := time / 12; block_chainid := chain |}.

(** Tokens that hold enough and always transfer. *)
Definition world : World :=
  {| this := handlerAddr;
     erc20_balanceOf := fun _ _ => Some (10 ^ 30);
     erc20_transfer := fun _ _ _ => true;
     erc20_transferFrom := fun _ _ _ _ => true |}.

(** *** Manager: one position of alice, threshold 0.2, budget 0.1 *)

Definition manager0 : ReactiveManager.State :=
  ReactiveManager.deployed (call admin 0 1000) originAddr handlerAddr chain.

Definition create1 : ReactiveManager.M bytes32 :=
  ReactiveManager.createPosition (call alice (ether 1) 1012) chain originAddr 0
    "test-position" (ether 2) "rebalance" (ether 1).

Definition position1 : bytes32 :=
  match run create1 manager0 with
  | Ok (id, _) => id
  | Err _ => 0
  end.

Definition manager1 : ReactiveManager.State := exec create1 manager0.

Definition manager1_paused : ReactiveManager.State :=
  exec (ReactiveManager.pause (call admin 0 1024)) manager1.

(** A relayed event [signature ++ positionId ++ abi.encode(old, new, change)]. *)
Definition event_log (sig id : bytes32) (old new : uint256) (change : int256) : bytes :=
  Abi.word sig ++ Abi.word id ++ Abi.encode_uint_uint_int old new change.

(** The price moves 2.0 -> 2.5, a change of 0.25. *)
Definition price_event_025 : bytes :=
  event_log ReactiveManager.PRICE_UPDATE_SIGNATURE position1 (ether 20) (ether 25) (25 * 10 ^ 16).

(** A change of exactly the threshold, 0.2. *)
Definition price_event_020 : bytes :=
  event_log ReactiveManager.PRICE_UPDATE_SIGNATURE position1 (ether 20) (ether 24) (ether 2).

(** The same event for a position the manager has never seen. *)
Definition stray_event : bytes :=
  event_log ReactiveManager.PRICE_UPDATE_SIGNATURE 77 (ether 20) (ether 25) (25 * 10 ^ 16).

(** A change of 0.1, below the threshold. *)
Definition price_event_010 : bytes :=
  event_log ReactiveManager.PRICE_UPDATE_SIGNATURE position1 (ether 20) (ether 21) (ether 1).

(** Deliveries by the relay, and redeliveries one block later. *)
Definition deliver_025 : ReactiveManager.M unit :=
  ReactiveManager.react (call relay 0 1030) price_event_025.
Definition redeliver_025 : ReactiveManager.M unit :=
  ReactiveManager.react (call relay 0 1042) price_event_025.
Definition deliver_020 : ReactiveManager.M unit :=
  ReactiveManager.react (call relay 0 1030) price_event_020.
Definition deliver_010 : ReactiveManager.M unit :=
  ReactiveManager.react (call relay 0 1030) price_event_010.
Definition deliver_stray : ReactiveManager.M unit :=
  ReactiveManager.react (call relay 0 1030) stray_event.
Definition redeliver_stray : ReactiveManager.M unit :=
  ReactiveManager.react (call relay 0 1042) stray_event.

(** *** Handler: deployed by admin, who is its authorized caller *)

Definition handler0 : DestinationHandler.State :=
  DestinationHandler.deployed (call admin 0 1000).


(** admin's signature over [(position1, chain)]. *)
Definition signature1 : bytes :=
  toy_sign admin
    (DestinationHandler.toEthSignedMessageHash
       (keccak256 (Abi.encodePacked [Abi.word position1; Abi.word chain]))).

Definition rebalance_data : bytes :=
  Abi.encode_string_uint_address "rebalance" (ether 2) tokenA.
Definition unwind_data : bytes :=
  Abi.encode_string_uint_address "partial_unwind" (ether 5) tokenA.
Definition hedge_data : bytes :=
  Abi.encode_string_uint_address "hedge" (ether 2) tokenA.

(** Callbacks for [position1] sent by admin under [signature1]. *)
Definition callback (id : bytes32) (actionData : bytes) : DestinationHandler.M bool :=
  DestinationHandler.processCallback (call admin 0 1030) world id position1 actionData
    signature1.

(** *** Registry: positions created by alice from given amounts *)

Definition registry0 : OriginPosition.State :=
  OriginPosition.deployed (call admin 0 1000).

Definition create_origin (a0 a1 : uint256) : OriginPosition.M bytes32 :=
  OriginPosition.createPosition (call alice 0 1012) world tokenA tokenB a0 a1.

Definition origin_id (a0 a1 : uint256) : bytes32 :=
  match run (create_origin a0 a1) registry0 with
  | Ok (id, _) => id
  | Err _ => 0
  end.

Definition registry_of (a0 a1 : uint256) : OriginPosition.State :=
  exec (create_origin a0 a1) registry0.

End Scenario.

(** ** Vocabulary of the properties *)

Module RM := ReactiveManager.
Module DH := DestinationHandler.
Module OP := OriginPosition.

(** What a call reports: nothing when it returns, the failure when it
    reverts. *)
Definition outcome {A} (r : result A) : option failure :=
  match r with
  | Ok _ => None
  | Err f => Some f
  end.

(** A call is rejected when it reverts: the state stays as it was and no
    event is logged. *)
Definition rejected {S E A} (m : tx S E A) (s : S) : Prop :=
  succeeds m s = false /\ exec m s = s /\ logged m s = [].

(** The signed relative price change of the registry, in words of the
    specification: [(newPrice - oldPrice) * 10^18 / oldPrice], truncated
    towards zero. *)
Definition relative_change (oldPrice newPrice : uint256) : Z :=
  Z.quot ((newPrice - oldPrice) * OP.PRICE_PRECISION) oldPrice.

Section Vocabulary.
Context {crypto : Crypto}.

(** The key under which [react] records a log in [processedEvents]. *)
Definition dedup_key (log : bytes) : bytes32 :=
  keccak256 (Abi.encodePacked
    [Abi.word (be_to_Z (firstn 32 log)); Abi.word (be_to_Z (firstn 32 (skipn 32 log)));
     skipn 64 log]).

(** An action type that [processCallback] routes to [executeRebalancing]
    and that [executeRebalancing] supports. *)
Definition rebalancing_action (actionType : string) : bool :=
  negb (keccak256 (bytes_of_string actionType) =? keccak256 (bytes_of_string "hedge"))
  && ((keccak256 (bytes_of_string actionType)
         =? keccak256 (bytes_of_string "partial_unwind"))
      || (keccak256 (bytes_of_string actionType) =? keccak256 (bytes_of_string "rebalance")))
  && (0 <? blen (bytes_of_string actionType)).

(** The verdict of [validateCallback]; [false] also when it reverts. *)
Definition callback_valid (env : Env) (positionId : bytes32) (signature : bytes)
    (s : DH.State) : bool :=
  match run (DH.validateCallback env positionId signature) s with
  | Ok (valid, _) => valid
  | Err _ => false
  end.

(** *** Sequences of calls

    The external entrypoints of each contract as data, the state a call
    leaves behind, and the state after a sequence of calls. *)

Inductive ManagerCall :=
| MCreatePosition (env : Env) (originChainId : uint256) (originContract originToken : address)
    (positionIdentifier : string) (threshold : uint256) (actionType : string)
    (gasBudget : uint256)
| MUpdatePosition (env : Env) (positionId : bytes32) (newThreshold : uint256)
    (newActionType : string) (newGasBudget : uint256)
| MReact (env : Env) (log : bytes)
| MDeactivatePosition (env : Env) (positionId : bytes32)
| MUpdateGasBudget (env : Env) (positionId : bytes32) (newGasBudget : uint256)
| MPause (env : Env)
| MUnpause (env : Env)
| MWithdrawGasFees (env : Env) (owner_accepts : bool)
| MTransferOwnership (env : Env) (newOwner : address)
| MRenounceOwnership (env : Env).

Definition manager_step (c : ManagerCall) (s : RM.State) : RM.State :=
  match c with
  | MCreatePosition env chainId originContract originToken label threshold actionType
      gasBudget =>
      exec (RM.createPosition env chainId originContract originToken label threshold
              actionType gasBudget) s
  | MUpdatePosition env id newThreshold newActionType newGasBudget =>
      exec (RM.updatePosition env id newThreshold newActionType newGasBudget) s
  | MReact env log => exec (RM.react env log) s
  | MDeactivatePosition env id => exec (RM.deactivatePosition env id) s
  | MUpdateGasBudget env id newGasBudget => exec (RM.updateGasBudget env id newGasBudget) s
  | MPause env => exec (RM.pause env) s
  | MUnpause env => exec (RM.unpause env) s
  | MWithdrawGasFees env owner_accepts => exec (RM.withdrawGasFees env owner_accepts) s
  | MTransferOwnership env newOwner => exec (RM.transferOwnership env newOwner) s
  | MRenounceOwnership env => exec (RM.renounceOwnership env) s
  end.

Definition manager_trace (calls : list ManagerCall) (s : RM.State) : RM.State :=
  fold_left (fun s c => manager_step c s) calls s.

Definition is_createPosition (c : ManagerCall) : bool :=
  match c with
  | MCreatePosition _ _ _ _ _ _ _ _ => true
  | _ => false
  end.

Inductive HandlerCall :=
| HExecuteHedgingTrade (env : Env) (w : World) (positionId : bytes32)
    (tokenIn tokenOut : address) (amountIn minAmountOut : uint256)
| HExecuteRebalancing (env : Env) (positionId : bytes32) (actionType : string)
    (amount : uint256)
| HProcessCallback (env : Env) (w : World) (callbackId positionId : bytes32)
    (actionData signature : bytes)
| HUpdateAuthorizedCaller (env : Env) (caller : address) (authorized : bool)
| HPause (env : Env)
| HUnpause (env : Env)
| HEmergencyWithdraw (env : Env) (w : World) (token : address) (amount : uint256)
| HTransferOwnership (env : Env) (newOwner : address)
| HRenounceOwnership (env : Env).

Definition handler_step (c : HandlerCall) (s : DH.State) : DH.State :=
  match c with
  | HExecuteHedgingTrade env w id tokenIn tokenOut amountIn minAmountOut =>
      exec (DH.executeHedgingTrade env w id tokenIn tokenOut amountIn minAmountOut) s
  | HExecuteRebalancing env id actionType amount =>
      exec (DH.executeRebalancing env id actionType amount) s
  | HProcessCallback env w cb id data sig => exec (DH.processCallback env w cb id data sig) s
  | HUpdateAuthorizedCaller env caller authorized =>
      exec (DH.updateAuthorizedCaller env caller authorized) s
  | HPause env => exec (DH.pause env) s
  | HUnpause env => exec (DH.unpause env) s
  | HEmergencyWithdraw env w token amount => exec (DH.emergencyWithdraw env w token amount) s
  | HTransferOwnership env newOwner => exec (DH.transferOwnership env newOwner) s
  | HRenounceOwnership env => exec (DH.renounceOwnership env) s
  end.

Definition handler_trace (calls : list HandlerCall) (s : DH.State) : DH.State :=
  fold_left (fun s c => handler_step c s) calls s.

Inductive RegistryCall :=
| OCreatePosition (env : Env) (w : World) (token0 token1 : address)
    (amount0 amount1 : uint256)
| OUpdatePrice (env : Env) (positionId : bytes32) (newPrice : uint256)
| OUpdateLiquidity (env : Env) (positionId : bytes32) (newLiquidity : uint256)
| OClosePosition (env : Env) (w : World) (positionId : bytes32)
| OEmergencyWithdraw (env : Env) (w : World) (positionId : bytes32)
| OPause (env : Env)
| OUnpause (env : Env)
| OTransferOwnership (env : Env) (newOwner : address)
| ORenounceOwnership (env : Env).

Definition registry_step (c : RegistryCall) (s : OP.State) : OP.State :=
  match c with
  | OCreatePosition env w token0 token1 amount0 amount1 =>
      exec (OP.createPosition env w token0 token1 amount0 amount1) s
  | OUpdatePrice env id newPrice => exec (OP.updatePrice env id newPrice) s
  | OUpdateLiquidity env id newLiquidity => exec (OP.updateLiquidity env id newLiquidity) s
  | OClosePosition env w id => exec (OP.closePosition env w id) s
  | OEmergencyWithdraw env w id => exec (OP.emergencyWithdraw env w id) s
  | OPause env => exec (OP.pause env) s
  | OUnpause env => exec (OP.unpause env) s
  | OTransferOwnership env newOwner => exec (OP.transferOwnership env newOwner) s
  | ORenounceOwnership env => exec (OP.renounceOwnership env) s
  end.

Definition registry_trace (calls : list RegistryCall) (s : OP.State) : OP.State :=
  fold_left (fun s c => registry_step c s) calls s.

Definition is_registry_create (c : RegistryCall) : bool :=
  match c with
  | OCreatePosition _ _ _ _ _ _ => true
  | _ => false
  end.

End Vocabulary.

(** ** Proof tools *)

(** Unfolding the transaction combinators. *)
Ltac tx_unfold :=
  unfold fails_with, succeeds, exec, run, nonpayable, require, checked_add,
    checked_sub, checked_mul, checked_div, checked_neg, revert, panic, bind, ret,
    get, modify, emit in *;
  cbn [fst snd] in *.

(** Simplification that computes record fields and tests only. *)
Ltac tx_simpl :=
  cbn [fst snd negb andb orb outcome
       RM.user RM.originChainId RM.originContract RM.originToken RM.positionIdentifier
       RM.threshold RM.actionType RM.gasBudget RM.isActive RM.createdAt RM.lastTriggered
       RM.destChainId RM.destContract RM.callData RM.gasLimit RM.value
       RM.positions RM.userPositions RM.processedEvents RM.originPositionContract
       RM.destinationHandlerContract RM.destinationChainId RM.totalPositions
       RM.totalReactiveActions RM.totalGasUsed RM.owner RM.paused RM.entered RM.balance
       RM.set_threshold RM.set_actionType RM.set_gasBudget RM.set_isActive
       RM.set_lastTriggered RM.with_positions RM.with_userPositions
       RM.with_processedEvents RM.set_totalPositions RM.set_totalReactiveActions
       RM.set_totalGasUsed RM.set_paused RM.set_entered RM.set_balance RM.set_owner
       DH.processedCallbacks DH.authorizedCallers DH.owner DH.paused DH.entered
       DH.with_processedCallbacks DH.with_authorizedCallers DH.set_paused DH.set_entered
       DH.set_owner
       OP.user OP.token0 OP.token1 OP.amount0 OP.amount1 OP.currentPrice OP.liquidity
       OP.createdAt OP.isActive OP.positions OP.userPositions OP.totalPositions OP.owner
       OP.paused OP.entered OP.set_currentPrice OP.set_liquidity OP.set_isActive
       OP.with_positions OP.with_userPositions OP.set_totalPositions OP.set_paused
       OP.set_entered OP.set_owner] in *.

(** Case analysis on the next boolean test of a call known to have
    returned. *)
Ltac tx_case H :=
  match type of H with
  | context [if ?c then _ else _] =>
      lazymatch type of c with bool => idtac end;
      destruct c eqn:?; tx_simpl; try discriminate H
  end.

(** Running a call forward: each test whose value is among the hypotheses
    is replaced by it. *)
Ltac tx_forward :=
  repeat (tx_simpl;
          match goal with
          | H : ?c = true |- context [?c] => rewrite H
          | H : ?c = false |- context [?c] => rewrite H
          end);
  tx_simpl.

(** Discharging the next premise of [H] by evaluation. *)
Ltac discharge H :=
  lazymatch type of H with
  | ?P -> _ =>
      let h := fresh in
      assert (h : P) by (vm_compute; first [reflexivity | discriminate | lia]);
      specialize (H h); clear h
  end.

(** Case analysis on the next boolean test of the goal. *)
Ltac goal_case :=
  match goal with
  | |- context [if ?c then _ else _] =>
      lazymatch type of c with bool => idtac end;
      destruct c eqn:?; tx_simpl;
      try lazymatch goal with |- ?x = ?x => reflexivity end
  end.

(** * Properties *)

(** ** Transactions: generic facts *)

Lemma exec_rejected {S E A} (m : tx S E A) (s : S) :
  succeeds m s = false -> exec m s = s.
Proof.
  unfold succeeds, exec. destruct (run m s) as [[? [? ?]]|]; [discriminate | reflexivity].
Qed.

Lemma fails_with_rejected {S E A} (m : tx S E A) (s : S) (reason : string) :
  fails_with m s reason -> succeeds m s = false.
Proof. unfold fails_with, succeeds. intros ->. reflexivity. Qed.

Lemma outcome_rejected {S E A} (m : tx S E A) (s : S) (f : failure) :
  outcome (run m s) = Some f -> succeeds m s = false.
Proof. unfold outcome, succeeds. destruct (run m s); [discriminate | reflexivity]. Qed.

Lemma exec_returned {S E A} (m : tx S E A) (s s' : S) (a : A) (l : list E) :
  run m s = Ok (a, (s', l)) -> exec m s = s' /\ succeeds m s = true.
Proof. unfold exec, succeeds. intros ->. split; reflexivity. Qed.

Lemma returned_inv {S E A} (a a' : A) (s s' : S) (l l' : list E) :
  Ok (a, (s, l)) = Ok (a', (s', l')) -> a = a' /\ s = s' /\ l = l'.
Proof. intros H. injection H as -> -> ->. auto. Qed.

Lemma mapping_get_insert_eq {V} (zero : V) (m : gmap Z V) (k : Z) (v : V) :
  mapping_get zero (<[k := v]> m) k = v.
Proof. unfold mapping_get. rewrite lookup_insert_eq. reflexivity. Qed.

Lemma mapping_get_insert_ne {V} (zero : V) (m : gmap Z V) (k k' : Z) (v : V) :
  k <> k' -> mapping_get zero (<[k := v]> m) k' = mapping_get zero m k'.
Proof. intros ?. unfold mapping_get. rewrite lookup_insert_ne by assumption. reflexivity. Qed.

(** ** Bytes and words *)

Lemma byte_to_Z_bound (x : byte) : 0 <= byte_to_Z x < 256.
Proof.
  unfold byte_to_Z. pose proof (Byte.to_N_bounded x) as H.
  split; [apply N2Z.is_nonneg |].
  change 256 with (Z.of_N 256). apply N2Z.inj_lt. lia.
Qed.

Lemma be_to_Z_snoc (b : bytes) (x : byte) :
  be_to_Z (b ++ [x]) = be_to_Z b * 256 + byte_to_Z x.
Proof. unfold be_to_Z. rewrite fold_left_app. reflexivity. Qed.

Lemma be_to_Z_bound (b : bytes) : 0 <= be_to_Z b < 256 ^ Z.of_nat (length b).
Proof.
  induction b as [| x b IH] using rev_ind.
  - unfold be_to_Z. cbn. lia.
  - rewrite be_to_Z_snoc, length_app, Nat2Z.inj_add. cbn [length].
    change (Z.of_nat 1) with 1. rewrite Z.pow_add_r, Z.pow_1_r by lia.
    pose proof (byte_to_Z_bound x). nia.
Qed.

Lemma word_at_bound (d : bytes) (off : nat) : 0 <= Abi.word_at d off <= MAX_UINT256.
Proof.
  unfold Abi.word_at, MAX_UINT256.
  pose proof (be_to_Z_bound (firstn 32 (skipn off d))) as H.
  assert (Hlen : (length (firstn 32 (skipn off d)) <= 32)%nat) by apply firstn_le_length.
  assert (256 ^ Z.of_nat (length (firstn 32 (skipn off d))) <= 256 ^ 32)
    by (apply Z.pow_le_mono_r; lia).
  change (256 ^ 32) with (2 ^ 256) in *. lia.
Qed.

Lemma to_int256_range (w : uint256) :
  0 <= w <= MAX_UINT256 -> MIN_INT256 <= to_int256 w <= MAX_INT256.
Proof.
  unfold to_int256, MAX_UINT256, MIN_INT256, MAX_INT256. intros H.
  destruct (w <? 2 ^ 255) eqn:E; [apply Z.ltb_lt in E | apply Z.ltb_ge in E]; lia.
Qed.

Lemma decode_change_range (d : bytes) (a b : uint256) (c : int256) :
  Abi.decode_uint_uint_int d = Some (a, b, c) -> MIN_INT256 <= c <= MAX_INT256.
Proof.
  unfold Abi.decode_uint_uint_int. destruct (blen d <? 96); [discriminate |].
  intros H. injection H as _ _ <-. apply to_int256_range, word_at_bound.
Qed.

(** ** ReactiveManager: the ingestion path *)

Section ManagerReact.
Context {crypto : Crypto}.

(** What a trigger does to the state and the log. *)
Lemma triggerReactiveAction_returned (env : Env) (id : bytes32) (reason : string)
    (data : bytes) (s s' : RM.State) (l l' : list RM.Event) (u : unit) :
  RM._triggerReactiveAction env id reason data (s, l) = Ok (u, (s', l')) ->
  RM.totalReactiveActions s' = RM.totalReactiveActions s + 1
  /\ RM.totalGasUsed s'
     = RM.totalGasUsed s + RM.gasBudget (mapping_get RM.zero_position (RM.positions s) id)
  /\ RM.lastTriggered (mapping_get RM.zero_position (RM.positions s') id)
     = block_timestamp env
  /\ RM.processedEvents s' = RM.processedEvents s
  /\ RM.paused s' = RM.paused s
  /\ RM.triggered id l' = true.
Proof.
  unfold RM._triggerReactiveAction, RM.store_position. tx_unfold. tx_simpl.
  intros H. tx_case H. tx_case H. apply returned_inv in H as (_ & <- & <-).
  tx_simpl. rewrite !mapping_get_insert_eq. tx_simpl.
  repeat split; try reflexivity.
  unfold RM.triggered. rewrite !existsb_app. cbn [existsb RM.is_callback_for].
  rewrite Z.eqb_refl. cbn [orb]. rewrite orb_true_r. reflexivity.
Qed.

(** [abs_change] is the absolute value; it panics on the least [int256]. *)
Lemma abs_change_returned (x : int256) (a : uint256) (σ σ' : RM.State * list RM.Event) :
  MIN_INT256 <= x <= MAX_INT256 ->
  RM.abs_change x σ = Ok (a, σ') -> a = Z.abs x /\ σ' = σ.
Proof.
  unfold RM.abs_change, to_uint256, MIN_INT256, MAX_INT256. tx_unfold. intros Hx H.
  destruct (x <? 0) eqn:Hneg; cbn in H.
  - apply Z.ltb_lt in Hneg. destruct (x =? MIN_INT256) eqn:Hmin; cbn in H; [discriminate |].
    apply Z.eqb_neq in Hmin. unfold MIN_INT256 in Hmin.
    injection H as <- <-. split; [| reflexivity].
    rewrite Z.mod_small by lia. lia.
  - apply Z.ltb_ge in Hneg. injection H as <- <-. split; [| reflexivity].
    rewrite Z.mod_small by lia. lia.
Qed.

Lemma handlePriceUpdate_returned (env : Env) (id : bytes32) (data : bytes)
    (old new : uint256) (d : int256) (s s' : RM.State) (l l' : list RM.Event) (u : unit) :
  Abi.decode_uint_uint_int data = Some (old, new, d) ->
  RM._handlePriceUpdate env id data (s, l) = Ok (u, (s', l')) ->
  (RM.threshold (mapping_get RM.zero_position (RM.positions s) id) <= Z.abs d
   /\ RM._triggerReactiveAction env id "price_threshold_exceeded"
        (Abi.encode_uint_uint_int old new d) (s, l) = Ok (u, (s', l')))
  \/ (Z.abs d < RM.threshold (mapping_get RM.zero_position (RM.positions s) id)
      /\ s' = s /\ l' = l).
Proof.
  intros Hdec H. pose proof (decode_change_range _ _ _ _ Hdec) as Hrange.
  unfold RM._handlePriceUpdate in H. rewrite Hdec in H.
  unfold bind at 1 in H.
  destruct (RM.abs_change d (s, l)) as [[a σ]|] eqn:Habs; [| discriminate].
  apply abs_change_returned in Habs as [-> ->]; [| exact Hrange].
  unfold bind, get in H. cbn [fst snd] in H.
  destruct (_ <=? Z.abs d) eqn:Hcmp.
  - left. split; [apply Z.leb_le; exact Hcmp | exact H].
  - right. apply Z.leb_gt in Hcmp. unfold ret in H.
    apply returned_inv in H as (_ & <- & <-). auto.
Qed.

Lemma handleLiquidityUpdate_returned (env : Env) (id : bytes32) (data : bytes)
    (old new : uint256) (d : int256) (s s' : RM.State) (l l' : list RM.Event) (u : unit) :
  Abi.decode_uint_uint_int data = Some (old, new, d) ->
  RM._handleLiquidityUpdate env id data (s, l) = Ok (u, (s', l')) ->
  (RM.threshold (mapping_get RM.zero_position (RM.positions s) id) <= Z.abs d
   /\ RM._triggerReactiveAction env id "liquidity_threshold_exceeded"
        (Abi.encode_uint_uint_int old new d) (s, l) = Ok (u, (s', l')))
  \/ (Z.abs d < RM.threshold (mapping_get RM.zero_position (RM.positions s) id)
      /\ s' = s /\ l' = l).
Proof.
  intros Hdec H. pose proof (decode_change_range _ _ _ _ Hdec) as Hrange.
  unfold RM._handleLiquidityUpdate in H. rewrite Hdec in H.
  unfold bind at 1 in H.
  destruct (RM.abs_change d (s, l)) as [[a σ]|] eqn:Habs; [| discriminate].
  apply abs_change_returned in Habs as [-> ->]; [| exact Hrange].
  unfold bind, get in H. cbn [fst snd] in H.
  destruct (_ <=? Z.abs d) eqn:Hcmp.
  - left. split; [apply Z.leb_le; exact Hcmp | exact H].
  - right. apply Z.leb_gt in Hcmp. unfold ret in H.
    apply returned_inv in H as (_ & <- & <-). auto.
Qed.

End ManagerReact.

Section ManagerIngestion.
Context {crypto : Crypto}.

(** The three event handlers [react] dispatches to. *)
Lemma handlers_preserve_ledger (env : Env) (sig id : bytes32) (data : bytes)
    (s s' : RM.State) (l l' : list RM.Event) (u : unit) :
  (if sig =? RM.PRICE_UPDATE_SIGNATURE then RM._handlePriceUpdate env id data
   else if sig =? RM.LIQUIDITY_UPDATE_SIGNATURE then RM._handleLiquidityUpdate env id data
   else if sig =? RM.POSITION_CREATED_SIGNATURE then RM._handlePositionCreated id data
   else ret tt) (s, l) = Ok (u, (s', l')) ->
  RM.processedEvents s' = RM.processedEvents s /\ RM.paused s' = RM.paused s.
Proof.
  intros H.
  assert (Htrig : forall r d, RM._triggerReactiveAction env id r d (s, l) = Ok (u, (s', l')) ->
            RM.processedEvents s' = RM.processedEvents s /\ RM.paused s' = RM.paused s).
  { intros r d Ht. apply triggerReactiveAction_returned in Ht. tauto. }
  destruct (sig =? RM.PRICE_UPDATE_SIGNATURE).
  { destruct (Abi.decode_uint_uint_int data) as [[[old new] d]|] eqn:Hdec.
    - destruct (handlePriceUpdate_returned _ _ _ _ _ _ _ _ _ _ _ Hdec H)
        as [[_ Ht] | (_ & -> & _)]; eauto.
    - unfold RM._handlePriceUpdate in H. rewrite Hdec in H. discriminate. }
  destruct (sig =? RM.LIQUIDITY_UPDATE_SIGNATURE).
  { destruct (Abi.decode_uint_uint_int data) as [[[old new] d]|] eqn:Hdec.
    - destruct (handleLiquidityUpdate_returned _ _ _ _ _ _ _ _ _ _ _ Hdec H)
        as [[_ Ht] | (_ & -> & _)]; eauto.
    - unfold RM._handleLiquidityUpdate in H. rewrite Hdec in H. discriminate. }
  destruct (sig =? RM.POSITION_CREATED_SIGNATURE).
  - unfold RM._handlePositionCreated in H. tx_unfold.
    apply returned_inv in H as (_ & <- & _). auto.
  - unfold ret in H. apply returned_inv in H as (_ & <- & _). auto.
Qed.

(** A call of [react] that returns has passed every guard, has recorded
    the log under its key, and has then run the handler of the event. *)
Lemma react_returned (env : Env) (log : bytes) (s s' : RM.State)
    (events : list RM.Event) (u : unit) :
  run (RM.react env log) s = Ok (u, (s', events)) ->
  msg_value env = 0
  /\ RM.paused s = false
  /\ msg_sender env = RM.REACTIVE_SYSTEM
  /\ 64 <= blen log
  /\ mapping_get false (RM.processedEvents s) (dedup_key log) = false
  /\ RM.isActive (mapping_get RM.zero_position (RM.positions s)
                    (be_to_Z (firstn 32 (skipn 32 log)))) = true
  /\ (if be_to_Z (firstn 32 log) =? RM.PRICE_UPDATE_SIGNATURE
      then RM._handlePriceUpdate env (be_to_Z (firstn 32 (skipn 32 log))) (skipn 64 log)
      else if be_to_Z (firstn 32 log) =? RM.LIQUIDITY_UPDATE_SIGNATURE
      then RM._handleLiquidityUpdate env (be_to_Z (firstn 32 (skipn 32 log))) (skipn 64 log)
      else if be_to_Z (firstn 32 log) =? RM.POSITION_CREATED_SIGNATURE
      then RM._handlePositionCreated (be_to_Z (firstn 32 (skipn 32 log))) (skipn 64 log)
      else ret tt)
       (RM.with_processedEvents <[dedup_key log := true]> s, [])
     = Ok (u, (s', events)).
Proof.
  unfold RM.react, RM.whenNotPaused, RM._parseLog, dedup_key.
  tx_unfold. intros H.
  destruct (msg_value env =? 0) eqn:Hv; tx_simpl; [| discriminate H].
  destruct (RM.paused s) eqn:Hp; tx_simpl; [discriminate H |].
  destruct (msg_sender env =? RM.REACTIVE_SYSTEM) eqn:Hs; tx_simpl; [| discriminate H].
  destruct (64 <=? blen log) eqn:Hlen; tx_simpl; [| discriminate H].
  destruct (mapping_get false (RM.processedEvents s) _) eqn:Hseen; tx_simpl;
    [discriminate H |].
  destruct (RM.isActive _) eqn:Hact; tx_simpl; [| discriminate H].
  apply Z.eqb_eq in Hv, Hs. apply Z.leb_le in Hlen.
  repeat split; assumption.
Qed.

(** Once a log is recorded, a second delivery by the relay is refused. *)
Lemma react_replay_refused (env : Env) (log : bytes) (s : RM.State) :
  msg_value env = 0 -> RM.paused s = false -> msg_sender env = RM.REACTIVE_SYSTEM ->
  64 <= blen log ->
  mapping_get false (RM.processedEvents s) (dedup_key log) = true ->
  fails_with (RM.react env log) s "Event already processed".
Proof.
  intros Hv Hp Hs Hlen Hseen.
  unfold RM.react, RM.whenNotPaused, RM._parseLog.
  apply Z.leb_le in Hlen.
  tx_unfold. rewrite Hv. cbn [Z.eqb]. tx_simpl. rewrite Hp. tx_simpl.
  rewrite Hs, Z.eqb_refl. tx_simpl. rewrite Hlen. tx_simpl.
  lazymatch goal with
  | |- context [negb ?x] =>
      change x with (mapping_get false (RM.processedEvents s) (dedup_key log))
  end.
  rewrite Hseen. reflexivity.
Qed.

(** Whether and how a call fails does not depend on the block it runs in. *)
Lemma triggerReactiveAction_outcome (env env' : Env) (id : bytes32) (r : string)
    (d : bytes) (σ : RM.State * list RM.Event) :
  outcome (RM._triggerReactiveAction env' id r d σ)
  = outcome (RM._triggerReactiveAction env id r d σ).
Proof.
  destruct σ as [s l].
  unfold RM._triggerReactiveAction, RM.store_position. tx_unfold. tx_simpl.
  goal_case. rewrite !mapping_get_insert_eq. tx_simpl. goal_case.
Qed.

Lemma handlePriceUpdate_outcome (env env' : Env) (id : bytes32) (data : bytes)
    (σ : RM.State * list RM.Event) :
  outcome (RM._handlePriceUpdate env' id data σ)
  = outcome (RM._handlePriceUpdate env id data σ).
Proof.
  unfold RM._handlePriceUpdate, RM.abs_change.
  destruct (Abi.decode_uint_uint_int data) as [[[old new] d]|]; [| reflexivity].
  tx_unfold. repeat goal_case; apply triggerReactiveAction_outcome.
Qed.

Lemma handleLiquidityUpdate_outcome (env env' : Env) (id : bytes32) (data : bytes)
    (σ : RM.State * list RM.Event) :
  outcome (RM._handleLiquidityUpdate env' id data σ)
  = outcome (RM._handleLiquidityUpdate env id data σ).
Proof.
  unfold RM._handleLiquidityUpdate, RM.abs_change.
  destruct (Abi.decode_uint_uint_int data) as [[[old new] d]|]; [| reflexivity].
  tx_unfold. repeat goal_case; apply triggerReactiveAction_outcome.
Qed.

Lemma react_outcome_block_independent (env env' : Env) (log : bytes) (s : RM.State) :
  msg_sender env' = msg_sender env -> msg_value env' = msg_value env ->
  outcome (run (RM.react env' log) s) = outcome (run (RM.react env log) s).
Proof.
  intros Hs Hv.
  unfold RM.react, RM.whenNotPaused, RM._parseLog.
  tx_unfold. rewrite Hs, Hv.
  repeat goal_case;
    first [apply handlePriceUpdate_outcome | apply handleLiquidityUpdate_outcome].
Qed.

(** When [react] processes a price update: every guard passes, the change
    is not the least [int256], and the counters have room. *)
Lemma react_processes_price_event (s : RM.State) (env : Env) (log : bytes)
    (old new : uint256) (d : int256) :
  msg_value env = 0 -> RM.paused s = false -> msg_sender env = RM.REACTIVE_SYSTEM ->
  64 <= blen log ->
  mapping_get false (RM.processedEvents s) (dedup_key log) = false ->
  RM.isActive (mapping_get RM.zero_position (RM.positions s)
                 (be_to_Z (firstn 32 (skipn 32 log)))) = true ->
  be_to_Z (firstn 32 log) = RM.PRICE_UPDATE_SIGNATURE ->
  Abi.decode_uint_uint_int (skipn 64 log) = Some (old, new, d) ->
  d <> MIN_INT256 ->
  RM.totalReactiveActions s + 1 <= MAX_UINT256 ->
  RM.totalGasUsed s
    + RM.gasBudget (mapping_get RM.zero_position (RM.positions s)
                      (be_to_Z (firstn 32 (skipn 32 log)))) <= MAX_UINT256 ->
  succeeds (RM.react env log) s = true.
Proof.
  intros Hv Hp Hs Hlen Hfresh Hact Hsig Hdec Hmin Hn Hg.
  apply Z.leb_le in Hlen, Hn, Hg. apply Z.eqb_neq in Hmin.
  unfold RM.react, RM.whenNotPaused, RM._parseLog, RM._handlePriceUpdate,
    RM._triggerReactiveAction, RM.abs_change, RM.store_position.
  tx_unfold.
  rewrite Hv. cbn [Z.eqb]. tx_simpl. rewrite Hp. tx_simpl.
  rewrite Hs, Z.eqb_refl. tx_simpl. rewrite Hlen. tx_simpl.
  lazymatch goal with
  | |- context [negb ?x] =>
      change x with (mapping_get false (RM.processedEvents s) (dedup_key log))
  end.
  rewrite Hfresh. tx_simpl. rewrite Hact. tx_simpl.
  rewrite Hsig, Z.eqb_refl. rewrite Hdec. tx_simpl. rewrite Hmin.
  destruct (d <? 0); tx_simpl;
    (destruct (_ <=? to_uint256 _); tx_simpl; [| reflexivity]);
    rewrite Hn; tx_simpl; rewrite !mapping_get_insert_eq; tx_simpl;
    rewrite Hg; reflexivity.
Qed.

End ManagerIngestion.

(** ** ReactiveManager: idempotency of [react] (C1) *)

Section ManagerIdempotency.
Context {crypto : Crypto}.

(** C1 (as amended).  Delivering the same log twice leaves the manager in
    the state the first delivery produced.  When the first delivery is
    accepted, the second is refused with "Event already processed"; when
    the first is refused, nothing was recorded and the second is refused
    for the same reason as the first. *)
Theorem react_idempotent (s : RM.State) (env env' : Env) (log : bytes) :
  msg_sender env' = msg_sender env ->
  msg_value env' = msg_value env ->
  exec (RM.react env' log) (exec (RM.react env log) s) = exec (RM.react env log) s
  /\ (succeeds (RM.react env log) s = true ->
        fails_with (RM.react env' log) (exec (RM.react env log) s)
          "Event already processed")
  /\ (succeeds (RM.react env log) s = false ->
        exec (RM.react env log) s = s
        /\ outcome (run (RM.react env' log) (exec (RM.react env log) s))
           = outcome (run (RM.react env log) s)).
Proof.
  intros Hs Hv.
  destruct (run (RM.react env log) s) as [[u [s1 events]]|f] eqn:Hrun.
  - (* accepted *)
    destruct (exec_returned _ _ _ _ _ Hrun) as [Hexec Hsucc].
    rewrite Hexec, Hsucc.
    destruct (react_returned _ _ _ _ _ _ Hrun)
      as (Hval & Hp & Hsender & Hlen & _ & _ & Hdispatch).
    apply handlers_preserve_ledger in Hdispatch as [Hledger Hpaused]. tx_simpl.
    assert (Hrefused : fails_with (RM.react env' log) s1 "Event already processed").
    { apply react_replay_refused; [congruence | congruence | congruence | exact Hlen |].
      rewrite Hledger. apply mapping_get_insert_eq. }
    split; [apply exec_rejected, (fails_with_rejected _ _ _ Hrefused) |].
    split; [intros _; exact Hrefused | discriminate].
  - (* refused *)
    assert (Hsucc : succeeds (RM.react env log) s = false)
      by (unfold succeeds; rewrite Hrun; reflexivity).
    rewrite (exec_rejected _ _ Hsucc).
    pose proof (react_outcome_block_independent env env' log s Hs Hv) as Hout.
    rewrite Hrun in Hout. cbn [outcome] in Hout.
    split; [apply exec_rejected, (outcome_rejected _ _ _ Hout) |].
    split; [rewrite Hsucc; discriminate |].
    intros _. split; [reflexivity | rewrite Hout; reflexivity].
Qed.

End ManagerIdempotency.

Section ScenarioIdempotency.
#[local] Existing Instance Scenario.toy_crypto.

(** Scenario B then C: the event that triggers alice's position is
    delivered again one block later. *)
Lemma react_idempotent_witness :
  exec Scenario.redeliver_025 (exec Scenario.deliver_025 Scenario.manager1)
  = exec Scenario.deliver_025 Scenario.manager1
  /\ fails_with Scenario.redeliver_025 (exec Scenario.deliver_025 Scenario.manager1)
       "Event already processed"
  /\ RM.totalReactiveActions
       (exec Scenario.redeliver_025 (exec Scenario.deliver_025 Scenario.manager1)) = 1
  /\ RM.totalGasUsed
       (exec Scenario.redeliver_025 (exec Scenario.deliver_025 Scenario.manager1))
     = Scenario.ether 1.
Proof.
  pose proof (react_idempotent Scenario.manager1 (Scenario.call Scenario.relay 0 1030)
                (Scenario.call Scenario.relay 0 1042) Scenario.price_event_025
                eq_refl eq_refl) as (Hsame & Hrefused & _).
  discharge Hrefused.
  split; [exact Hsame |].
  split; [exact Hrefused |].
  change (RM.react (Scenario.call Scenario.relay 0 1030) Scenario.price_event_025)
    with Scenario.deliver_025 in Hsame.
  change (RM.react (Scenario.call Scenario.relay 0 1042) Scenario.price_event_025)
    with Scenario.redeliver_025 in Hsame.
  rewrite Hsame. split; vm_compute; reflexivity.
Defined.

(** C1 as stated fails: an event for a position the manager does not hold
    is refused with "Position not active"; the refusal rolls the dedup
    entry back, so the second delivery is refused for that same reason and
    not with "Event already processed". *)
Lemma react_replay_not_always_already_processed :
  fails_with Scenario.deliver_stray Scenario.manager1 "Position not active"
  /\ fails_with Scenario.redeliver_stray (exec Scenario.deliver_stray Scenario.manager1)
       "Position not active"
  /\ ~ fails_with Scenario.redeliver_stray (exec Scenario.deliver_stray Scenario.manager1)
         "Event already processed".
Proof.
  assert (H1 : fails_with Scenario.deliver_stray Scenario.manager1 "Position not active")
    by (vm_compute; reflexivity).
  assert (H2 : fails_with Scenario.redeliver_stray
                 (exec Scenario.deliver_stray Scenario.manager1) "Position not active")
    by (vm_compute; reflexivity).
  split; [exact H1 |]. split; [exact H2 |].
  unfold fails_with in *. rewrite H2. discriminate.
Qed.

End ScenarioIdempotency.

(** ** ReactiveManager: the threshold rule (C4) *)

Section ManagerThreshold.
Context {crypto : Crypto}.

(** [abs_change] returns the absolute value of every [int256] but the
    least, on which it panics. *)
Lemma abs_change_run (d : int256) (σ : RM.State * list RM.Event) :
  MIN_INT256 < d <= MAX_INT256 -> RM.abs_change d σ = Ok (Z.abs d, σ).
Proof.
  intros Hd.
  assert (Hmin : (d =? MIN_INT256) = false) by (apply Z.eqb_neq; lia).
  unfold RM.abs_change, to_uint256. tx_unfold. unfold MIN_INT256, MAX_INT256 in Hd.
  destruct (d <? 0) eqn:Hneg; [apply Z.ltb_lt in Hneg | apply Z.ltb_ge in Hneg].
  - rewrite Hmin. cbn [fst snd]. rewrite Z.mod_small by lia.
    replace (- d) with (Z.abs d) by lia. reflexivity.
  - rewrite Z.mod_small by lia. replace d with (Z.abs d) at 1 by lia. reflexivity.
Qed.

Lemma abs_change_least (σ : RM.State * list RM.Event) :
  RM.abs_change MIN_INT256 σ = Err (Panic 17).
Proof. reflexivity. Qed.

(** A trigger returns when the two counters have room, and panics when
    one of them would overflow. *)
Lemma triggerReactiveAction_run (env : Env) (id : bytes32) (reason : string)
    (data : bytes) (s : RM.State) (l : list RM.Event) :
  RM.totalReactiveActions s + 1 <= MAX_UINT256 ->
  RM.totalGasUsed s + RM.gasBudget (mapping_get RM.zero_position (RM.positions s) id)
  <= MAX_UINT256 ->
  exists s' l', RM._triggerReactiveAction env id reason data (s, l) = Ok (tt, (s', l')).
Proof.
  intros Hn Hg. apply Z.leb_le in Hn, Hg.
  unfold RM._triggerReactiveAction, RM.store_position. tx_unfold. tx_simpl.
  rewrite Hn. tx_simpl. rewrite !mapping_get_insert_eq. tx_simpl. rewrite Hg.
  eexists _, _. reflexivity.
Qed.

Lemma triggerReactiveAction_overflow (env : Env) (id : bytes32) (reason : string)
    (data : bytes) (s : RM.State) (l : list RM.Event) :
  MAX_UINT256 < RM.totalReactiveActions s + 1
  \/ MAX_UINT256 < RM.totalGasUsed s
                   + RM.gasBudget (mapping_get RM.zero_position (RM.positions s) id) ->
  RM._triggerReactiveAction env id reason data (s, l) = Err (Panic 17).
Proof.
  intros H.
  unfold RM._triggerReactiveAction, RM.store_position. tx_unfold. tx_simpl.
  destruct (RM.totalReactiveActions s + 1 <=? MAX_UINT256) eqn:Hn; [| reflexivity].
  tx_simpl. rewrite !mapping_get_insert_eq. tx_simpl.
  destruct H as [H | H]; [apply Z.leb_le in Hn; lia |].
  apply Z.leb_gt in H. rewrite H. reflexivity.
Qed.

(** Past its guards, [react] records the log and runs the handler of the
    event's signature. *)
Lemma react_dispatch (s : RM.State) (env : Env) (log : bytes) :
  msg_value env = 0 -> RM.paused s = false -> msg_sender env = RM.REACTIVE_SYSTEM ->
  64 <= blen log ->
  mapping_get false (RM.processedEvents s) (dedup_key log) = false ->
  RM.isActive (mapping_get RM.zero_position (RM.positions s)
                 (be_to_Z (firstn 32 (skipn 32 log)))) = true ->
  run (RM.react env log) s
  = (if be_to_Z (firstn 32 log) =? RM.PRICE_UPDATE_SIGNATURE
     then RM._handlePriceUpdate env (be_to_Z (firstn 32 (skipn 32 log))) (skipn 64 log)
     else if be_to_Z (firstn 32 log) =? RM.LIQUIDITY_UPDATE_SIGNATURE
     then RM._handleLiquidityUpdate env (be_to_Z (firstn 32 (skipn 32 log))) (skipn 64 log)
     else if be_to_Z (firstn 32 log) =? RM.POSITION_CREATED_SIGNATURE
     then RM._handlePositionCreated (be_to_Z (firstn 32 (skipn 32 log))) (skipn 64 log)
     else ret tt)
      (RM.with_processedEvents <[dedup_key log := true]> s, []).
Proof.
  intros Hv Hp Hs Hlen Hfresh Hact. apply Z.leb_le in Hlen.
  unfold RM.react, RM.whenNotPaused, RM._parseLog. tx_unfold.
  rewrite Hv. cbn [Z.eqb]. tx_simpl. rewrite Hp. tx_simpl.
  rewrite Hs, Z.eqb_refl. tx_simpl. rewrite Hlen. tx_simpl.
  lazymatch goal with
  | |- context [negb ?x] =>
      change x with (mapping_get false (RM.processedEvents s) (dedup_key log))
  end.
  rewrite Hfresh. tx_simpl. rewrite Hact. reflexivity.
Qed.

(** The two threshold handlers run the same rule: panic on the least
    change, trigger when the absolute change reaches the threshold, do
    nothing otherwise. *)
Lemma threshold_handlers_run (env : Env) (sig id : bytes32) (data : bytes)
    (old new : uint256) (d : int256) (s : RM.State) (l : list RM.Event) :
  sig = RM.PRICE_UPDATE_SIGNATURE \/ sig = RM.LIQUIDITY_UPDATE_SIGNATURE ->
  Abi.decode_uint_uint_int data = Some (old, new, d) ->
  exists reason,
    (if sig =? RM.PRICE_UPDATE_SIGNATURE then RM._handlePriceUpdate env id data
     else if sig =? RM.LIQUIDITY_UPDATE_SIGNATURE then RM._handleLiquidityUpdate env id data
     else if sig =? RM.POSITION_CREATED_SIGNATURE then RM._handlePositionCreated id data
     else ret tt) (s, l)
    = if d =? MIN_INT256 then Err (Panic 17)
      else if RM.threshold (mapping_get RM.zero_position (RM.positions s) id) <=? Z.abs d
      then RM._triggerReactiveAction env id reason
             (Abi.encode_uint_uint_int old new d) (s, l)
      else Ok (tt, (s, l)).
Proof.
  intros Hsig Hdec. pose proof (decode_change_range _ _ _ _ Hdec) as Hrange.
  assert (Hrule : forall reason,
            (let* a := RM.abs_change d in
             let* s0 := get in
             if RM.threshold (mapping_get RM.zero_position (RM.positions s0) id) <=? a
             then RM._triggerReactiveAction env id reason
                    (Abi.encode_uint_uint_int old new d)
             else ret tt) (s, l)
            = if d =? MIN_INT256 then Err (Panic 17)
              else if RM.threshold (mapping_get RM.zero_position (RM.positions s) id)
                      <=? Z.abs d
              then RM._triggerReactiveAction env id reason
                     (Abi.encode_uint_uint_int old new d) (s, l)
              else Ok (tt, (s, l))).
  { intros reason. unfold bind at 1.
    destruct (d =? MIN_INT256) eqn:Hmin.
    - apply Z.eqb_eq in Hmin. subst d. rewrite abs_change_least. reflexivity.
    - apply Z.eqb_neq in Hmin. rewrite abs_change_run by lia.
      unfold bind, get, ret. cbn [fst snd].
      destruct (_ <=? Z.abs d); reflexivity. }
  destruct (sig =? RM.PRICE_UPDATE_SIGNATURE) eqn:Hprice.
  - exists "price_threshold_exceeded"%string.
    unfold RM._handlePriceUpdate. rewrite Hdec. apply Hrule.
  - destruct Hsig as [Hsig | Hsig]; [apply Z.eqb_neq in Hprice; contradiction |].
    rewrite Hsig, Z.eqb_refl. exists "liquidity_threshold_exceeded"%string.
    unfold RM._handleLiquidityUpdate. rewrite Hdec. apply Hrule.
Qed.

(** C4.  Let the relay deliver, without value, to a manager that is not
    paused, a fresh log that parses to a price-update or liquidity-update
    event of an active position, with decoded signed change [d].  Then
    [react] runs the threshold rule to the end:
    - if [|d|] is below the position's threshold and [d] is not the least
      [int256], [react] returns, only records the log, triggers nothing
      and leaves counters and positions as they were;
    - if [|d|] reaches the threshold (equality included), [d] is not the
      least [int256] and the two counters have room, [react] returns and
      triggers the reactive action: a callback request for the position is
      logged, [totalReactiveActions] grows by 1 and [totalGasUsed] by the
      position's [gasBudget];
    - on the least [int256], or when a counter would overflow, [react]
      panics and the event is not processed.
    So whenever [react] processes the event, the action is triggered
    exactly when [|d| >= threshold]. *)
Theorem threshold_inclusive (s : RM.State) (env : Env) (log : bytes)
    (sig id : bytes32) (data : bytes) (old new : uint256) (d : int256) :
  msg_value env = 0 -> RM.paused s = false -> msg_sender env = RM.REACTIVE_SYSTEM ->
  mapping_get false (RM.processedEvents s) (dedup_key log) = false ->
  run (RM._parseLog log) s = Ok ((sig, id, data), (s, [])) ->
  RM.isActive (mapping_get RM.zero_position (RM.positions s) id) = true ->
  sig = RM.PRICE_UPDATE_SIGNATURE \/ sig = RM.LIQUIDITY_UPDATE_SIGNATURE ->
  Abi.decode_uint_uint_int data = Some (old, new, d) ->
  (Z.abs d < RM.threshold (mapping_get RM.zero_position (RM.positions s) id) ->
   d <> MIN_INT256 ->
     run (RM.react env log) s
     = Ok (tt, (RM.with_processedEvents <[dedup_key log := true]> s, []))
     /\ RM.triggered id (logged (RM.react env log) s) = false)
  /\ (RM.threshold (mapping_get RM.zero_position (RM.positions s) id) <= Z.abs d ->
      d <> MIN_INT256 ->
      RM.totalReactiveActions s + 1 <= MAX_UINT256 ->
      RM.totalGasUsed s + RM.gasBudget (mapping_get RM.zero_position (RM.positions s) id)
      <= MAX_UINT256 ->
      succeeds (RM.react env log) s = true
      /\ RM.triggered id (logged (RM.react env log) s) = true
      /\ RM.totalReactiveActions (exec (RM.react env log) s)
         = RM.totalReactiveActions s + 1
      /\ RM.totalGasUsed (exec (RM.react env log) s)
         = RM.totalGasUsed s
           + RM.gasBudget (mapping_get RM.zero_position (RM.positions s) id))
  /\ (d = MIN_INT256
      \/ (RM.threshold (mapping_get RM.zero_position (RM.positions s) id) <= Z.abs d
          /\ (MAX_UINT256 < RM.totalReactiveActions s + 1
              \/ MAX_UINT256
                 < RM.totalGasUsed s
                   + RM.gasBudget (mapping_get RM.zero_position (RM.positions s) id))) ->
      run (RM.react env log) s = Err (Panic 17))
  /\ (succeeds (RM.react env log) s = true ->
      (RM.triggered id (logged (RM.react env log) s) = true
       <-> RM.threshold (mapping_get RM.zero_position (RM.positions s) id) <= Z.abs d)).
Proof.
  intros Hv Hp Hs Hfresh Hparse Hact Hsig Hdec.
  assert (Hlen : 64 <= blen log).
  { unfold RM._parseLog in Hparse. tx_unfold.
    destruct (64 <=? blen log) eqn:Hlen; [apply Z.leb_le, Hlen | discriminate Hparse]. }
  assert (Hparts : sig = be_to_Z (firstn 32 log)
                   /\ id = be_to_Z (firstn 32 (skipn 32 log)) /\ data = skipn 64 log).
  { unfold RM._parseLog in Hparse. tx_unfold.
    apply Z.leb_le in Hlen. rewrite Hlen in Hparse. tx_simpl.
    injection Hparse as <- <- <-. auto. }
  destruct Hparts as (Esig & Eid & Edata).
  pose proof (decode_change_range _ _ _ _ Hdec) as Hrange.
  pose proof (react_dispatch s env log Hv Hp Hs Hlen Hfresh) as Hrun.
  rewrite <- Eid in Hrun. specialize (Hrun Hact). rewrite <- Esig, <- Edata in Hrun.
  set (s1 := RM.with_processedEvents <[dedup_key log := true]> s) in *.
  destruct (threshold_handlers_run env sig id data old new d s1 [] Hsig Hdec)
    as [reason Hrule].
  rewrite Hrule in Hrun. clear Hrule.
  change (RM.positions s1) with (RM.positions s) in Hrun.
  set (p := mapping_get RM.zero_position (RM.positions s) id) in *.
  assert (Hbelow : Z.abs d < RM.threshold p -> d <> MIN_INT256 ->
            run (RM.react env log) s = Ok (tt, (s1, []))).
  { intros Hlt Hmin. rewrite Hrun. apply Z.eqb_neq in Hmin.
    assert (Hcmp : (RM.threshold p <=? Z.abs d) = false) by (apply Z.leb_gt, Hlt).
    rewrite Hmin, Hcmp. reflexivity. }
  assert (Habove : RM.threshold p <= Z.abs d -> d <> MIN_INT256 ->
            run (RM.react env log) s
            = RM._triggerReactiveAction env id reason
                (Abi.encode_uint_uint_int old new d) (s1, [])).
  { intros Hge Hmin. rewrite Hrun. apply Z.eqb_neq in Hmin. apply Z.leb_le in Hge.
    rewrite Hmin, Hge. reflexivity. }
  assert (Hfired : RM.threshold p <= Z.abs d -> d <> MIN_INT256 ->
            RM.totalReactiveActions s + 1 <= MAX_UINT256 ->
            RM.totalGasUsed s + RM.gasBudget p <= MAX_UINT256 ->
            succeeds (RM.react env log) s = true
            /\ RM.triggered id (logged (RM.react env log) s) = true
            /\ RM.totalReactiveActions (exec (RM.react env log) s)
               = RM.totalReactiveActions s + 1
            /\ RM.totalGasUsed (exec (RM.react env log) s)
               = RM.totalGasUsed s + RM.gasBudget p).
  { intros Hge Hmin Hn Hg.
    destruct (triggerReactiveAction_run env id reason
                (Abi.encode_uint_uint_int old new d) s1 [] Hn Hg) as (s' & l' & Htrig).
    unfold succeeds, logged, exec. rewrite (Habove Hge Hmin), Htrig.
    apply triggerReactiveAction_returned in Htrig as (Hn' & Hg' & _ & _ & _ & Htr).
    split; [reflexivity |]. split; [exact Htr |]. split; [exact Hn' | exact Hg']. }
  assert (Hpanic : d = MIN_INT256
            \/ (RM.threshold p <= Z.abs d
                /\ (MAX_UINT256 < RM.totalReactiveActions s + 1
                    \/ MAX_UINT256 < RM.totalGasUsed s + RM.gasBudget p)) ->
            run (RM.react env log) s = Err (Panic 17)).
  { intros [Hmin | [Hge Hover]].
    - rewrite Hrun. apply Z.eqb_eq in Hmin. rewrite Hmin. reflexivity.
    - destruct (Z.eq_dec d MIN_INT256) as [Hmin | Hmin].
      + rewrite Hrun. apply Z.eqb_eq in Hmin. rewrite Hmin. reflexivity.
      + rewrite (Habove Hge Hmin). apply triggerReactiveAction_overflow. exact Hover. }
  split; [intros Hlt Hmin; split; [exact (Hbelow Hlt Hmin) |];
          unfold logged; rewrite (Hbelow Hlt Hmin); reflexivity |].
  split; [exact Hfired |]. split; [exact Hpanic |].
  intros Hok.
  destruct (Z.eq_dec d MIN_INT256) as [Hmin | Hmin].
  { unfold succeeds in Hok. rewrite (Hpanic (or_introl Hmin)) in Hok. discriminate Hok. }
  destruct (Z.lt_ge_cases (Z.abs d) (RM.threshold p)) as [Hlt | Hge].
  - unfold logged. rewrite (Hbelow Hlt Hmin). cbn [RM.triggered existsb].
    split; [discriminate | lia].
  - split; [intros _; exact Hge | intros _].
    destruct (Z.le_gt_cases (RM.totalReactiveActions s + 1) MAX_UINT256) as [Hn | Hn];
      [| unfold succeeds in Hok;
         rewrite (Hpanic (or_intror (conj Hge (or_introl Hn)))) in Hok; discriminate Hok].
    destruct (Z.le_gt_cases (RM.totalGasUsed s + RM.gasBudget p) MAX_UINT256) as [Hg | Hg];
      [| unfold succeeds in Hok;
         rewrite (Hpanic (or_intror (conj Hge (or_intror Hg)))) in Hok; discriminate Hok].
    apply (Hfired Hge Hmin Hn Hg).
Qed.

End ManagerThreshold.

Section ScenarioThreshold.
#[local] Existing Instance Scenario.toy_crypto.

(** Threshold 0.2.  A price update with a change of exactly 0.2 triggers
    (the boundary); a liquidity update with a change of -0.25 triggers; a
    liquidity update with a change of -0.1 is processed without a
    trigger. *)
Lemma threshold_inclusive_witness :
  RM.threshold (mapping_get RM.zero_position (RM.positions Scenario.manager1)
                  Scenario.position1) = Z.abs (Scenario.ether 2)
  /\ (RM.triggered Scenario.position1 (logged Scenario.deliver_020 Scenario.manager1) = true
   /\ RM.totalReactiveActions (exec Scenario.deliver_020 Scenario.manager1)
      = RM.totalReactiveActions Scenario.manager1 + 1
   /\ RM.totalGasUsed (exec Scenario.deliver_020 Scenario.manager1)
      = RM.totalGasUsed Scenario.manager1 + Scenario.ether 1)
  /\ (succeeds (RM.react (Scenario.call Scenario.relay 0 1030)
                  (Scenario.event_log RM.LIQUIDITY_UPDATE_SIGNATURE Scenario.position1
                     (Scenario.ether 40) (Scenario.ether 30) (- 25 * 10 ^ 16)))
        Scenario.manager1 = true
      /\ RM.triggered Scenario.position1
           (logged (RM.react (Scenario.call Scenario.relay 0 1030)
                      (Scenario.event_log RM.LIQUIDITY_UPDATE_SIGNATURE Scenario.position1
                         (Scenario.ether 40) (Scenario.ether 30) (- 25 * 10 ^ 16)))
              Scenario.manager1) = true)
  /\ (succeeds (RM.react (Scenario.call Scenario.relay 0 1030)
                  (Scenario.event_log RM.LIQUIDITY_UPDATE_SIGNATURE Scenario.position1
                     (Scenario.ether 40) (Scenario.ether 39) (- Scenario.ether 1)))
        Scenario.manager1 = true
      /\ RM.triggered Scenario.position1
           (logged (RM.react (Scenario.call Scenario.relay 0 1030)
                      (Scenario.event_log RM.LIQUIDITY_UPDATE_SIGNATURE Scenario.position1
                         (Scenario.ether 40) (Scenario.ether 39) (- Scenario.ether 1)))
              Scenario.manager1) = false).
Proof.
  split; [vm_compute; reflexivity |]. split; [| split].
  - pose proof (threshold_inclusive Scenario.manager1
                  (Scenario.call Scenario.relay 0 1030) Scenario.price_event_020
                  RM.PRICE_UPDATE_SIGNATURE Scenario.position1
                  (Abi.encode_uint_uint_int (Scenario.ether 20) (Scenario.ether 24)
                     (Scenario.ether 2))
                  (Scenario.ether 20) (Scenario.ether 24) (Scenario.ether 2)) as H.
    do 6 discharge H. specialize (H (or_introl eq_refl)). discharge H.
    destruct H as (_ & H & _). do 4 discharge H.
    destruct H as (_ & Htr & Hn & Hg). unfold Scenario.deliver_020.
    split; [exact Htr |]. split; [exact Hn |]. rewrite Hg. vm_compute. reflexivity.
  - pose proof (threshold_inclusive Scenario.manager1
                  (Scenario.call Scenario.relay 0 1030)
                  (Scenario.event_log RM.LIQUIDITY_UPDATE_SIGNATURE Scenario.position1
                     (Scenario.ether 40) (Scenario.ether 30) (- 25 * 10 ^ 16))
                  RM.LIQUIDITY_UPDATE_SIGNATURE Scenario.position1
                  (Abi.encode_uint_uint_int (Scenario.ether 40) (Scenario.ether 30)
                     (- 25 * 10 ^ 16))
                  (Scenario.ether 40) (Scenario.ether 30) (- 25 * 10 ^ 16)) as H.
    do 6 discharge H. specialize (H (or_intror eq_refl)). discharge H.
    destruct H as (_ & H & _). do 4 discharge H.
    destruct H as (Hok & Htr & _). split; [exact Hok | exact Htr].
  - pose proof (threshold_inclusive Scenario.manager1
                  (Scenario.call Scenario.relay 0 1030)
                  (Scenario.event_log RM.LIQUIDITY_UPDATE_SIGNATURE Scenario.position1
                     (Scenario.ether 40) (Scenario.ether 39) (- Scenario.ether 1))
                  RM.LIQUIDITY_UPDATE_SIGNATURE Scenario.position1
                  (Abi.encode_uint_uint_int (Scenario.ether 40) (Scenario.ether 39)
                     (- Scenario.ether 1))
                  (Scenario.ether 40) (Scenario.ether 39) (- Scenario.ether 1)) as H.
    do 6 discharge H. specialize (H (or_intror eq_refl)). discharge H.
    destruct H as (H & _). do 2 discharge H.
    destruct H as (Hrun & Htr). split; [| exact Htr].
    unfold succeeds. rewrite Hrun. reflexivity.
Defined.

(** Scenario A seen from the other side: with threshold 0.2 a change of 0.1
    triggers nothing. *)
Example below_threshold_no_trigger :
  succeeds Scenario.deliver_010 Scenario.manager1 = true
  /\ RM.triggered Scenario.position1 (logged Scenario.deliver_010 Scenario.manager1) = false
  /\ RM.totalReactiveActions (exec Scenario.deliver_010 Scenario.manager1) = 0
  /\ RM.totalGasUsed (exec Scenario.deliver_010 Scenario.manager1) = 0.
Proof. vm_compute. repeat split; reflexivity. Qed.

End ScenarioThreshold.

(** ** ReactiveManager: the gas budget (C9, C2) *)

Section ManagerBudget.

(** C9. On an active position owned by the caller, [updateGasBudget(id, B)]
    with a payment below [B] fails with "Insufficient gas payment" and
    leaves the stored budget as it was; with [B > 0] and a payment of at
    least [B] it stores [B]. *)
Theorem updateGasBudget_budget_conservation (s : RM.State) (env : Env) (id : bytes32)
    (B : uint256) :
  RM.isActive (mapping_get RM.zero_position (RM.positions s) id) = true ->
  RM.user (mapping_get RM.zero_position (RM.positions s) id) = msg_sender env ->
  0 <= msg_value env ->
  (msg_value env < B ->
     fails_with (RM.updateGasBudget env id B) s "Insufficient gas payment"
     /\ exec (RM.updateGasBudget env id B) s = s
     /\ RM.gasBudget (mapping_get RM.zero_position
          (RM.positions (exec (RM.updateGasBudget env id B) s)) id)
        = RM.gasBudget (mapping_get RM.zero_position (RM.positions s) id))
  /\ (0 < B -> B <= msg_value env ->
     succeeds (RM.updateGasBudget env id B) s = true
     /\ RM.gasBudget (mapping_get RM.zero_position
          (RM.positions (exec (RM.updateGasBudget env id B) s)) id) = B).
Proof.
  intros Hact Hown Hval.
  assert (Hpos : 0 < B -> (0 <? B) = true) by (intros; apply Z.ltb_lt; lia).
  split.
  - intros Hlt.
    assert (Hfail : fails_with (RM.updateGasBudget env id B) s "Insufficient gas payment").
    { unfold RM.updateGasBudget, RM.payable, RM.store_position. tx_unfold.
      cbn. rewrite Hact, Hown, Z.eqb_refl. cbn.
      rewrite Hpos by lia. cbn.
      replace (B <=? msg_value env) with false by (symmetry; apply Z.leb_gt; lia).
      reflexivity. }
    split; [exact Hfail |].
    rewrite (exec_rejected _ _ (fails_with_rejected _ _ _ Hfail)). split; reflexivity.
  - intros HB Hpay.
    unfold RM.updateGasBudget, RM.payable, RM.store_position. tx_unfold.
    cbn. rewrite Hact, Hown, Z.eqb_refl. cbn.
    rewrite Hpos by lia. cbn.
    replace (B <=? msg_value env) with true by (symmetry; apply Z.leb_le; lia).
    cbn. split; [reflexivity |].
    rewrite mapping_get_insert_eq. reflexivity.
Qed.

End ManagerBudget.

Section ScenarioBudget.
#[local] Existing Instance Scenario.toy_crypto.

(** Scenario D: raising the budget from 0.1 to 0.2 with a payment of 0.1 is
    refused and the budget stays 0.1; with a payment of 0.2 it becomes 0.2. *)
Lemma updateGasBudget_budget_conservation_witness :
  fails_with (RM.updateGasBudget (Scenario.call Scenario.alice (Scenario.ether 1) 1030)
                Scenario.position1 (Scenario.ether 2))
    Scenario.manager1 "Insufficient gas payment"
  /\ RM.gasBudget (mapping_get RM.zero_position (RM.positions Scenario.manager1)
                     Scenario.position1) = Scenario.ether 1
  /\ RM.gasBudget (mapping_get RM.zero_position
        (RM.positions (exec (RM.updateGasBudget
                               (Scenario.call Scenario.alice (Scenario.ether 1) 1030)
                               Scenario.position1 (Scenario.ether 2))
                         Scenario.manager1)) Scenario.position1)
     = Scenario.ether 1
  /\ RM.gasBudget (mapping_get RM.zero_position
        (RM.positions (exec (RM.updateGasBudget
                               (Scenario.call Scenario.alice (Scenario.ether 2) 1030)
                               Scenario.position1 (Scenario.ether 2))
                         Scenario.manager1)) Scenario.position1)
     = Scenario.ether 2.
Proof.
  pose proof (updateGasBudget_budget_conservation Scenario.manager1
                (Scenario.call Scenario.alice (Scenario.ether 1) 1030)
                Scenario.position1 (Scenario.ether 2)) as Hlow.
  do 3 discharge Hlow. destruct Hlow as [Hlow _]. discharge Hlow.
  destruct Hlow as (Hfail & _ & Hkept).
  pose proof (updateGasBudget_budget_conservation Scenario.manager1
                (Scenario.call Scenario.alice (Scenario.ether 2) 1030)
                Scenario.position1 (Scenario.ether 2)) as Hpaid.
  do 3 discharge Hpaid. destruct Hpaid as [_ Hpaid]. do 2 discharge Hpaid.
  destruct Hpaid as [_ Hset].
  assert (Hold : RM.gasBudget (mapping_get RM.zero_position
                   (RM.positions Scenario.manager1) Scenario.position1)
                 = Scenario.ether 1) by (vm_compute; reflexivity).
  split; [exact Hfail |]. split; [exact Hold |].
  split; [rewrite Hkept; exact Hold | exact Hset].
Defined.

End ScenarioBudget.

(** ** DestinationHandler: callbacks *)

Lemma rejected_intro {S E A} (m : tx S E A) (s : S) :
  succeeds m s = false -> rejected m s.
Proof.
  intros H. unfold rejected. split; [exact H |]. split; [apply exec_rejected, H |].
  unfold succeeds in H. unfold logged. destruct (run m s) as [[? [? ?]]|];
    [discriminate | reflexivity].
Qed.

Section HandlerCallbacks.
Context {crypto : Crypto}.

(** The verdict on a signature reads the allow-list and nothing else of
    the state. *)
Lemma callback_valid_allow_list (env : Env) (id : bytes32) (sig : bytes) (s s' : DH.State) :
  DH.authorizedCallers s' = DH.authorizedCallers s ->
  callback_valid env id sig s' = callback_valid env id sig s.
Proof.
  intros Hallow. unfold callback_valid, DH.validateCallback. tx_unfold.
  destruct (ecdsa_recover _ sig); [| reflexivity]. tx_simpl. rewrite Hallow. reflexivity.
Qed.

Lemma validateCallback_run (env : Env) (id : bytes32) (sig : bytes)
    (σ : DH.State * list DH.Event) :
  DH.validateCallback env id sig σ = Ok (true, σ) <-> callback_valid env id sig (fst σ) = true.
Proof.
  destruct σ as [s l]. unfold callback_valid, DH.validateCallback. tx_unfold.
  destruct (ecdsa_recover _ sig); tx_simpl; [| split; discriminate].
  destruct (mapping_get false (DH.authorizedCallers s) a);
    split; intros H; first [reflexivity | discriminate H].
Qed.

(** A callback whose action type hashes like "hedge" is never executed. *)
Lemma processCallback_hedge_fails (s : DH.State) (env : Env) (w : World)
    (cb id : bytes32) (data sig : bytes) (a : string) (amount : uint256) (token : address) :
  Abi.decode_string_uint_address data = Some (a, amount, token) ->
  keccak256 (bytes_of_string a) = keccak256 (bytes_of_string "hedge") ->
  succeeds (DH.processCallback env w cb id data sig) s = false.
Proof.
  intros Hdec Hhash.
  unfold DH.processCallback, DH.validateCallback, DH.executeHedgingTrade,
    DH.onlyAuthorized, DH.whenNotPaused, DH.nonReentrant.
  rewrite Hdec, Hhash, Z.eqb_refl.
  change (negb (0 =? 0)) with false. rewrite andb_false_r.
  destruct (ecdsa_recover _ sig); tx_unfold; tx_simpl; repeat goal_case.
Qed.

(** What a returning callback has done. *)
Lemma processCallback_returned (s s' : DH.State) (env : Env) (w : World)
    (cb id : bytes32) (data sig : bytes) (b : bool) (events : list DH.Event) :
  run (DH.processCallback env w cb id data sig) s = Ok (b, (s', events)) ->
  DH.processedCallbacks s' = <[cb := true]> (DH.processedCallbacks s)
  /\ DH.authorizedCallers s' = DH.authorizedCallers s
  /\ DH.paused s' = false
  /\ DH.entered s' = false
  /\ b = true.
Proof.
  unfold DH.processCallback, DH.validateCallback, DH.executeHedgingTrade,
    DH.executeRebalancing, DH.onlyAuthorized, DH.whenNotPaused, DH.nonReentrant,
    DH._executePartialUnwind, DH._executeRebalance, DH._calculateSwapOutput,
    DH._executeSwap.
  change (negb (0 =? 0)) with false.
  destruct (Abi.decode_string_uint_address data) as [[[a amount] token]|];
    destruct (ecdsa_recover _ sig);
    tx_unfold; tx_simpl; rewrite ?andb_false_r; intros H; repeat tx_case H;
    apply returned_inv in H as (<- & <- & _); tx_simpl;
    repeat split; try reflexivity; apply negb_true_iff; assumption.
Qed.


(** A fresh callback with a valid signature and a supported rebalancing
    action of positive amount is executed. *)
Lemma processCallback_rebalancing_succeeds (s : DH.State) (env : Env) (w : World)
    (cb id : bytes32) (data sig : bytes) (a : string) (amount : uint256) (token : address) :
  msg_value env = 0 ->
  mapping_get false (DH.authorizedCallers s) (msg_sender env) = true ->
  DH.paused s = false -> DH.entered s = false ->
  mapping_get false (DH.processedCallbacks s) cb = false ->
  callback_valid env id sig s = true ->
  Abi.decode_string_uint_address data = Some (a, amount, token) ->
  rebalancing_action a = true -> 0 < amount ->
  succeeds (DH.processCallback env w cb id data sig) s = true.
Proof.
  intros Hv Hauth Hp He Hfresh Hvalid Hdec Hact Hamount.
  unfold rebalancing_action in Hact.
  apply andb_prop in Hact as [Hact Hlen]. apply andb_prop in Hact as [Hhedge Hkind].
  apply negb_true_iff in Hhedge.
  apply (validateCallback_run env id sig (s, [])) in Hvalid.
  apply Z.ltb_lt in Hamount.
  unfold DH.processCallback, DH.executeRebalancing, DH.onlyAuthorized,
    DH.whenNotPaused, DH.nonReentrant, DH._executePartialUnwind, DH._executeRebalance.
  rewrite Hdec. tx_unfold. rewrite Hv. cbn [Z.eqb].
  repeat (tx_simpl;
          first [rewrite Hauth | rewrite Hp | rewrite He | rewrite Hfresh
                | rewrite Hvalid | rewrite Hhedge | rewrite Hamount | rewrite Hlen]).
  tx_simpl.
  destruct (_ =? keccak256 (bytes_of_string "partial_unwind")); [reflexivity |].
  cbn [orb] in Hkind. rewrite Hkind. reflexivity.
Qed.

(** Whether a fresh callback is turned down for its signature is decided
    before the callback id and the action data are looked at. *)
Lemma processCallback_signature_refusal (s : DH.State) (env : Env) (w : World)
    (cb id : bytes32) (data sig : bytes) :
  mapping_get false (DH.processedCallbacks s) cb = false ->
  fails_with (DH.processCallback env w cb id data sig) s "Invalid callback signature"
  <-> (msg_value env = 0
       /\ mapping_get false (DH.authorizedCallers s) (msg_sender env) = true
       /\ run (DH.validateCallback env id sig) s = Ok (false, (s, []))).
Proof.
  intros Hfresh.
  unfold DH.processCallback, DH.validateCallback, DH.executeHedgingTrade,
    DH.executeRebalancing, DH.onlyAuthorized, DH.whenNotPaused, DH.nonReentrant,
    DH._executePartialUnwind, DH._executeRebalance, DH._calculateSwapOutput,
    DH._executeSwap.
  change (negb (0 =? 0)) with false.
  destruct (Abi.decode_string_uint_address data) as [[[a amount] token]|];
    destruct (ecdsa_recover _ sig);
    tx_unfold; tx_simpl; rewrite ?andb_false_r;
    (split;
     [ intros H; repeat tx_case H; try discriminate H;
       repeat split; first [apply Z.eqb_eq; assumption | congruence]
     | intros (Hv & Hauth & H); rewrite Hv; cbn [Z.eqb]; tx_simpl;
       rewrite Hauth; tx_simpl; rewrite Hfresh; tx_simpl; try discriminate H;
       apply returned_inv in H as (Hvalid & _); rewrite Hvalid; reflexivity ]).
Qed.

End HandlerCallbacks.

(** ** DestinationHandler: the hedge branch (C5) *)

Section HandlerHedge.
Context {crypto : Crypto}.

(** [executeHedgingTrade] turns down a zero output token. *)
Lemma executeHedgingTrade_zero_tokenOut (s : DH.State) (env : Env) (w : World)
    (id : bytes32) (tokenIn : address) (amountIn minAmountOut : uint256) :
  succeeds (DH.executeHedgingTrade env w id tokenIn 0 amountIn minAmountOut) s = false.
Proof.
  unfold DH.executeHedgingTrade, DH.onlyAuthorized, DH.whenNotPaused, DH.nonReentrant.
  change (negb (0 =? 0)) with false. rewrite andb_false_r.
  tx_unfold. tx_simpl. repeat goal_case.
Qed.

(** C5.  A callback whose decoded action type is "hedge" never succeeds,
    whatever the callback id, the position, the signature, the caller and
    the handler's state: the hedge branch calls [executeHedgingTrade] with
    the zero address as output token, which [executeHedgingTrade] rejects
    for every input. *)
Theorem hedge_callback_never_succeeds (s : DH.State) (env : Env) (w : World)
    (cb id : bytes32) (data sig : bytes) (amount : uint256) (token : address) :
  Abi.decode_string_uint_address data = Some ("hedge"%string, amount, token) ->
  rejected (DH.processCallback env w cb id data sig) s
  /\ (forall tokenIn amountIn minAmountOut,
        rejected (DH.executeHedgingTrade env w id tokenIn 0 amountIn minAmountOut) s).
Proof.
  intros Hdec. split.
  - apply rejected_intro. eapply processCallback_hedge_fails; [exact Hdec | reflexivity].
  - intros. apply rejected_intro, executeHedgingTrade_zero_tokenOut.
Qed.

End HandlerHedge.

Section ScenarioHedge.
#[local] Existing Instance Scenario.toy_crypto.

(** A hedge callback with a fresh id and a valid signature, sent by the
    handler's own admin. *)
Lemma hedge_callback_never_succeeds_witness :
  callback_valid (Scenario.call Scenario.admin 0 1030) Scenario.position1
    Scenario.signature1 Scenario.handler0 = true
  /\ rejected (Scenario.callback 5 Scenario.hedge_data) Scenario.handler0.
Proof.
  split; [vm_compute; reflexivity |].
  pose proof (hedge_callback_never_succeeds Scenario.handler0
                (Scenario.call Scenario.admin 0 1030) Scenario.world 5 Scenario.position1
                Scenario.hedge_data Scenario.signature1 (Scenario.ether 2) Scenario.tokenA)
    as H.
  discharge H. exact (proj1 H).
Defined.

End ScenarioHedge.

(** ** DestinationHandler: consumption of callback ids (C7) *)

Section HandlerConsumption.
Context {crypto : Crypto}.


End HandlerConsumption.

Section ScenarioConsumption.
#[local] Existing Instance Scenario.toy_crypto.



End ScenarioConsumption.

(** ** DestinationHandler: what a signature binds (C6) *)

Section HandlerSignature.
Context {crypto : Crypto}.

(** C6 (as amended).  For two fresh, distinct callback ids and any two
    payloads for the same position under the same signature, the signature
    check has the same verdict: one call is turned down with "Invalid
    callback signature" exactly when the other is.  When the signature is
    valid, the caller is allow-listed, the handler is not paused and both
    payloads decode to a supported rebalancing action of positive amount,
    both calls succeed, the second after the first. *)
Theorem signature_binds_position_only (s : DH.State) (env : Env) (w : World)
    (id : bytes32) (sig : bytes) (cb1 cb2 : bytes32) (data1 data2 : bytes) :
  mapping_get false (DH.processedCallbacks s) cb1 = false ->
  mapping_get false (DH.processedCallbacks s) cb2 = false ->
  cb1 <> cb2 ->
  (fails_with (DH.processCallback env w cb1 id data1 sig) s "Invalid callback signature"
   <-> fails_with (DH.processCallback env w cb2 id data2 sig) s
         "Invalid callback signature")
  /\ (forall a1 n1 t1 a2 n2 t2,
        msg_value env = 0 ->
        mapping_get false (DH.authorizedCallers s) (msg_sender env) = true ->
        DH.paused s = false -> DH.entered s = false ->
        callback_valid env id sig s = true ->
        Abi.decode_string_uint_address data1 = Some (a1, n1, t1) ->
        rebalancing_action a1 = true -> 0 < n1 ->
        Abi.decode_string_uint_address data2 = Some (a2, n2, t2) ->
        rebalancing_action a2 = true -> 0 < n2 ->
        succeeds (DH.processCallback env w cb1 id data1 sig) s = true
        /\ succeeds (DH.processCallback env w cb2 id data2 sig)
             (exec (DH.processCallback env w cb1 id data1 sig) s) = true).
Proof.
  intros Hfresh1 Hfresh2 Hne. split.
  - rewrite (processCallback_signature_refusal s env w cb1 id data1 sig Hfresh1).
    rewrite (processCallback_signature_refusal s env w cb2 id data2 sig Hfresh2).
    reflexivity.
  - intros a1 n1 t1 a2 n2 t2 Hv Hauth Hp He Hvalid Hdec1 Hact1 Hn1 Hdec2 Hact2 Hn2.
    assert (Hfirst : succeeds (DH.processCallback env w cb1 id data1 sig) s = true)
      by (eapply processCallback_rebalancing_succeeds; eassumption).
    split; [exact Hfirst |].
    unfold succeeds in Hfirst.
    destruct (run (DH.processCallback env w cb1 id data1 sig) s)
      as [[b [s1 events]]|] eqn:Hrun; [| discriminate Hfirst].
    destruct (exec_returned _ _ _ _ _ Hrun) as [-> _].
    apply processCallback_returned in Hrun as (Hmarks & Hallow & Hp1 & He1 & _).
    eapply processCallback_rebalancing_succeeds; try eassumption.
    + rewrite Hallow. exact Hauth.
    + rewrite Hmarks, mapping_get_insert_ne by exact Hne. exact Hfresh2.
    + rewrite (callback_valid_allow_list env id sig s s1 Hallow). exact Hvalid.
Qed.

End HandlerSignature.

Section ScenarioSignature.
#[local] Existing Instance Scenario.toy_crypto.

(** Scenario E: one signature for [position1], two callback ids, two
    different payloads; both are executed. *)
Lemma signature_binds_position_only_witness :
  succeeds (Scenario.callback 5 Scenario.rebalance_data) Scenario.handler0 = true
  /\ succeeds (Scenario.callback 6 Scenario.unwind_data)
       (exec (Scenario.callback 5 Scenario.rebalance_data) Scenario.handler0) = true.
Proof.
  pose proof (signature_binds_position_only Scenario.handler0
                (Scenario.call Scenario.admin 0 1030) Scenario.world Scenario.position1
                Scenario.signature1 5 6 Scenario.rebalance_data Scenario.unwind_data) as H.
  do 3 discharge H. destruct H as [_ H].
  specialize (H "rebalance"%string (Scenario.ether 2) Scenario.tokenA
                "partial_unwind"%string (Scenario.ether 5) Scenario.tokenA).
  do 11 discharge H. exact H.
Defined.

(** C6 as stated fails: with the same valid signature and fresh ids, the
    call that carries a hedge payload does not succeed. *)
Lemma valid_signature_does_not_carry_every_payload :
  callback_valid (Scenario.call Scenario.admin 0 1030) Scenario.position1
    Scenario.signature1 Scenario.handler0 = true
  /\ succeeds (Scenario.callback 5 Scenario.rebalance_data) Scenario.handler0 = true
  /\ mapping_get false
       (DH.processedCallbacks (exec (Scenario.callback 5 Scenario.rebalance_data)
                                 Scenario.handler0)) 6 = false
  /\ succeeds (Scenario.callback 6 Scenario.hedge_data)
       (exec (Scenario.callback 5 Scenario.rebalance_data) Scenario.handler0) = false.
Proof. vm_compute. repeat split; reflexivity. Qed.

End ScenarioSignature.

(** ** The circuit breaker (C3) *)

Section PauseGuard.
Context {crypto : Crypto}.









End PauseGuard.

Section ScenarioPause.
#[local] Existing Instance Scenario.toy_crypto.



End ScenarioPause.

(** ** Who may call what (C8) *)

Section Authorization.
Context {crypto : Crypto}.

Lemma manager_updatePosition_not_owner (s : RM.State) (env : Env) (id : bytes32)
    (newThreshold : uint256) (newActionType : string) (newGasBudget : uint256) :
  msg_sender env <> RM.user (mapping_get RM.zero_position (RM.positions s) id) ->
  succeeds (RM.updatePosition env id newThreshold newActionType newGasBudget) s = false.
Proof.
  intros Hne. assert (Hc : (RM.user (mapping_get RM.zero_position (RM.positions s) id)
                            =? msg_sender env) = false) by (apply Z.eqb_neq; congruence).
  unfold RM.updatePosition, RM.whenNotPaused. tx_unfold. tx_simpl.
  repeat first [rewrite Hc; tx_simpl | goal_case]; reflexivity.
Qed.

Lemma manager_updateGasBudget_not_owner (s : RM.State) (env : Env) (id : bytes32)
    (newGasBudget : uint256) :
  msg_sender env <> RM.user (mapping_get RM.zero_position (RM.positions s) id) ->
  succeeds (RM.updateGasBudget env id newGasBudget) s = false.
Proof.
  intros Hne. assert (Hc : (RM.user (mapping_get RM.zero_position (RM.positions s) id)
                            =? msg_sender env) = false) by (apply Z.eqb_neq; congruence).
  unfold RM.updateGasBudget, RM.payable. tx_unfold. tx_simpl.
  repeat first [rewrite Hc; tx_simpl | goal_case]; reflexivity.
Qed.

Lemma manager_deactivatePosition_outsider (s : RM.State) (env : Env) (id : bytes32) :
  msg_sender env <> RM.user (mapping_get RM.zero_position (RM.positions s) id) ->
  msg_sender env <> RM.owner s ->
  succeeds (RM.deactivatePosition env id) s = false.
Proof.
  intros Hne Hadmin.
  assert (Hc : (RM.user (mapping_get RM.zero_position (RM.positions s) id)
                =? msg_sender env) = false) by (apply Z.eqb_neq; congruence).
  assert (Hc' : (msg_sender env =? RM.owner s) = false) by (apply Z.eqb_neq; congruence).
  unfold RM.deactivatePosition. tx_unfold. tx_simpl.
  repeat first [rewrite Hc, Hc'; tx_simpl | goal_case]; reflexivity.
Qed.

Lemma manager_react_not_relay (s : RM.State) (env : Env) (log : bytes) :
  msg_sender env <> RM.REACTIVE_SYSTEM -> succeeds (RM.react env log) s = false.
Proof.
  intros Hne. apply Z.eqb_neq in Hne.
  unfold RM.react, RM.whenNotPaused. tx_unfold. tx_simpl.
  repeat first [rewrite Hne; tx_simpl | goal_case]; reflexivity.
Qed.

Lemma handler_not_allow_listed (s : DH.State) (env : Env) :
  mapping_get false (DH.authorizedCallers s) (msg_sender env) = false ->
  (forall w id tokenIn tokenOut amountIn minAmountOut,
     succeeds (DH.executeHedgingTrade env w id tokenIn tokenOut amountIn minAmountOut) s
     = false)
  /\ (forall id actionType amount,
        succeeds (DH.executeRebalancing env id actionType amount) s = false)
  /\ (forall w cb id data sig,
        succeeds (DH.processCallback env w cb id data sig) s = false).
Proof.
  intros Hno. repeat split; intros.
  - unfold DH.executeHedgingTrade, DH.onlyAuthorized. tx_unfold.
    destruct (msg_value env =? 0); tx_simpl; [rewrite Hno |]; reflexivity.
  - unfold DH.executeRebalancing, DH.onlyAuthorized. tx_unfold.
    destruct (msg_value env =? 0); tx_simpl; [rewrite Hno |]; reflexivity.
  - unfold DH.processCallback, DH.onlyAuthorized. tx_unfold.
    destruct (msg_value env =? 0); tx_simpl; [rewrite Hno |]; reflexivity.
Qed.

(** C8 (as amended).  A caller other than the position's owner cannot
    update the position or its gas budget, and cannot deactivate it unless
    it is the manager's admin; a caller other than the relay cannot call
    [react]; a caller that is not allow-listed cannot call
    [executeHedgingTrade], [executeRebalancing] or [processCallback].
    Each such call is rejected with no state change and no event. *)
Theorem unauthorized_callers_rejected (ms : RM.State) (ds : DH.State)
    (caller outsider stranger : Env) (id : bytes32) :
  msg_sender caller <> RM.user (mapping_get RM.zero_position (RM.positions ms) id) ->
  msg_sender outsider <> RM.REACTIVE_SYSTEM ->
  mapping_get false (DH.authorizedCallers ds) (msg_sender stranger) = false ->
  (forall newThreshold newActionType newGasBudget,
     rejected (RM.updatePosition caller id newThreshold newActionType newGasBudget) ms)
  /\ (forall newGasBudget, rejected (RM.updateGasBudget caller id newGasBudget) ms)
  /\ (msg_sender caller <> RM.owner ms -> rejected (RM.deactivatePosition caller id) ms)
  /\ (forall log, rejected (RM.react outsider log) ms)
  /\ (forall w pid tokenIn tokenOut amountIn minAmountOut,
        rejected (DH.executeHedgingTrade stranger w pid tokenIn tokenOut amountIn
                    minAmountOut) ds)
  /\ (forall pid actionType amount,
        rejected (DH.executeRebalancing stranger pid actionType amount) ds)
  /\ (forall w cb pid data sig,
        rejected (DH.processCallback stranger w cb pid data sig) ds).
Proof.
  intros Hcaller Hrelay Hlist.
  split; [intros; apply rejected_intro, manager_updatePosition_not_owner, Hcaller |].
  split; [intros; apply rejected_intro, manager_updateGasBudget_not_owner, Hcaller |].
  split; [intros; apply rejected_intro, manager_deactivatePosition_outsider; assumption |].
  split; [intros; apply rejected_intro, manager_react_not_relay, Hrelay |].
  destruct (handler_not_allow_listed ds stranger Hlist) as (Hhedge & Hrebalance & Hcallback).
  split; [intros; apply rejected_intro, Hhedge |].
  split; [intros; apply rejected_intro, Hrebalance |].
  intros. apply rejected_intro, Hcallback.
Qed.

End Authorization.

Section ScenarioAuthorization.
#[local] Existing Instance Scenario.toy_crypto.

(** mallory is neither alice, nor the admin, nor the relay, nor
    allow-listed on the handler. *)
Lemma unauthorized_callers_rejected_witness :
  rejected (RM.updatePosition (Scenario.call Scenario.mallory 0 1040) Scenario.position1
              (Scenario.ether 20) "hedge" (Scenario.ether 9)) Scenario.manager1
  /\ rejected (RM.updateGasBudget (Scenario.call Scenario.mallory 0 1040)
                 Scenario.position1 (Scenario.ether 2)) Scenario.manager1
  /\ rejected (RM.deactivatePosition (Scenario.call Scenario.mallory 0 1040)
                 Scenario.position1) Scenario.manager1
  /\ rejected (RM.react (Scenario.call Scenario.mallory 0 1040) Scenario.price_event_025)
       Scenario.manager1
  /\ rejected (DH.processCallback (Scenario.call Scenario.mallory 0 1040) Scenario.world 5
                 Scenario.position1 Scenario.rebalance_data Scenario.signature1)
       Scenario.handler0.
Proof.
  pose proof (unauthorized_callers_rejected Scenario.manager1 Scenario.handler0
                (Scenario.call Scenario.mallory 0 1040)
                (Scenario.call Scenario.mallory 0 1040)
                (Scenario.call Scenario.mallory 0 1040) Scenario.position1) as H.
  do 3 discharge H.
  destruct H as (Hupdate & Hbudget & Hdeactivate & Hreact & _ & _ & Hcallback).
  discharge Hdeactivate.
  split; [apply Hupdate |]. split; [apply Hbudget |]. split; [exact Hdeactivate |].
  split; [apply Hreact | apply Hcallback].
Defined.

(** C8 as stated fails for deactivation: the manager's admin, who does not
    own alice's position, deactivates it. *)
Lemma admin_deactivates_foreign_position :
  RM.user (mapping_get RM.zero_position (RM.positions Scenario.manager1)
             Scenario.position1) = Scenario.alice
  /\ Scenario.admin <> Scenario.alice
  /\ RM.owner Scenario.manager1 = Scenario.admin
  /\ succeeds (RM.deactivatePosition (Scenario.call Scenario.admin 0 1040)
                 Scenario.position1) Scenario.manager1 = true
  /\ RM.isActive (mapping_get RM.zero_position
       (RM.positions (exec (RM.deactivatePosition (Scenario.call Scenario.admin 0 1040)
                              Scenario.position1) Scenario.manager1))
       Scenario.position1) = false.
Proof.
  split; [vm_compute; reflexivity |].
  split; [vm_compute; discriminate |].
  vm_compute. repeat split; reflexivity.
Qed.

End ScenarioAuthorization.

(** ** ReactiveManager: [updatePosition] and the gas budget (C2) *)

Section ManagerUpdate.

(** [updatePosition] stores the new budget as given; the function takes no
    payment, so none is compared with it. *)
Lemma updatePosition_sets_budget (s : RM.State) (env : Env) (id : bytes32)
    (newThreshold : uint256) (newActionType : string) (newGasBudget : uint256) :
  msg_value env = 0 -> RM.paused s = false ->
  RM.isActive (mapping_get RM.zero_position (RM.positions s) id) = true ->
  RM.user (mapping_get RM.zero_position (RM.positions s) id) = msg_sender env ->
  0 < newThreshold -> 0 < blen (bytes_of_string newActionType) ->
  succeeds (RM.updatePosition env id newThreshold newActionType newGasBudget) s = true
  /\ RM.gasBudget (mapping_get RM.zero_position
       (RM.positions (exec (RM.updatePosition env id newThreshold newActionType
                              newGasBudget) s)) id) = newGasBudget.
Proof.
  intros Hv Hp Hact Hown Hthr Hlen. apply Z.ltb_lt in Hthr, Hlen.
  unfold RM.updatePosition, RM.whenNotPaused, RM.store_position. tx_unfold.
  rewrite Hv. cbn [Z.eqb]. tx_simpl. rewrite Hp. tx_simpl. rewrite Hact. tx_simpl.
  rewrite Hown, Z.eqb_refl. tx_simpl. rewrite Hthr. tx_simpl. rewrite Hlen. tx_simpl.
  split; [reflexivity |]. rewrite !mapping_get_insert_eq. reflexivity.
Qed.

End ManagerUpdate.

Section ScenarioUpdate.
#[local] Existing Instance Scenario.toy_crypto.

(** C2 (the code departs from it).  alice raises the budget of her
    position from 0.1 to 0.2 through [updatePosition] and pays nothing;
    the call succeeds and the stored budget is 0.2.  [updateGasBudget]
    refuses the same change for the same payment. *)
Theorem updatePosition_raises_budget_unpaid :
  msg_value (Scenario.call Scenario.alice 0 1030) = 0
  /\ RM.gasBudget (mapping_get RM.zero_position (RM.positions Scenario.manager1)
                     Scenario.position1) = Scenario.ether 1
  /\ succeeds (RM.updatePosition (Scenario.call Scenario.alice 0 1030) Scenario.position1
                 (Scenario.ether 20) "partial_unwind" (Scenario.ether 2))
       Scenario.manager1 = true
  /\ RM.gasBudget (mapping_get RM.zero_position
       (RM.positions (exec (RM.updatePosition (Scenario.call Scenario.alice 0 1030)
                              Scenario.position1 (Scenario.ether 20) "partial_unwind"
                              (Scenario.ether 2)) Scenario.manager1))
       Scenario.position1) = Scenario.ether 2
  /\ fails_with (RM.updateGasBudget (Scenario.call Scenario.alice 0 1030)
                   Scenario.position1 (Scenario.ether 2))
       Scenario.manager1 "Insufficient gas payment".
Proof. vm_compute. repeat split; reflexivity. Qed.

End ScenarioUpdate.

(** ** OriginPosition: the bound on price updates (C10) *)

Section RegistryPrice.

Lemma updatePrice_run (s : OP.State) (env : Env) (id : bytes32) (newPrice : uint256) :
  msg_value env = 0 ->
  OP.owner s = msg_sender env ->
  OP.isActive (mapping_get OP.zero_position (OP.positions s) id) = true ->
  0 < newPrice <= MAX_UINT256 ->
  0 < OP.currentPrice (mapping_get OP.zero_position (OP.positions s) id) <= MAX_UINT256 ->
  (OP.MAX_PRICE_CHANGE
     < Z.abs (relative_change
                (OP.currentPrice (mapping_get OP.zero_position (OP.positions s) id))
                newPrice) ->
   succeeds (OP.updatePrice env id newPrice) s = false)
  /\ (Z.abs (relative_change
               (OP.currentPrice (mapping_get OP.zero_position (OP.positions s) id))
               newPrice) <= OP.MAX_PRICE_CHANGE ->
      Z.abs (newPrice
             - OP.currentPrice (mapping_get OP.zero_position (OP.positions s) id))
        * OP.PRICE_PRECISION <= MAX_UINT256 ->
      run (OP.updatePrice env id newPrice) s
      = Ok (tt,
            (OP.with_positions
               (fun m => <[id := OP.set_currentPrice newPrice
                                   (mapping_get OP.zero_position m id)]> m) s,
             [OP.PriceUpdate id
                (OP.currentPrice (mapping_get OP.zero_position (OP.positions s) id))
                newPrice
                (relative_change
                   (OP.currentPrice (mapping_get OP.zero_position (OP.positions s) id))
                   newPrice)]))).
Proof.
  intros Hv Hown Hact [Hn0 Hn1] [Ho0 Ho1].
  set (old := OP.currentPrice (mapping_get OP.zero_position (OP.positions s) id)) in *.
  unfold OP.updatePrice, OP.onlyOwner, OP.abs, OP.store_position. tx_unfold.
  rewrite Hv. cbn [Z.eqb]. tx_simpl. rewrite Hown, Z.eqb_refl. tx_simpl.
  rewrite Hact. tx_simpl. apply Z.ltb_lt in Hn0 as Hn0'. rewrite Hn0'. tx_simpl.
  fold old.
  assert (Hz : (old =? 0) = false) by (apply Z.eqb_neq; lia).
  assert (Hscale : OP.PRICE_PRECISION = 10 ^ 18) by reflexivity.
  destruct (old <? newPrice) eqn:Hdir; tx_simpl.
  - (* the price rises *)
    apply Z.ltb_lt in Hdir.
    assert (Hle : (old <=? newPrice) = true) by (apply Z.leb_le; lia).
    rewrite Hle. tx_simpl.
    assert (Hdelta : relative_change old newPrice
                     = (newPrice - old) * OP.PRICE_PRECISION / old).
    { unfold relative_change. apply Z.quot_div_nonneg; [rewrite Hscale; nia | lia]. }
    rewrite Hdelta. rewrite (Z.abs_eq (newPrice - old)) by lia.
    set (m := (newPrice - old) * OP.PRICE_PRECISION).
    assert (Hm0 : 0 <= m) by (unfold m; rewrite Hscale; nia).
    destruct (m <=? MAX_UINT256) eqn:Hm; tx_simpl;
      [apply Z.leb_le in Hm | apply Z.leb_gt in Hm; split; [reflexivity | lia]].
    rewrite Hz. tx_simpl. set (q := m / old).
    assert (Hq0 : 0 <= q) by (apply Z.div_pos; lia).
    assert (Hqm : q * old <= m) by (unfold q; rewrite Z.mul_comm; apply Z.mul_div_le; lia).
    rewrite (Z.abs_eq q) by exact Hq0.
    unfold to_int256, to_uint256, MAX_UINT256, MIN_INT256, OP.MAX_PRICE_CHANGE in *.
    destruct (q <? 2 ^ 255) eqn:Hsmall; tx_simpl.
    + apply Z.ltb_lt in Hsmall.
      replace (0 <=? q) with true by (symmetry; apply Z.leb_le; exact Hq0). tx_simpl.
      rewrite Z.mod_small by lia.
      destruct (q <=? 50 * 10 ^ 16) eqn:Hc; tx_simpl;
        [apply Z.leb_le in Hc | apply Z.leb_gt in Hc];
        (split; [first [reflexivity | lia] | first [reflexivity | lia]]).
    + apply Z.ltb_ge in Hsmall.
      assert (Hone : old = 1) by nia.
      assert (Hqeq : q = (newPrice - 1) * 10 ^ 18)
        by (unfold q, m; rewrite Hone, Hscale; apply Z.div_1_r).
      replace (0 <=? q - 2 ^ 256) with false by (symmetry; apply Z.leb_gt; lia).
      tx_simpl.
      destruct (q - 2 ^ 256 =? - 2 ^ 255) eqn:Hmin; tx_simpl; [split; [reflexivity | lia] |].
      apply Z.eqb_neq in Hmin.
      rewrite Z.mod_small by lia.
      replace (- (q - 2 ^ 256) <=? 50 * 10 ^ 16) with false
        by (symmetry; apply Z.leb_gt; lia).
      tx_simpl. split; [reflexivity | lia].
  - (* the price falls or stays *)
    apply Z.ltb_ge in Hdir.
    assert (Hle : (newPrice <=? old) = true) by (apply Z.leb_le; lia).
    rewrite Hle. tx_simpl.
    assert (Hdelta : relative_change old newPrice
                     = - ((old - newPrice) * OP.PRICE_PRECISION / old)).
    { unfold relative_change.
      replace ((newPrice - old) * OP.PRICE_PRECISION)
        with (- ((old - newPrice) * OP.PRICE_PRECISION)) by ring.
      rewrite Z.quot_opp_l by lia. f_equal.
      apply Z.quot_div_nonneg; [rewrite Hscale; nia | lia]. }
    rewrite Hdelta. rewrite Z.abs_opp.
    replace (Z.abs (newPrice - old)) with (old - newPrice) by lia.
    set (m := (old - newPrice) * OP.PRICE_PRECISION).
    assert (Hm0 : 0 <= m) by (unfold m; rewrite Hscale; nia).
    destruct (m <=? MAX_UINT256) eqn:Hm; tx_simpl;
      [apply Z.leb_le in Hm | apply Z.leb_gt in Hm; split; [reflexivity | lia]].
    rewrite Hz. tx_simpl. set (q := m / old).
    assert (Hq0 : 0 <= q) by (apply Z.div_pos; lia).
    assert (Hq1 : q < 10 ^ 18).
    { unfold q. apply Z.div_lt_upper_bound; [lia |]. unfold m. rewrite Hscale. nia. }
    rewrite (Z.abs_eq q) by exact Hq0.
    unfold to_int256, to_uint256, MAX_UINT256, MIN_INT256, OP.MAX_PRICE_CHANGE in *.
    replace (q <? 2 ^ 255) with true by (symmetry; apply Z.ltb_lt; lia).
    replace (q =? - 2 ^ 255) with false by (symmetry; apply Z.eqb_neq; lia).
    tx_simpl.
    destruct (0 <=? - q) eqn:Hzero; tx_simpl.
    + apply Z.leb_le in Hzero. assert (Hq : q = 0) by lia. rewrite Hq.
      cbn. split; [lia | reflexivity].
    + apply Z.leb_gt in Hzero.
      replace (- q =? - 2 ^ 255) with false by (symmetry; apply Z.eqb_neq; lia).
      tx_simpl. rewrite Z.opp_involutive, Z.mod_small by lia.
      destruct (q <=? 50 * 10 ^ 16) eqn:Hc; tx_simpl;
        [apply Z.leb_le in Hc | apply Z.leb_gt in Hc];
        (split; [first [reflexivity | lia] | first [reflexivity | lia]]).
Qed.

End RegistryPrice.

Section RegistryPriceBound.

(** C10 (as amended).  For an active position whose stored price is
    positive, an admin call [updatePrice(id, newPrice)] with [newPrice > 0]
    is rejected, leaving [currentPrice] as it was, whenever the signed
    relative change [(newPrice - oldPrice) * 10^18 / oldPrice] exceeds
    [50 * 10^16] in absolute value; when the change is within the bound
    and the product [|newPrice - oldPrice| * 10^18] fits in 256 bits, the
    call stores [newPrice] and emits [PriceUpdate] with that change. *)
Theorem updatePrice_change_bound (s : OP.State) (env : Env) (id : bytes32)
    (newPrice : uint256) :
  msg_value env = 0 ->
  OP.owner s = msg_sender env ->
  OP.isActive (mapping_get OP.zero_position (OP.positions s) id) = true ->
  0 < newPrice <= MAX_UINT256 ->
  0 < OP.currentPrice (mapping_get OP.zero_position (OP.positions s) id) <= MAX_UINT256 ->
  (OP.MAX_PRICE_CHANGE
     < Z.abs (relative_change
                (OP.currentPrice (mapping_get OP.zero_position (OP.positions s) id))
                newPrice) ->
   rejected (OP.updatePrice env id newPrice) s
   /\ OP.currentPrice (mapping_get OP.zero_position
        (OP.positions (exec (OP.updatePrice env id newPrice) s)) id)
      = OP.currentPrice (mapping_get OP.zero_position (OP.positions s) id))
  /\ (Z.abs (relative_change
               (OP.currentPrice (mapping_get OP.zero_position (OP.positions s) id))
               newPrice) <= OP.MAX_PRICE_CHANGE ->
      Z.abs (newPrice
             - OP.currentPrice (mapping_get OP.zero_position (OP.positions s) id))
        * OP.PRICE_PRECISION <= MAX_UINT256 ->
      succeeds (OP.updatePrice env id newPrice) s = true
      /\ OP.currentPrice (mapping_get OP.zero_position
           (OP.positions (exec (OP.updatePrice env id newPrice) s)) id) = newPrice
      /\ logged (OP.updatePrice env id newPrice) s
         = [OP.PriceUpdate id
              (OP.currentPrice (mapping_get OP.zero_position (OP.positions s) id))
              newPrice
              (relative_change
                 (OP.currentPrice (mapping_get OP.zero_position (OP.positions s) id))
                 newPrice)]).
Proof.
  intros Hv Hown Hact Hnew Hold.
  destruct (updatePrice_run s env id newPrice Hv Hown Hact Hnew Hold) as [Hbig Hfit].
  split.
  - intros Hover. specialize (Hbig Hover).
    split; [apply rejected_intro, Hbig |]. rewrite (exec_rejected _ _ Hbig). reflexivity.
  - intros Hwithin Hprod. specialize (Hfit Hwithin Hprod).
    unfold succeeds, exec, logged. rewrite Hfit. tx_simpl.
    split; [reflexivity |]. split; [| reflexivity].
    rewrite mapping_get_insert_eq. reflexivity.
Qed.

End RegistryPriceBound.

Section ScenarioPrice.
#[local] Existing Instance Scenario.toy_crypto.

(** A position created at price 2.0: a move to 3.0 (exactly 50%) is
    stored, a move to 3.1 is refused. *)
Lemma updatePrice_change_bound_witness :
  OP.currentPrice (mapping_get OP.zero_position
    (OP.positions (Scenario.registry_of (10 ^ 18) (2 * 10 ^ 18)))
    (Scenario.origin_id (10 ^ 18) (2 * 10 ^ 18))) = 2 * 10 ^ 18
  /\ OP.currentPrice (mapping_get OP.zero_position
       (OP.positions (exec (OP.updatePrice (Scenario.call Scenario.admin 0 1030)
                              (Scenario.origin_id (10 ^ 18) (2 * 10 ^ 18)) (3 * 10 ^ 18))
                        (Scenario.registry_of (10 ^ 18) (2 * 10 ^ 18))))
       (Scenario.origin_id (10 ^ 18) (2 * 10 ^ 18))) = 3 * 10 ^ 18
  /\ rejected (OP.updatePrice (Scenario.call Scenario.admin 0 1030)
                 (Scenario.origin_id (10 ^ 18) (2 * 10 ^ 18)) (31 * 10 ^ 17))
       (Scenario.registry_of (10 ^ 18) (2 * 10 ^ 18)).
Proof.
  split; [vm_compute; reflexivity |].
  pose proof (updatePrice_change_bound (Scenario.registry_of (10 ^ 18) (2 * 10 ^ 18))
                (Scenario.call Scenario.admin 0 1030)
                (Scenario.origin_id (10 ^ 18) (2 * 10 ^ 18)) (3 * 10 ^ 18)) as Hok.
  do 3 discharge Hok.
  specialize (Hok ltac:(vm_compute; split; [reflexivity | discriminate])
                  ltac:(vm_compute; split; [reflexivity | discriminate])).
  destruct Hok as [_ Hok]. do 2 discharge Hok. destruct Hok as (_ & Hstored & _).
  pose proof (updatePrice_change_bound (Scenario.registry_of (10 ^ 18) (2 * 10 ^ 18))
                (Scenario.call Scenario.admin 0 1030)
                (Scenario.origin_id (10 ^ 18) (2 * 10 ^ 18)) (31 * 10 ^ 17)) as Hno.
  do 3 discharge Hno.
  specialize (Hno ltac:(vm_compute; split; [reflexivity | discriminate])
                  ltac:(vm_compute; split; [reflexivity | discriminate])).
  destruct Hno as [Hno _]. discharge Hno. destruct Hno as [Hrejected _].
  split; [exact Hstored | exact Hrejected].
Defined.

(** C10 as stated fails: a position created with amounts [1] and [10^42]
    has price [10^60]; moving it to [1.2 * 10^60] is a relative change of
    20%, within the bound, yet the call reverts (arithmetic overflow in
    [(newPrice - oldPrice) * 10^18]) and the price stays. *)
Lemma updatePrice_rejects_small_change_on_overflow :
  OP.isActive (mapping_get OP.zero_position
    (OP.positions (Scenario.registry_of 1 (10 ^ 42))) (Scenario.origin_id 1 (10 ^ 42)))
  = true
  /\ OP.currentPrice (mapping_get OP.zero_position
       (OP.positions (Scenario.registry_of 1 (10 ^ 42))) (Scenario.origin_id 1 (10 ^ 42)))
     = 10 ^ 60
  /\ Z.abs (relative_change (10 ^ 60) (12 * 10 ^ 59)) = 20 * 10 ^ 16
  /\ 20 * 10 ^ 16 <= OP.MAX_PRICE_CHANGE
  /\ run (OP.updatePrice (Scenario.call Scenario.admin 0 1030)
            (Scenario.origin_id 1 (10 ^ 42)) (12 * 10 ^ 59))
       (Scenario.registry_of 1 (10 ^ 42)) = Err (Panic 17)
  /\ OP.currentPrice (mapping_get OP.zero_position
       (OP.positions (exec (OP.updatePrice (Scenario.call Scenario.admin 0 1030)
                              (Scenario.origin_id 1 (10 ^ 42)) (12 * 10 ^ 59))
                        (Scenario.registry_of 1 (10 ^ 42))))
       (Scenario.origin_id 1 (10 ^ 42))) = 10 ^ 60.
Proof.
  split; [vm_compute; reflexivity |]. split; [vm_compute; reflexivity |].
  split; [vm_compute; reflexivity |]. split; [vm_compute; discriminate |].
  split; vm_compute; reflexivity.
Qed.

(** A position created with amounts [10^24] and [10^5] has price 0; every
    price update on it then divides by zero. *)
Example updatePrice_on_zero_price :
  OP.isActive (mapping_get OP.zero_position
    (OP.positions (Scenario.registry_of (10 ^ 24) (10 ^ 5)))
    (Scenario.origin_id (10 ^ 24) (10 ^ 5))) = true
  /\ OP.currentPrice (mapping_get OP.zero_position
       (OP.positions (Scenario.registry_of (10 ^ 24) (10 ^ 5)))
       (Scenario.origin_id (10 ^ 24) (10 ^ 5))) = 0
  /\ run (OP.updatePrice (Scenario.call Scenario.admin 0 1030)
            (Scenario.origin_id (10 ^ 24) (10 ^ 5)) 1)
       (Scenario.registry_of (10 ^ 24) (10 ^ 5)) = Err (Panic 18).
Proof. vm_compute. repeat split; reflexivity. Qed.

End ScenarioPrice.

(** * Further properties *)

(** ** Encodings: round trips *)

Lemma byte_of_Z_to_Z (z : Z) : byte_to_Z (byte_of_Z z) = z mod 256.
Proof.
  unfold byte_to_Z, byte_of_Z.
  assert (Hr : 0 <= z mod 256 < 256) by (apply Z.mod_pos_bound; lia).
  destruct (Byte.of_N (Z.to_N (z mod 256))) as [b|] eqn:E.
  - apply Byte.to_of_N in E. rewrite E. apply Z2N.id. lia.
  - apply Byte.of_N_None_iff in E. lia.
Qed.

Lemma Z_to_be_succ (n : nat) (v : Z) :
  Z_to_be (S n) v = Z_to_be n (v / 256) ++ [byte_of_Z v].
Proof. reflexivity. Qed.

Lemma length_Z_to_be (n : nat) (v : Z) : length (Z_to_be n v) = n.
Proof.
  revert v. induction n as [| n IH]; intros v; [reflexivity |].
  rewrite Z_to_be_succ, length_app, IH. cbn. lia.
Qed.

Lemma be_to_Z_of_be (n : nat) (v : Z) : be_to_Z (Z_to_be n v) = v mod 256 ^ Z.of_nat n.
Proof.
  revert v. induction n as [| n IH]; intros v.
  - change (be_to_Z (Z_to_be 0 v)) with 0. cbn. symmetry. apply Z.mod_1_r.
  - rewrite Z_to_be_succ, be_to_Z_snoc, IH, byte_of_Z_to_Z.
    rewrite Nat2Z.inj_succ, Z.pow_succ_r by lia.
    rewrite Z.rem_mul_r by lia. lia.
Qed.

Lemma length_word (v : Z) : length (Abi.word v) = 32%nat.
Proof. apply length_Z_to_be. Qed.

Lemma be_to_Z_word (v : Z) : be_to_Z (Abi.word v) = v mod 2 ^ 256.
Proof.
  unfold Abi.word. rewrite be_to_Z_of_be. change (256 ^ Z.of_nat 32) with (2 ^ 256).
  apply Z.mod_mod. lia.
Qed.

Lemma take_prefix (l k : bytes) (n : nat) : length l = n -> firstn n (l ++ k) = l.
Proof. intros <-. apply take_app_length. Qed.

Lemma drop_prefix (l k : bytes) (n : nat) : length l = n -> skipn n (l ++ k) = k.
Proof. intros <-. apply drop_app_length. Qed.

(** The word at the head of a byte string, and past a prefix. *)
Lemma word_at_head (v : Z) (rest : bytes) :
  Abi.word_at (Abi.word v ++ rest) 0 = v mod 2 ^ 256.
Proof.
  unfold Abi.word_at. rewrite drop_0, (take_prefix _ _ 32) by apply length_word.
  apply be_to_Z_word.
Qed.

Lemma word_at_skip (prefix rest : bytes) (n : nat) :
  length prefix = n -> Abi.word_at (prefix ++ rest) n = Abi.word_at rest 0.
Proof.
  intros H. unfold Abi.word_at. rewrite drop_0, (drop_prefix _ _ n) by exact H.
  reflexivity.
Qed.

Lemma to_int256_of_word (c : int256) :
  MIN_INT256 <= c <= MAX_INT256 -> to_int256 (c mod 2 ^ 256) = c.
Proof.
  unfold MIN_INT256, MAX_INT256, to_int256. intros H.
  destruct (Z_lt_le_dec c 0) as [Hneg | Hpos].
  - replace (c mod 2 ^ 256) with (c + 2 ^ 256)
      by (apply Z.mod_unique with (q := -1); lia).
    replace (c + 2 ^ 256 <? 2 ^ 255) with false by (symmetry; apply Z.ltb_ge; lia). lia.
  - rewrite Z.mod_small by lia.
    replace (c <? 2 ^ 255) with true by (symmetry; apply Z.ltb_lt; lia). reflexivity.
Qed.

Section Envelope.
Context {crypto : Crypto}.

(** X1.  The relay envelope round-trips: from a log made of an event
    signature, a position id and the ABI encoding of
    [(old, new, change)], followed by anything, [_parseLog] recovers the
    signature, the id and the data, and the handlers' decoder recovers the
    three values, the signed change included. *)
Theorem relay_envelope_round_trip (s : RM.State) (sig id : bytes32) (old new : uint256)
    (change : int256) (extra : bytes) :
  0 <= sig <= MAX_UINT256 -> 0 <= id <= MAX_UINT256 ->
  0 <= old <= MAX_UINT256 -> 0 <= new <= MAX_UINT256 ->
  MIN_INT256 <= change <= MAX_INT256 ->
  run (RM._parseLog (Abi.word sig ++ Abi.word id
                       ++ Abi.encode_uint_uint_int old new change ++ extra)) s
  = Ok ((sig, id, Abi.encode_uint_uint_int old new change ++ extra), (s, []))
  /\ Abi.decode_uint_uint_int (Abi.encode_uint_uint_int old new change ++ extra)
     = Some (old, new, change).
Proof.
  unfold MAX_UINT256. intros Hsig Hid Hold Hnew Hchange. split.
  - unfold RM._parseLog. tx_unfold.
    assert (Hlen : (64 <=? blen (Abi.word sig ++ Abi.word id
                      ++ Abi.encode_uint_uint_int old new change ++ extra)) = true).
    { apply Z.leb_le. unfold blen. rewrite !length_app, !length_word. lia. }
    rewrite Hlen. tx_simpl.
    rewrite (take_prefix _ _ 32) by apply length_word.
    rewrite (drop_prefix _ _ 32) by apply length_word.
    rewrite (take_prefix _ _ 32) by apply length_word.
    change 64%nat with (32 + 32)%nat. rewrite <- drop_drop.
    rewrite (drop_prefix _ _ 32) by apply length_word.
    rewrite (drop_prefix _ _ 32) by apply length_word.
    rewrite !be_to_Z_word, !Z.mod_small by lia. reflexivity.
  - unfold Abi.decode_uint_uint_int, Abi.encode_uint_uint_int.
    rewrite <- !app_assoc.
    replace (blen _ <? 96) with false.
    2: { symmetry. apply Z.ltb_ge. unfold blen. rewrite !length_app, !length_word. lia. }
    rewrite word_at_head.
    rewrite (word_at_skip (Abi.word old) _ 32) by apply length_word.
    rewrite word_at_head.
    change 64%nat with (32 + 32)%nat.
    rewrite (app_assoc (Abi.word old)).
    rewrite (word_at_skip (Abi.word old ++ Abi.word new) _ (32 + 32))
      by (rewrite length_app, !length_word; reflexivity).
    rewrite word_at_head.
    rewrite !Z.mod_small by lia. rewrite to_int256_of_word by exact Hchange. reflexivity.
Qed.

End Envelope.

(** The event of the registry for a fall of the price from 2.0 to 1.5. *)
Lemma relay_envelope_round_trip_witness :
  Abi.decode_uint_uint_int
    (Abi.encode_uint_uint_int (2 * 10 ^ 18) (15 * 10 ^ 17) (- 25 * 10 ^ 16) ++ [])
  = Some (2 * 10 ^ 18, 15 * 10 ^ 17, - 25 * 10 ^ 16).
Proof.
  pose proof (relay_envelope_round_trip Scenario.manager0 1 2 (2 * 10 ^ 18) (15 * 10 ^ 17)
                (- 25 * 10 ^ 16) []) as H.
  specialize (H ltac:(vm_compute; split; discriminate) ltac:(vm_compute; split; discriminate)
                ltac:(vm_compute; split; discriminate) ltac:(vm_compute; split; discriminate)
                ltac:(vm_compute; split; discriminate)).
  exact (proj2 H).
Defined.

(** [abi.decode] inverts [abi.encode] on [(string, uint256, address)]. *)
Lemma payload_decode_encode (actionType : string) (n : uint256) (a : address) :
  0 <= n <= MAX_UINT256 -> 0 <= a <= MAX_ADDRESS ->
  blen (bytes_of_string actionType) <= 2 ^ 64 - 1 ->
  Abi.decode_string_uint_address (Abi.encode_string_uint_address actionType n a)
  = Some (actionType, n, a).
Proof.
  unfold MAX_UINT256, MAX_ADDRESS. intros Hn Ha Hs.
  unfold Abi.encode_string_uint_address, Abi.tail.
  set (b := bytes_of_string actionType) in *.
  set (pad := Abi.zeros (Z.to_nat ((- blen b) mod 32))).
  set (d := Abi.word 96 ++ Abi.word n ++ Abi.word a ++ Abi.word (blen b) ++ b ++ pad).
  assert (Hb0 : 0 <= blen b) by (unfold blen; lia).
  assert (Hpad0 : 0 <= blen pad) by (unfold blen; lia).
  assert (Htotal : blen d = 128 + blen b + blen pad).
  { unfold d, blen. rewrite !length_app, !length_word. lia. }
  assert (H0 : Abi.word_at d 0 = 96).
  { unfold d. rewrite word_at_head. apply Z.mod_small. lia. }
  assert (H32 : Abi.word_at d 32 = n).
  { unfold d. rewrite (word_at_skip (Abi.word 96) _ 32) by apply length_word.
    rewrite word_at_head. apply Z.mod_small. lia. }
  assert (H64 : Abi.word_at d 64 = a).
  { replace d with ((Abi.word 96 ++ Abi.word n)
                      ++ Abi.word a ++ Abi.word (blen b) ++ b ++ pad)
      by (unfold d; rewrite <- app_assoc; reflexivity).
    rewrite (word_at_skip _ _ 64) by (rewrite length_app, !length_word; reflexivity).
    rewrite word_at_head. apply Z.mod_small. lia. }
  assert (H96 : Abi.word_at d 96 = blen b).
  { replace d with ((Abi.word 96 ++ Abi.word n ++ Abi.word a)
                      ++ Abi.word (blen b) ++ b ++ pad)
      by (unfold d; rewrite <- !app_assoc; reflexivity).
    rewrite (word_at_skip _ _ 96) by (rewrite !length_app, !length_word; reflexivity).
    rewrite word_at_head. apply Z.mod_small. lia. }
  assert (Hstr : firstn (Z.to_nat (blen b)) (skipn (96 + 32) d) = b).
  { replace d with ((Abi.word 96 ++ Abi.word n ++ Abi.word a ++ Abi.word (blen b))
                      ++ b ++ pad)
      by (unfold d; rewrite <- !app_assoc; reflexivity).
    rewrite (drop_prefix _ _ (96 + 32))
      by (rewrite !length_app, !length_word; reflexivity).
    apply take_prefix. unfold blen. lia. }
  unfold Abi.decode_string_uint_address, MAX_ADDRESS. rewrite Htotal, H0, H32, H64.
  change (Z.to_nat 96) with 96%nat. rewrite H96, Hstr.
  replace (128 + blen b + blen pad <? 96) with false by (symmetry; apply Z.ltb_ge; lia).
  replace (2 ^ 160 - 1 <? a) with false by (symmetry; apply Z.ltb_ge; lia).
  replace (2 ^ 64 - 1 <? 96) with false by reflexivity.
  replace (128 + blen b + blen pad <=? 96 + 31) with false
    by (symmetry; apply Z.leb_gt; lia).
  replace (2 ^ 64 - 1 <? blen b) with false by (symmetry; apply Z.ltb_ge; lia).
  replace (128 + blen b + blen pad <? 96 + 32 + blen b) with false
    by (symmetry; apply Z.ltb_ge; lia).
  unfold string_of_bytes, b, bytes_of_string.
  rewrite string_of_list_byte_of_string. reflexivity.
Qed.

(** ** From the manager's callback request to the handler *)

Section CallbackRequest.
Context {crypto : Crypto}.

(** The result of a fresh, validly signed callback that carries a
    supported rebalancing action of positive amount. *)
Lemma processCallback_rebalancing_run (s : DH.State) (env : Env) (w : World)
    (cb id : bytes32) (data sig : bytes) (a : string) (amount : uint256) (token : address) :
  msg_value env = 0 ->
  mapping_get false (DH.authorizedCallers s) (msg_sender env) = true ->
  DH.paused s = false -> DH.entered s = false ->
  mapping_get false (DH.processedCallbacks s) cb = false ->
  callback_valid env id sig s = true ->
  Abi.decode_string_uint_address data = Some (a, amount, token) ->
  rebalancing_action a = true -> 0 < amount ->
  run (DH.processCallback env w cb id data sig) s
  = Ok (true,
        (DH.with_processedCallbacks <[cb := true]> s,
         [DH.RebalancingExecuted id a amount
            (keccak256 (Abi.encodePacked
               [Abi.word id; bytes_of_string a; Abi.word amount;
                Abi.word (block_timestamp env)]));
          DH.CallbackProcessed cb true])).
Proof.
  intros Hv Hauth Hp He Hfresh Hvalid Hdec Hact Hamount.
  unfold rebalancing_action in Hact.
  apply andb_prop in Hact as [Hact Hlen]. apply andb_prop in Hact as [Hhedge Hkind].
  apply negb_true_iff in Hhedge.
  apply (validateCallback_run env id sig (s, [])) in Hvalid.
  apply Z.ltb_lt in Hamount.
  assert (Hs : forall (l : list DH.Event) s',
            s' = DH.with_processedCallbacks <[cb := true]> s ->
            Ok (true, (s', l)) = Ok (true, (DH.with_processedCallbacks <[cb := true]> s, l))
            :> result (bool * (DH.State * list DH.Event)))
    by (intros l s' ->; reflexivity).
  assert (Hback : DH.set_entered false
                    (DH.set_entered true (DH.with_processedCallbacks <[cb := true]> s))
                  = DH.with_processedCallbacks <[cb := true]> s)
    by (destruct s; cbn in He |- *; rewrite He; reflexivity).
  unfold DH.processCallback, DH.executeRebalancing, DH.onlyAuthorized,
    DH.whenNotPaused, DH.nonReentrant, DH._executePartialUnwind, DH._executeRebalance.
  rewrite Hdec. tx_unfold. rewrite Hv. cbn [Z.eqb].
  repeat (tx_simpl;
          first [rewrite Hauth | rewrite Hp | rewrite He | rewrite Hfresh
                | rewrite Hvalid | rewrite Hhedge | rewrite Hamount | rewrite Hlen]).
  tx_simpl.
  destruct (_ =? keccak256 (bytes_of_string "partial_unwind")); [apply Hs, Hback |].
  cbn [orb] in Hkind. rewrite Hkind. apply Hs, Hback.
Qed.

(** X2.  The callback payload round-trips from the manager to the
    handler.  A trigger on a position whose fields are in range (and with
    room in the counters) logs a callback request to [processCallback]
    whose action data the handler decodes as the position's action type,
    with the position's threshold in the place of the amount and its
    origin token in the place of the token.  So [processCallback], given
    that action data by an allow-listed caller under a valid signature,
    executes a rebalancing of the position's action type for an amount
    equal to the threshold, when the action type is a supported
    rebalancing action and the threshold is positive; and it is rejected
    when the action type hashes like "hedge". *)
Theorem callback_payload_round_trip (s : RM.State) (env : Env) (id : bytes32)
    (reason : string) (data : bytes) :
  0 <= RM.threshold (mapping_get RM.zero_position (RM.positions s) id) <= MAX_UINT256 ->
  0 <= RM.originToken (mapping_get RM.zero_position (RM.positions s) id) <= MAX_ADDRESS ->
  blen (bytes_of_string (RM.actionType (mapping_get RM.zero_position (RM.positions s) id)))
  <= 2 ^ 64 - 1 ->
  RM.totalReactiveActions s + 1 <= MAX_UINT256 ->
  RM.totalGasUsed s + RM.gasBudget (mapping_get RM.zero_position (RM.positions s) id)
  <= MAX_UINT256 ->
  exists actionData,
    logged (RM._triggerReactiveAction env id reason data) s
    = [RM.CallbackEmitted id (RM.destinationChainId s) (RM.destinationHandlerContract s)
         (firstn 4 (Abi.word (keccak256 (bytes_of_string
            "processCallback(bytes32,bytes32,bytes,bytes)")))
          ++ Abi.encode_b32_b32_bytes_bytes
               (keccak256 (Abi.encodePacked
                  [Abi.word id; Abi.word (block_timestamp env)]))
               id actionData []);
       RM.ReactiveActionTriggered id 0 0
         (RM.gasBudget (mapping_get RM.zero_position (RM.positions s) id))]
    /\ Abi.decode_string_uint_address actionData
       = Some (RM.actionType (mapping_get RM.zero_position (RM.positions s) id),
               RM.threshold (mapping_get RM.zero_position (RM.positions s) id),
               RM.originToken (mapping_get RM.zero_position (RM.positions s) id))
    /\ forall (h : DH.State) (env' : Env) (w : World) (cb : bytes32) (sig : bytes),
         (msg_value env' = 0 ->
          mapping_get false (DH.authorizedCallers h) (msg_sender env') = true ->
          DH.paused h = false -> DH.entered h = false ->
          mapping_get false (DH.processedCallbacks h) cb = false ->
          callback_valid env' id sig h = true ->
          rebalancing_action
            (RM.actionType (mapping_get RM.zero_position (RM.positions s) id)) = true ->
          0 < RM.threshold (mapping_get RM.zero_position (RM.positions s) id) ->
          run (DH.processCallback env' w cb id actionData sig) h
          = Ok (true,
                (DH.with_processedCallbacks <[cb := true]> h,
                 [DH.RebalancingExecuted id
                    (RM.actionType (mapping_get RM.zero_position (RM.positions s) id))
                    (RM.threshold (mapping_get RM.zero_position (RM.positions s) id))
                    (keccak256 (Abi.encodePacked
                       [Abi.word id;
                        bytes_of_string
                          (RM.actionType
                             (mapping_get RM.zero_position (RM.positions s) id));
                        Abi.word
                          (RM.threshold
                             (mapping_get RM.zero_position (RM.positions s) id));
                        Abi.word (block_timestamp env')]));
                  DH.CallbackProcessed cb true])))
         /\ (keccak256 (bytes_of_string
               (RM.actionType (mapping_get RM.zero_position (RM.positions s) id)))
             = keccak256 (bytes_of_string "hedge") ->
             rejected (DH.processCallback env' w cb id actionData sig) h).
Proof.
  intros Hthr Htok Hlen Hn Hg.
  set (p := mapping_get RM.zero_position (RM.positions s) id) in *.
  exists (Abi.encode_string_uint_address (RM.actionType p) (RM.threshold p)
            (RM.originToken p)).
  pose proof (payload_decode_encode (RM.actionType p) (RM.threshold p) (RM.originToken p)
                Hthr Htok Hlen) as Hdec.
  split; [| split; [exact Hdec |]].
  - apply Z.leb_le in Hn, Hg.
    unfold logged, RM._triggerReactiveAction, RM.store_position. tx_unfold. tx_simpl.
    rewrite Hn. tx_simpl. rewrite !mapping_get_insert_eq. tx_simpl.
    fold p. rewrite Hg. reflexivity.
  - intros h env' w cb sig. split.
    + intros Hv Hauth Hp He Hfresh Hvalid Hact Hpos.
      eapply processCallback_rebalancing_run; eassumption.
    + intros Hhedge. apply rejected_intro.
      eapply processCallback_hedge_fails; eassumption.
Qed.

End CallbackRequest.

Section ScenarioCallbackRequest.
#[local] Existing Instance Scenario.toy_crypto.

(** A trigger on alice's position (action "rebalance", threshold 0.2, no
    origin token), and admin's delivery of the request to the handler. *)
Lemma callback_payload_round_trip_witness :
  exists actionData,
    Abi.decode_string_uint_address actionData
    = Some ("rebalance"%string, Scenario.ether 2, 0)
    /\ logged (DH.processCallback (Scenario.call Scenario.admin 0 1040) Scenario.world 1
                 Scenario.position1 actionData Scenario.signature1) Scenario.handler0
       = [DH.RebalancingExecuted Scenario.position1 "rebalance" (Scenario.ether 2)
            (keccak256 (Abi.encodePacked
               [Abi.word Scenario.position1; bytes_of_string "rebalance";
                Abi.word (Scenario.ether 2); Abi.word 1040]));
          DH.CallbackProcessed 1 true].
Proof.
  pose proof (callback_payload_round_trip Scenario.manager1
                (Scenario.call Scenario.relay 0 1030) Scenario.position1
                "price_threshold_exceeded" []) as H.
  specialize (H ltac:(vm_compute; split; discriminate)
                ltac:(vm_compute; split; discriminate)).
  do 3 discharge H.
  destruct H as (actionData & _ & Hdec & Hcb).
  exists actionData. split; [rewrite Hdec; vm_compute; reflexivity |].
  destruct (Hcb Scenario.handler0 (Scenario.call Scenario.admin 0 1040) Scenario.world 1
              Scenario.signature1) as [Hrun _].
  do 8 discharge Hrun.
  unfold logged. rewrite Hrun. vm_compute. reflexivity.
Defined.

End ScenarioCallbackRequest.

(** ** ReactiveManager: creating positions *)

Lemma nonempty_string_length (a : string) :
  a <> ""%string -> (0 <? blen (bytes_of_string a)) = true.
Proof.
  intros H. destruct a as [| c a]; [contradiction |].
  apply Z.ltb_lt. unfold blen, bytes_of_string, list_byte_of_string.
  cbn [list_ascii_of_string map length]. lia.
Qed.

Section ManagerCreate.
Context {crypto : Crypto}.

(** The state a successful [createPosition] leaves. *)
Lemma createPosition_run (s : RM.State) (env : Env) (chainId : uint256)
    (originContract originToken : address) (label : string) (threshold : uint256)
    (actionType : string) (gasBudget : uint256) :
  RM.paused s = false -> RM.entered s = false ->
  originContract <> 0 -> 0 < threshold -> actionType <> ""%string ->
  0 < gasBudget <= msg_value env ->
  RM.totalPositions s + 1 <= MAX_UINT256 ->
  run (RM.createPosition env chainId originContract originToken label threshold
         actionType gasBudget) s
  = Ok (RM.position_id env chainId originContract label threshold actionType,
        (RM.set_entered false
           (RM.set_totalPositions (RM.totalPositions s + 1)
              (RM.with_userPositions
                 (fun m => <[msg_sender env :=
                               mapping_get [] m (msg_sender env)
                               ++ [RM.position_id env chainId originContract label
                                     threshold actionType]]> m)
                 (RM.with_positions
                    <[RM.position_id env chainId originContract label threshold
                        actionType :=
                        {| RM.user := msg_sender env; RM.originChainId := chainId;
                           RM.originContract := originContract;
                           RM.originToken := originToken;
                           RM.positionIdentifier := label; RM.threshold := threshold;
                           RM.actionType := actionType; RM.gasBudget := gasBudget;
                           RM.isActive := true; RM.createdAt := block_timestamp env;
                           RM.lastTriggered := 0 |}]>
                    (RM.set_entered true
                       (RM.set_balance (RM.balance s + msg_value env) s))))),
         [RM.PositionCreated
            (RM.position_id env chainId originContract label threshold actionType)
            (msg_sender env) chainId originContract threshold actionType])).
Proof.
  intros Hp He Hoc Hthr Hact [Hgb Hpay] Htotal.
  apply Z.eqb_neq in Hoc. apply Z.ltb_lt in Hthr, Hgb. apply Z.leb_le in Hpay, Htotal.
  apply nonempty_string_length in Hact.
  unfold RM.createPosition, RM.payable, RM.whenNotPaused, RM.nonReentrant, RM.position_id.
  tx_unfold. tx_forward. reflexivity.
Qed.

(** X3.  A valid [createPosition] (manager not paused, origin contract
    not zero, positive threshold, non-empty action type, positive budget
    covered by the payment) registers the position under the id it
    returns: [getPosition] reads the arguments back with the position
    active, the id is appended to the caller's list, [totalPositions]
    grows by one, the payment is credited, one [PositionCreated] event is
    logged, and every other position is as before. *)
Theorem createPosition_registers (s : RM.State) (env : Env) (chainId : uint256)
    (originContract originToken : address) (label : string) (threshold : uint256)
    (actionType : string) (gasBudget : uint256) :
  RM.paused s = false -> RM.entered s = false ->
  originContract <> 0 -> 0 < threshold -> actionType <> ""%string ->
  0 < gasBudget <= msg_value env ->
  RM.totalPositions s + 1 <= MAX_UINT256 ->
  let create := RM.createPosition env chainId originContract originToken label threshold
                  actionType gasBudget in
  let id := RM.position_id env chainId originContract label threshold actionType in
  succeeds create s = true
  /\ RM.getPosition (exec create s) id
     = (msg_sender env, chainId, originContract, threshold, actionType, gasBudget, true)
  /\ RM.getUserPositions (exec create s) (msg_sender env)
     = RM.getUserPositions s (msg_sender env) ++ [id]
  /\ RM.totalPositions (exec create s) = RM.totalPositions s + 1
  /\ RM.balance (exec create s) = RM.balance s + msg_value env
  /\ logged create s
     = [RM.PositionCreated id (msg_sender env) chainId originContract threshold actionType]
  /\ (forall other, other <> id ->
        mapping_get RM.zero_position (RM.positions (exec create s)) other
        = mapping_get RM.zero_position (RM.positions s) other).
Proof.
  intros Hp He Hoc Hthr Hact Hgb Htotal create id.
  pose proof (createPosition_run s env chainId originContract originToken label threshold
                actionType gasBudget Hp He Hoc Hthr Hact Hgb Htotal) as Hrun.
  fold create id in Hrun.
  unfold succeeds, exec, logged, RM.getPosition, RM.getUserPositions. rewrite Hrun. tx_simpl.
  rewrite !mapping_get_insert_eq. tx_simpl.
  repeat split; try reflexivity.
  intros other Hother. apply mapping_get_insert_ne. congruence.
Qed.

(** X4.  [createPosition] turns down a zero origin contract, a zero
    threshold, an empty action type, a zero budget and a payment below the
    budget; nothing is stored and the payment is not kept. *)
Theorem createPosition_validates (s : RM.State) (env : Env) (chainId : uint256)
    (originContract originToken : address) (label : string) (threshold : uint256)
    (actionType : string) (gasBudget : uint256) :
  originContract = 0 \/ threshold <= 0 \/ actionType = ""%string \/ gasBudget <= 0
  \/ msg_value env < gasBudget ->
  rejected (RM.createPosition env chainId originContract originToken label threshold
              actionType gasBudget) s.
Proof.
  intros H. apply rejected_intro.
  unfold RM.createPosition, RM.payable, RM.whenNotPaused, RM.nonReentrant.
  tx_unfold. tx_simpl.
  destruct H as [H | [H | [H | [H | H]]]].
  - rewrite H. change (negb (0 =? 0)) with false. repeat goal_case.
  - apply Z.ltb_ge in H. repeat first [rewrite H; tx_simpl | goal_case].
  - rewrite H. change (0 <? blen (bytes_of_string "")) with false. repeat goal_case.
  - apply Z.ltb_ge in H. repeat first [rewrite H; tx_simpl | goal_case].
  - apply Z.leb_gt in H. repeat first [rewrite H; tx_simpl | goal_case].
Qed.

(** X5.  The id of a position is a hash of the caller, the arguments and
    the block: the same caller repeating [createPosition] with the same
    arguments in the same block gets the same id again.  The second call
    overwrites the record, [totalPositions] counts two, and the caller's
    list holds the id twice. *)
Theorem createPosition_same_block_same_id (s : RM.State) (env env' : Env)
    (chainId : uint256) (originContract originToken : address) (label : string)
    (threshold : uint256) (actionType : string) (gasBudget : uint256) :
  RM.paused s = false -> RM.entered s = false ->
  originContract <> 0 -> 0 < threshold -> actionType <> ""%string ->
  0 < gasBudget <= msg_value env -> gasBudget <= msg_value env' ->
  RM.totalPositions s + 2 <= MAX_UINT256 ->
  msg_sender env' = msg_sender env ->
  block_timestamp env' = block_timestamp env ->
  block_number env' = block_number env ->
  let first := RM.createPosition env chainId originContract originToken label threshold
                 actionType gasBudget in
  let second := RM.createPosition env' chainId originContract originToken label threshold
                  actionType gasBudget in
  let id := RM.position_id env chainId originContract label threshold actionType in
  (exists s1 l1, run first s = Ok (id, (s1, l1)))
  /\ (exists s2 l2, run second (exec first s) = Ok (id, (s2, l2)))
  /\ RM.totalPositions (exec second (exec first s)) = RM.totalPositions s + 2
  /\ RM.getUserPositions (exec second (exec first s)) (msg_sender env)
     = RM.getUserPositions s (msg_sender env) ++ [id; id].
Proof.
  intros Hp He Hoc Hthr Hact Hgb Hgb' Htotal Hsender Htime Hnumber first second id.
  assert (Hid : RM.position_id env' chainId originContract label threshold actionType = id).
  { unfold id, RM.position_id. rewrite Hsender, Htime, Hnumber. reflexivity. }
  pose proof (createPosition_run s env chainId originContract originToken label threshold
                actionType gasBudget Hp He Hoc Hthr Hact Hgb ltac:(lia)) as Hrun.
  fold first id in Hrun.
  destruct (exec_returned _ _ _ _ _ Hrun) as [Hexec _].
  set (s1 := RM.set_entered false _) in *.
  pose proof (createPosition_run s1 env' chainId originContract originToken label threshold
                actionType gasBudget Hp eq_refl Hoc Hthr Hact
                ltac:(lia) ltac:(unfold s1; tx_simpl; lia)) as Hrun'.
  fold second in Hrun'. rewrite Hid in Hrun'.
  split; [eauto |]. rewrite Hexec.
  split; [eauto |].
  destruct (exec_returned _ _ _ _ _ Hrun') as [Hexec' _]. rewrite Hexec'.
  unfold RM.getUserPositions, s1. tx_simpl. rewrite Hsender.
  rewrite !mapping_get_insert_eq. rewrite <- app_assoc.
  split; [lia | reflexivity].
Qed.

End ManagerCreate.

Section ScenarioCreate.
#[local] Existing Instance Scenario.toy_crypto.

(** alice's position of the scenarios. *)
Lemma createPosition_registers_witness :
  RM.getPosition Scenario.manager1 Scenario.position1
  = (Scenario.alice, Scenario.chain, Scenario.originAddr, Scenario.ether 2,
     "rebalance"%string, Scenario.ether 1, true)
  /\ RM.getUserPositions Scenario.manager1 Scenario.alice = [Scenario.position1]
  /\ RM.totalPositions Scenario.manager1 = 1.
Proof.
  pose proof (createPosition_registers Scenario.manager0
                (Scenario.call Scenario.alice (Scenario.ether 1) 1012) Scenario.chain
                Scenario.originAddr 0 "test-position" (Scenario.ether 2) "rebalance"
                (Scenario.ether 1)) as H.
  do 4 discharge H. specialize (H ltac:(discriminate)).
  specialize (H ltac:(vm_compute; split; [reflexivity | discriminate])).
  discharge H. cbv zeta in H.
  destruct H as (_ & Hget & Hlist & Htotal & _).
  split; [exact Hget |]. split; [exact Hlist | exact Htotal].
Defined.

(** A budget of 0.2 with a payment of 0.1. *)
Lemma createPosition_validates_witness :
  rejected (RM.createPosition (Scenario.call Scenario.alice (Scenario.ether 1) 1012)
              Scenario.chain Scenario.originAddr 0 "under-paid" (Scenario.ether 2)
              "rebalance" (Scenario.ether 2)) Scenario.manager0.
Proof.
  apply createPosition_validates. do 4 right. vm_compute. reflexivity.
Defined.

(** alice sends the creating call of the scenarios twice in one block. *)
Lemma createPosition_same_block_same_id_witness :
  RM.totalPositions (exec Scenario.create1 (exec Scenario.create1 Scenario.manager0)) = 2
  /\ RM.getUserPositions (exec Scenario.create1 (exec Scenario.create1 Scenario.manager0))
       Scenario.alice
     = [Scenario.position1; Scenario.position1].
Proof.
  pose proof (createPosition_same_block_same_id Scenario.manager0
                (Scenario.call Scenario.alice (Scenario.ether 1) 1012)
                (Scenario.call Scenario.alice (Scenario.ether 1) 1012) Scenario.chain
                Scenario.originAddr 0 "test-position" (Scenario.ether 2) "rebalance"
                (Scenario.ether 1)) as H.
  do 4 discharge H. specialize (H ltac:(discriminate)).
  specialize (H ltac:(vm_compute; split; [reflexivity | discriminate])).
  do 2 discharge H. specialize (H eq_refl eq_refl eq_refl). cbv zeta in H.
  destruct H as (_ & _ & Htotal & Hlist).
  split; [exact Htotal | exact Hlist].
Defined.

End ScenarioCreate.

(** ** ReactiveManager: edges of the ingestion path *)

Section ManagerReactEdges.
Context {crypto : Crypto}.

(** X6.  An event whose signature is none of the three the manager knows
    is accepted and ignored: the call returns, the log is recorded in the
    dedup ledger, nothing else changes and no event is emitted. *)
Theorem react_ignores_unknown_signature (s : RM.State) (env : Env) (log : bytes) :
  msg_value env = 0 -> RM.paused s = false -> msg_sender env = RM.REACTIVE_SYSTEM ->
  64 <= blen log ->
  mapping_get false (RM.processedEvents s) (dedup_key log) = false ->
  RM.isActive (mapping_get RM.zero_position (RM.positions s)
                 (be_to_Z (firstn 32 (skipn 32 log)))) = true ->
  be_to_Z (firstn 32 log) <> RM.PRICE_UPDATE_SIGNATURE ->
  be_to_Z (firstn 32 log) <> RM.LIQUIDITY_UPDATE_SIGNATURE ->
  be_to_Z (firstn 32 log) <> RM.POSITION_CREATED_SIGNATURE ->
  run (RM.react env log) s
  = Ok (tt, (RM.with_processedEvents <[dedup_key log := true]> s, [])).
Proof.
  intros Hv Hp Hs Hlen Hfresh Hact H1 H2 H3.
  apply Z.leb_le in Hlen. apply Z.eqb_neq in H1, H2, H3.
  unfold RM.react, RM.whenNotPaused, RM._parseLog. tx_unfold.
  rewrite Hv. cbn [Z.eqb]. tx_simpl. rewrite Hp. tx_simpl.
  rewrite Hs, Z.eqb_refl. tx_simpl. rewrite Hlen. tx_simpl.
  lazymatch goal with
  | |- context [negb ?x] =>
      change x with (mapping_get false (RM.processedEvents s) (dedup_key log))
  end.
  rewrite Hfresh. tx_simpl. rewrite Hact. tx_simpl. rewrite H1, H2, H3. reflexivity.
Qed.

(** X7.  Malformed input to [react]: a log shorter than the 64-byte
    envelope fails with "Invalid log data"; a price update whose data is
    shorter than three words makes the decoder revert, and nothing is
    recorded. *)
Theorem react_rejects_malformed_log (s : RM.State) (env : Env) (log : bytes) :
  msg_value env = 0 -> RM.paused s = false -> msg_sender env = RM.REACTIVE_SYSTEM ->
  (blen log < 64 -> fails_with (RM.react env log) s "Invalid log data")
  /\ (64 <= blen log -> blen (skipn 64 log) < 96 ->
      mapping_get false (RM.processedEvents s) (dedup_key log) = false ->
      RM.isActive (mapping_get RM.zero_position (RM.positions s)
                     (be_to_Z (firstn 32 (skipn 32 log)))) = true ->
      be_to_Z (firstn 32 log) = RM.PRICE_UPDATE_SIGNATURE ->
      fails_with (RM.react env log) s ""
      /\ mapping_get false (RM.processedEvents (exec (RM.react env log) s)) (dedup_key log)
         = false).
Proof.
  intros Hv Hp Hs. split.
  - intros Hshort. apply Z.leb_gt in Hshort.
    unfold RM.react, RM.whenNotPaused, RM._parseLog. tx_unfold.
    rewrite Hv. cbn [Z.eqb]. tx_simpl. rewrite Hp. tx_simpl.
    rewrite Hs, Z.eqb_refl. tx_simpl. rewrite Hshort. reflexivity.
  - intros Hlen Hdata Hfresh Hact Hsig.
    assert (Hfail : fails_with (RM.react env log) s "").
    { apply Z.leb_le in Hlen. apply Z.ltb_lt in Hdata.
      unfold RM.react, RM.whenNotPaused, RM._parseLog, RM._handlePriceUpdate,
        Abi.decode_uint_uint_int.
      tx_unfold.
      rewrite Hv. cbn [Z.eqb]. tx_simpl. rewrite Hp. tx_simpl.
      rewrite Hs, Z.eqb_refl. tx_simpl. rewrite Hlen. tx_simpl.
      lazymatch goal with
      | |- context [negb ?x] =>
          change x with (mapping_get false (RM.processedEvents s) (dedup_key log))
      end.
      rewrite Hfresh. tx_simpl. rewrite Hact. tx_simpl.
      rewrite Hsig, Z.eqb_refl, Hdata. reflexivity. }
    split; [exact Hfail |].
    rewrite (exec_rejected _ _ (fails_with_rejected _ _ _ Hfail)). exact Hfresh.
Qed.

(** X8.  A price or liquidity event that reports the least [int256] as
    its change cannot be processed: taking its absolute value overflows
    and the call panics, whatever the threshold. *)
Theorem react_panics_on_least_change (s : RM.State) (env : Env) (log : bytes)
    (old new : uint256) :
  msg_value env = 0 -> RM.paused s = false -> msg_sender env = RM.REACTIVE_SYSTEM ->
  64 <= blen log ->
  mapping_get false (RM.processedEvents s) (dedup_key log) = false ->
  RM.isActive (mapping_get RM.zero_position (RM.positions s)
                 (be_to_Z (firstn 32 (skipn 32 log)))) = true ->
  be_to_Z (firstn 32 log) = RM.PRICE_UPDATE_SIGNATURE
  \/ be_to_Z (firstn 32 log) = RM.LIQUIDITY_UPDATE_SIGNATURE ->
  Abi.decode_uint_uint_int (skipn 64 log) = Some (old, new, MIN_INT256) ->
  run (RM.react env log) s = Err (Panic 17).
Proof.
  intros Hv Hp Hs Hlen Hfresh Hact Hsig Hdec. apply Z.leb_le in Hlen.
  unfold RM.react, RM.whenNotPaused, RM._parseLog, RM._handlePriceUpdate,
    RM._handleLiquidityUpdate, RM.abs_change.
  tx_unfold.
  rewrite Hv. cbn [Z.eqb]. tx_simpl. rewrite Hp. tx_simpl.
  rewrite Hs, Z.eqb_refl. tx_simpl. rewrite Hlen. tx_simpl.
  lazymatch goal with
  | |- context [negb ?x] =>
      change x with (mapping_get false (RM.processedEvents s) (dedup_key log))
  end.
  rewrite Hfresh. tx_simpl. rewrite Hact. tx_simpl. rewrite Hdec.
  change (MIN_INT256 <? 0) with true. change (MIN_INT256 =? MIN_INT256) with true.
  destruct Hsig as [Hsig | Hsig]; rewrite Hsig, ?Z.eqb_refl;
    [reflexivity | destruct (_ =? RM.PRICE_UPDATE_SIGNATURE); reflexivity].
Qed.

End ManagerReactEdges.

Section ScenarioReactEdges.
#[local] Existing Instance Scenario.toy_crypto.

(** An event of alice's position under a signature the manager does not
    know. *)
Lemma react_ignores_unknown_signature_witness :
  succeeds (RM.react (Scenario.call Scenario.relay 0 1030)
              (Scenario.event_log 4242 Scenario.position1 1 2 3)) Scenario.manager1 = true
  /\ logged (RM.react (Scenario.call Scenario.relay 0 1030)
               (Scenario.event_log 4242 Scenario.position1 1 2 3)) Scenario.manager1 = []
  /\ RM.totalReactiveActions
       (exec (RM.react (Scenario.call Scenario.relay 0 1030)
                (Scenario.event_log 4242 Scenario.position1 1 2 3)) Scenario.manager1) = 0.
Proof.
  pose proof (react_ignores_unknown_signature Scenario.manager1
                (Scenario.call Scenario.relay 0 1030)
                (Scenario.event_log 4242 Scenario.position1 1 2 3)) as H.
  do 9 discharge H.
  unfold succeeds, logged, exec. rewrite H. repeat split; reflexivity.
Defined.

(** A log of ten bytes, and a price update of alice's position cut after
    two words. *)
Lemma react_rejects_malformed_log_witness :
  fails_with (RM.react (Scenario.call Scenario.relay 0 1030) (Abi.zeros 10))
    Scenario.manager1 "Invalid log data"
  /\ fails_with (RM.react (Scenario.call Scenario.relay 0 1030)
                   (Abi.word RM.PRICE_UPDATE_SIGNATURE ++ Abi.word Scenario.position1
                      ++ Abi.word 1 ++ Abi.word 2)) Scenario.manager1 "".
Proof.
  split.
  - pose proof (react_rejects_malformed_log Scenario.manager1
                  (Scenario.call Scenario.relay 0 1030) (Abi.zeros 10)) as H.
    do 3 discharge H. destruct H as [H _]. discharge H. exact H.
  - pose proof (react_rejects_malformed_log Scenario.manager1
                  (Scenario.call Scenario.relay 0 1030)
                  (Abi.word RM.PRICE_UPDATE_SIGNATURE ++ Abi.word Scenario.position1
                     ++ Abi.word 1 ++ Abi.word 2)) as H.
    do 3 discharge H. destruct H as [_ H]. do 5 discharge H. exact (proj1 H).
Defined.

(** The least [int256] as the change of a price update of alice's
    position. *)
Lemma react_panics_on_least_change_witness :
  run (RM.react (Scenario.call Scenario.relay 0 1030)
         (Scenario.event_log RM.PRICE_UPDATE_SIGNATURE Scenario.position1
            (Scenario.ether 20) 1 MIN_INT256)) Scenario.manager1
  = Err (Panic 17).
Proof.
  pose proof (react_panics_on_least_change Scenario.manager1
                (Scenario.call Scenario.relay 0 1030)
                (Scenario.event_log RM.PRICE_UPDATE_SIGNATURE Scenario.position1
                   (Scenario.ether 20) 1 MIN_INT256) (Scenario.ether 20) 1) as H.
  do 6 discharge H. specialize (H (or_introl eq_refl)). discharge H. exact H.
Defined.

End ScenarioReactEdges.

(** ** ReactiveManager: administration *)

Section ManagerAdmin.

(** X9.  Pausing is an admin toggle: the owner pauses a running manager
    and unpauses it again, which restores the state exactly; pausing a
    paused manager and unpausing a running one fail, and so does either
    call by anyone else. *)
Theorem manager_pause_unpause (s : RM.State) (env env' : Env) :
  msg_value env = 0 -> msg_value env' = 0 ->
  RM.owner s = msg_sender env -> RM.owner s = msg_sender env' ->
  RM.paused s = false ->
  RM.paused (exec (RM.pause env) s) = true
  /\ exec (RM.unpause env') (exec (RM.pause env) s) = s
  /\ fails_with (RM.pause env') (exec (RM.pause env) s) "Pausable: paused"
  /\ fails_with (RM.unpause env) s "Pausable: not paused"
  /\ (forall other, msg_value other = 0 -> msg_sender other <> RM.owner s ->
        fails_with (RM.pause other) s "Ownable: caller is not the owner"
        /\ fails_with (RM.unpause other) (exec (RM.pause env) s)
             "Ownable: caller is not the owner").
Proof.
  intros Hv Hv' Ho Ho' Hp.
  unfold RM.pause, RM.unpause, RM.onlyOwner, RM.whenNotPaused, RM.whenPaused. tx_unfold.
  rewrite Hv, Hv'. cbn [Z.eqb]. tx_simpl.
  rewrite <- Ho'. rewrite Ho, !Z.eqb_refl. tx_simpl. rewrite Hp. tx_simpl.
  rewrite Ho, !Z.eqb_refl. tx_simpl.
  split; [reflexivity |]. split; [destruct s; cbn in *; subst; reflexivity |].
  split; [reflexivity |]. split; [reflexivity |].
  intros other Hvo Hother. rewrite Hvo. cbn [Z.eqb]. tx_simpl.
  assert (Hne : (RM.owner s =? msg_sender other) = false)
    by (apply Z.eqb_neq; congruence).
  rewrite Hne. split; reflexivity.
Qed.

(** X10.  [withdrawGasFees] pays out the whole ether balance of the
    manager to its owner, the budgets deposited for positions included:
    afterwards the balance is zero while every position record, with its
    [gasBudget], is as before.  With no balance the call fails with "No
    funds to withdraw"; callers other than the owner are refused. *)
Theorem withdrawGasFees_drains_balance (s : RM.State) (env : Env) :
  msg_value env = 0 ->
  (RM.owner s = msg_sender env -> 0 < RM.balance s ->
   succeeds (RM.withdrawGasFees env true) s = true
   /\ RM.balance (exec (RM.withdrawGasFees env true) s) = 0
   /\ RM.positions (exec (RM.withdrawGasFees env true) s) = RM.positions s)
  /\ (RM.owner s = msg_sender env -> RM.balance s <= 0 ->
      forall accepts, fails_with (RM.withdrawGasFees env accepts) s "No funds to withdraw")
  /\ (RM.owner s <> msg_sender env ->
      forall accepts,
        fails_with (RM.withdrawGasFees env accepts) s "Ownable: caller is not the owner").
Proof.
  intros Hv. unfold RM.withdrawGasFees, RM.onlyOwner. tx_unfold.
  rewrite Hv. cbn [Z.eqb]. tx_simpl.
  split; [| split].
  - intros Ho Hb. apply Z.ltb_lt in Hb. rewrite Ho, Z.eqb_refl. tx_simpl.
    rewrite Hb. tx_simpl. repeat split; reflexivity.
  - intros Ho Hb accepts. apply Z.ltb_ge in Hb. rewrite Ho, Z.eqb_refl. tx_simpl.
    rewrite Hb. reflexivity.
  - intros Ho accepts. apply Z.eqb_neq in Ho. rewrite Ho. reflexivity.
Qed.

End ManagerAdmin.

Section ScenarioAdmin.
#[local] Existing Instance Scenario.toy_crypto.

(** admin pauses and unpauses the manager that holds alice's position. *)
Lemma manager_pause_unpause_witness :
  exec (RM.unpause (Scenario.call Scenario.admin 0 1036))
    (exec (RM.pause (Scenario.call Scenario.admin 0 1024)) Scenario.manager1)
  = Scenario.manager1
  /\ fails_with (RM.pause (Scenario.call Scenario.alice 0 1024)) Scenario.manager1
       "Ownable: caller is not the owner".
Proof.
  pose proof (manager_pause_unpause Scenario.manager1 (Scenario.call Scenario.admin 0 1024)
                (Scenario.call Scenario.admin 0 1036)) as H.
  do 5 discharge H. destruct H as (_ & Hback & _ & _ & Hother).
  specialize (Hother (Scenario.call Scenario.alice 0 1024)). do 2 discharge Hother.
  split; [exact Hback | exact (proj1 Hother)].
Defined.

(** admin withdraws after alice has deposited the budget of her position:
    the balance is gone, the budget is still on record. *)
Lemma withdrawGasFees_drains_balance_witness :
  RM.balance Scenario.manager1 = Scenario.ether 1
  /\ RM.balance (exec (RM.withdrawGasFees (Scenario.call Scenario.admin 0 1040) true)
                   Scenario.manager1) = 0
  /\ RM.gasBudget (mapping_get RM.zero_position
       (RM.positions (exec (RM.withdrawGasFees (Scenario.call Scenario.admin 0 1040) true)
                        Scenario.manager1)) Scenario.position1) = Scenario.ether 1.
Proof.
  split; [vm_compute; reflexivity |].
  pose proof (withdrawGasFees_drains_balance Scenario.manager1
                (Scenario.call Scenario.admin 0 1040)) as H.
  discharge H. destruct H as [H _]. do 2 discharge H. destruct H as (_ & Hzero & Hsame).
  split; [exact Hzero |]. rewrite Hsame. vm_compute. reflexivity.
Defined.

End ScenarioAdmin.

(** ** ReactiveManager: what no sequence of calls can do *)

Section ManagerFrames.
Context {crypto : Crypto}.

(** What a successful [createPosition] leaves in place. *)
Lemma createPosition_frame (env : Env) (chainId : uint256)
    (originContract originToken : address) (label : string) (threshold : uint256)
    (actionType : string) (gasBudget : uint256) (s s' : RM.State) (id : bytes32)
    (l : list RM.Event) :
  run (RM.createPosition env chainId originContract originToken label threshold
         actionType gasBudget) s = Ok (id, (s', l)) ->
  RM.processedEvents s' = RM.processedEvents s
  /\ RM.totalPositions s' = RM.totalPositions s + 1
  /\ RM.totalReactiveActions s' = RM.totalReactiveActions s
  /\ forall u, exists added,
       mapping_get [] (RM.userPositions s') u = mapping_get [] (RM.userPositions s) u ++ added.
Proof.
  unfold RM.createPosition, RM.payable, RM.whenNotPaused, RM.nonReentrant.
  tx_unfold. tx_simpl. intros H. repeat tx_case H.
  apply returned_inv in H as (_ & <- & _). tx_simpl.
  split; [reflexivity |]. split; [reflexivity |]. split; [reflexivity |].
  intros u. destruct (Z.eq_dec (msg_sender env) u) as [<- | Hne].
  - rewrite mapping_get_insert_eq. eexists. reflexivity.
  - rewrite mapping_get_insert_ne by congruence. exists []. rewrite app_nil_r. reflexivity.
Qed.

(** A trigger stamps the position and counts the action; the rest of the
    registry is untouched. *)
Lemma triggerReactiveAction_frame (env : Env) (id : bytes32) (reason : string)
    (data : bytes) (s s' : RM.State) (l l' : list RM.Event) (u : unit) :
  RM._triggerReactiveAction env id reason data (s, l) = Ok (u, (s', l')) ->
  RM.positions s'
  = <[id := RM.set_lastTriggered (block_timestamp env)
              (mapping_get RM.zero_position (RM.positions s) id)]> (RM.positions s)
  /\ RM.userPositions s' = RM.userPositions s
  /\ RM.totalPositions s' = RM.totalPositions s.
Proof.
  unfold RM._triggerReactiveAction, RM.store_position. tx_unfold. tx_simpl.
  intros H. tx_case H. tx_case H. apply returned_inv in H as (_ & <- & _).
  tx_simpl. repeat split.
Qed.

(** A call of [react] that returns has recorded the log, has left the
    position lists alone, and has either left every position as it was or
    stamped the active position the event is about. *)
Lemma react_frame (env : Env) (log : bytes) (s s' : RM.State) (l : list RM.Event)
    (u : unit) :
  run (RM.react env log) s = Ok (u, (s', l)) ->
  RM.processedEvents s' = <[dedup_key log := true]> (RM.processedEvents s)
  /\ RM.userPositions s' = RM.userPositions s
  /\ RM.totalPositions s' = RM.totalPositions s
  /\ RM.totalReactiveActions s <= RM.totalReactiveActions s'
  /\ (RM.positions s' = RM.positions s
      \/ exists id,
           RM.isActive (mapping_get RM.zero_position (RM.positions s) id) = true
           /\ RM.positions s'
              = <[id := RM.set_lastTriggered (block_timestamp env)
                          (mapping_get RM.zero_position (RM.positions s) id)]>
                  (RM.positions s)).
Proof.
  intros H. apply react_returned in H as (_ & _ & _ & _ & _ & Hact & H).
  set (s1 := RM.with_processedEvents <[dedup_key log := true]> s) in *.
  set (id := be_to_Z (firstn 32 (skipn 32 log))) in *.
  assert (Hsame : s' = s1 ->
            RM.processedEvents s' = <[dedup_key log := true]> (RM.processedEvents s)
            /\ RM.userPositions s' = RM.userPositions s
            /\ RM.totalPositions s' = RM.totalPositions s
            /\ RM.totalReactiveActions s <= RM.totalReactiveActions s'
            /\ (RM.positions s' = RM.positions s
                \/ exists id,
                     RM.isActive (mapping_get RM.zero_position (RM.positions s) id) = true
                     /\ RM.positions s'
                        = <[id := RM.set_lastTriggered (block_timestamp env)
                                    (mapping_get RM.zero_position (RM.positions s) id)]>
                            (RM.positions s))).
  { intros ->. subst s1. tx_simpl. repeat split; [lia | left; reflexivity]. }
  assert (Htrig : forall r d,
            RM._triggerReactiveAction env id r d (s1, []) = Ok (u, (s', l)) ->
            RM.processedEvents s' = <[dedup_key log := true]> (RM.processedEvents s)
            /\ RM.userPositions s' = RM.userPositions s
            /\ RM.totalPositions s' = RM.totalPositions s
            /\ RM.totalReactiveActions s <= RM.totalReactiveActions s'
            /\ (RM.positions s' = RM.positions s
                \/ exists id,
                     RM.isActive (mapping_get RM.zero_position (RM.positions s) id) = true
                     /\ RM.positions s'
                        = <[id := RM.set_lastTriggered (block_timestamp env)
                                    (mapping_get RM.zero_position (RM.positions s) id)]>
                            (RM.positions s))).
  { intros r d Ht.
    pose proof (triggerReactiveAction_frame _ _ _ _ _ _ _ _ _ Ht) as (Hpos & Hup & Htp).
    apply triggerReactiveAction_returned in Ht as (Hn & _ & _ & Hpe & _).
    subst s1. tx_simpl.
    repeat split; try assumption; [lia |]. right. exists id. split; assumption. }
  destruct (_ =? RM.PRICE_UPDATE_SIGNATURE).
  { destruct (Abi.decode_uint_uint_int (skipn 64 log)) as [[[old new] d]|] eqn:Hdec.
    - destruct (handlePriceUpdate_returned _ _ _ _ _ _ _ _ _ _ _ Hdec H)
        as [[_ Ht] | (_ & Hs & _)]; eauto.
    - unfold RM._handlePriceUpdate in H. rewrite Hdec in H. discriminate. }
  destruct (_ =? RM.LIQUIDITY_UPDATE_SIGNATURE).
  { destruct (Abi.decode_uint_uint_int (skipn 64 log)) as [[[old new] d]|] eqn:Hdec.
    - destruct (handleLiquidityUpdate_returned _ _ _ _ _ _ _ _ _ _ _ Hdec H)
        as [[_ Ht] | (_ & Hs & _)]; eauto.
    - unfold RM._handleLiquidityUpdate in H. rewrite Hdec in H. discriminate. }
  destruct (_ =? RM.POSITION_CREATED_SIGNATURE).
  - unfold RM._handlePositionCreated in H. tx_unfold.
    apply returned_inv in H as (_ & Hs & _). auto.
  - unfold ret in H. apply returned_inv in H as (_ & Hs & _). auto.
Qed.

(** Every entrypoint other than [createPosition] leaves the counters of
    positions and the position lists alone, never lowers the count of
    reactive actions, never clears an entry of the dedup ledger, and
    either changes no position record or rewrites one that is active,
    keeping the fields that identify it. *)
Lemma manager_step_frame (c : ManagerCall) (s : RM.State) :
  is_createPosition c = false ->
  (forall k, mapping_get false (RM.processedEvents s) k = true ->
             mapping_get false (RM.processedEvents (manager_step c s)) k = true)
  /\ RM.userPositions (manager_step c s) = RM.userPositions s
  /\ RM.totalPositions (manager_step c s) = RM.totalPositions s
  /\ RM.totalReactiveActions s <= RM.totalReactiveActions (manager_step c s)
  /\ (RM.positions (manager_step c s) = RM.positions s
      \/ exists id f,
           RM.isActive (mapping_get RM.zero_position (RM.positions s) id) = true
           /\ RM.positions (manager_step c s)
              = <[id := f (mapping_get RM.zero_position (RM.positions s) id)]>
                  (RM.positions s)
           /\ forall p, RM.user (f p) = RM.user p
                        /\ RM.originChainId (f p) = RM.originChainId p
                        /\ RM.originContract (f p) = RM.originContract p
                        /\ RM.originToken (f p) = RM.originToken p
                        /\ RM.positionIdentifier (f p) = RM.positionIdentifier p
                        /\ RM.createdAt (f p) = RM.createdAt p).
Proof.
  intros Hc.
  assert (Hid : (forall k, mapping_get false (RM.processedEvents s) k = true ->
                           mapping_get false (RM.processedEvents s) k = true)
                /\ RM.userPositions s = RM.userPositions s
                /\ RM.totalPositions s = RM.totalPositions s
                /\ RM.totalReactiveActions s <= RM.totalReactiveActions s
                /\ (RM.positions s = RM.positions s
                    \/ exists id f,
                         RM.isActive (mapping_get RM.zero_position (RM.positions s) id) = true
                         /\ RM.positions s
                            = <[id := f (mapping_get RM.zero_position (RM.positions s) id)]>
                                (RM.positions s)
                         /\ forall p, RM.user (f p) = RM.user p
                                      /\ RM.originChainId (f p) = RM.originChainId p
                                      /\ RM.originContract (f p) = RM.originContract p
                                      /\ RM.originToken (f p) = RM.originToken p
                                      /\ RM.positionIdentifier (f p) = RM.positionIdentifier p
                                      /\ RM.createdAt (f p) = RM.createdAt p))
    by (repeat split; auto; lia).
  destruct c; try discriminate Hc; cbn [manager_step]; unfold exec;
    match goal with
    | |- context [run ?m s] => destruct (run m s) as [[u [s' l]] |] eqn:H; [| exact Hid]
    end; clear Hid.
  - (* updatePosition *)
    unfold RM.updatePosition, RM.whenNotPaused, RM.store_position in H.
    tx_unfold. tx_simpl. repeat tx_case H.
    apply returned_inv in H as (_ & <- & _). tx_simpl.
    repeat split; auto; [lia |]. right.
    exists positionId,
      (fun p => RM.set_gasBudget newGasBudget
                  (RM.set_actionType newActionType (RM.set_threshold newThreshold p))).
    split; [assumption |]. split; [| intros p; repeat split].
    rewrite !mapping_get_insert_eq, !insert_insert_eq. reflexivity.
  - (* react *)
    apply react_frame in H as (Hpe & Hup & Htp & Hn & Hpos).
    repeat split; try assumption.
    + intros k Hk. rewrite Hpe. destruct (Z.eq_dec (dedup_key log) k) as [<- | Hne].
      * apply mapping_get_insert_eq.
      * rewrite mapping_get_insert_ne by congruence. exact Hk.
    + destruct Hpos as [Hpos | (id & Hact & Hpos)]; [left; exact Hpos |].
      right. exists id, (RM.set_lastTriggered (block_timestamp env)).
      split; [assumption |]. split; [assumption | intros p; repeat split].
  - (* deactivatePosition *)
    unfold RM.deactivatePosition, RM.store_position in H.
    tx_unfold. tx_simpl. repeat tx_case H.
    apply returned_inv in H as (_ & <- & _). tx_simpl.
    repeat split; auto; [lia |]. right.
    exists positionId, (RM.set_isActive false).
    split; [assumption |]. split; [reflexivity | intros p; repeat split].
  - (* updateGasBudget *)
    unfold RM.updateGasBudget, RM.payable, RM.store_position in H.
    tx_unfold. tx_simpl. repeat tx_case H.
    apply returned_inv in H as (_ & <- & _). tx_simpl.
    repeat split; auto; [lia |]. right.
    exists positionId, (RM.set_gasBudget newGasBudget).
    split; [assumption |]. split; [reflexivity | intros p; repeat split].
  - (* pause *)
    unfold RM.pause, RM.onlyOwner, RM.whenNotPaused in H.
    tx_unfold. tx_simpl. repeat tx_case H.
    apply returned_inv in H as (_ & <- & _). tx_simpl.
    repeat split; auto; lia.
  - (* unpause *)
    unfold RM.unpause, RM.onlyOwner, RM.whenPaused in H.
    tx_unfold. tx_simpl. repeat tx_case H.
    apply returned_inv in H as (_ & <- & _). tx_simpl.
    repeat split; auto; lia.
  - (* withdrawGasFees *)
    unfold RM.withdrawGasFees, RM.onlyOwner in H.
    tx_unfold. tx_simpl. repeat tx_case H.
    apply returned_inv in H as (_ & <- & _). tx_simpl.
    repeat split; auto; lia.
  - (* transferOwnership *)
    unfold RM.transferOwnership, RM.onlyOwner in H.
    tx_unfold. tx_simpl. repeat tx_case H.
    apply returned_inv in H as (_ & <- & _). tx_simpl.
    repeat split; auto; lia.
  - (* renounceOwnership *)
    unfold RM.renounceOwnership, RM.onlyOwner in H.
    tx_unfold. tx_simpl. repeat tx_case H.
    apply returned_inv in H as (_ & <- & _). tx_simpl.
    repeat split; auto; lia.
Qed.

(** [createPosition] as a step of a sequence. *)
Lemma manager_create_step_frame (c : ManagerCall) (s : RM.State) :
  is_createPosition c = true ->
  RM.processedEvents (manager_step c s) = RM.processedEvents s
  /\ RM.totalPositions s <= RM.totalPositions (manager_step c s)
  /\ RM.totalReactiveActions (manager_step c s) = RM.totalReactiveActions s
  /\ forall u, exists added,
       mapping_get [] (RM.userPositions (manager_step c s)) u
       = mapping_get [] (RM.userPositions s) u ++ added.
Proof.
  intros Hc. destruct c; try discriminate Hc. cbn [manager_step]. unfold exec.
  match goal with
  | |- context [run ?m s] => destruct (run m s) as [[u [s' l]] |] eqn:H
  end.
  - apply createPosition_frame in H as (Hpe & Htp & Hn & Hup).
    split; [assumption |]. split; [lia |]. split; assumption.
  - split; [reflexivity |]. split; [lia |]. split; [reflexivity |].
    intros u. exists []. rewrite app_nil_r. reflexivity.
Qed.

Lemma manager_trace_cons (c : ManagerCall) (calls : list ManagerCall) (s : RM.State) :
  manager_trace (c :: calls) s = manager_trace calls (manager_step c s).
Proof. reflexivity. Qed.

(** X11.  The dedup ledger only grows: once an event key is recorded, it
    stays recorded through every sequence of calls to the manager. *)
Theorem manager_ledger_append_only (calls : list ManagerCall) (s : RM.State) (k : bytes32) :
  mapping_get false (RM.processedEvents s) k = true ->
  mapping_get false (RM.processedEvents (manager_trace calls s)) k = true.
Proof.
  revert s. induction calls as [| c calls IH]; intros s Hk; [exact Hk |].
  rewrite manager_trace_cons. apply IH.
  destruct (is_createPosition c) eqn:Hc.
  - apply manager_create_step_frame with (s := s) in Hc as (-> & _). exact Hk.
  - apply manager_step_frame with (s := s) in Hc as (Hpe & _). auto.
Qed.

(** X12.  The public counters [totalPositions] and [totalReactiveActions]
    never decrease, and the list of position ids of a user is only ever
    extended at its end, whatever the sequence of calls: deactivating a
    position removes it from neither. *)
Theorem manager_counters_monotone (calls : list ManagerCall) (s : RM.State) :
  RM.totalPositions s <= RM.totalPositions (manager_trace calls s)
  /\ RM.totalReactiveActions s <= RM.totalReactiveActions (manager_trace calls s)
  /\ forall u, exists added,
       RM.getUserPositions (manager_trace calls s) u = RM.getUserPositions s u ++ added.
Proof.
  unfold RM.getUserPositions.
  revert s. induction calls as [| c calls IH]; intros s.
  - change (manager_trace [] s) with s.
    split; [lia |]. split; [lia |]. intros u. exists []. rewrite app_nil_r. reflexivity.
  - rewrite manager_trace_cons. destruct (IH (manager_step c s)) as (Htp & Hn & Hup).
    destruct (is_createPosition c) eqn:Hc.
    + apply manager_create_step_frame with (s := s) in Hc as (_ & Htp' & Hn' & Hup').
      split; [lia |]. split; [lia |]. intros u.
      destruct (Hup u) as [a1 ->]. destruct (Hup' u) as [a2 ->].
      exists (a2 ++ a1). rewrite app_assoc. reflexivity.
    + apply manager_step_frame with (s := s) in Hc as (_ & Hup' & Htp' & Hn' & _).
      split; [lia |]. split; [lia |]. intros u. destruct (Hup u) as [a1 ->].
      rewrite Hup'. exists a1. reflexivity.
Qed.

(** X13.  Deactivation is final for every entrypoint but [createPosition]:
    through a sequence of calls that creates no position, the record of an
    inactive position does not change at all, so it stays inactive. *)
Theorem manager_inactive_position_frozen (calls : list ManagerCall) (s : RM.State)
    (id : bytes32) :
  forallb (fun c => negb (is_createPosition c)) calls = true ->
  RM.isActive (mapping_get RM.zero_position (RM.positions s) id) = false ->
  mapping_get RM.zero_position (RM.positions (manager_trace calls s)) id
  = mapping_get RM.zero_position (RM.positions s) id.
Proof.
  revert s. induction calls as [| c calls IH]; intros s Hcalls Hoff; [reflexivity |].
  cbn [forallb] in Hcalls. apply andb_true_iff in Hcalls as [Hc Hcalls].
  apply negb_true_iff in Hc. rewrite manager_trace_cons.
  assert (Hstep : mapping_get RM.zero_position (RM.positions (manager_step c s)) id
                  = mapping_get RM.zero_position (RM.positions s) id).
  { apply manager_step_frame with (s := s) in Hc as (_ & _ & _ & _ & Hpos).
    destruct Hpos as [-> | (id' & f & Hact & -> & _)]; [reflexivity |].
    apply mapping_get_insert_ne. intros <-. congruence. }
  rewrite IH by (try assumption; rewrite Hstep; exact Hoff). exact Hstep.
Qed.

(** X14.  The fields that identify a position ([user], [originChainId],
    [originContract], [originToken], [positionIdentifier], [createdAt])
    are written by [createPosition] only: no sequence of other calls
    changes them, so a position cannot change hands. *)
Theorem manager_position_identity_fixed (calls : list ManagerCall) (s : RM.State)
    (id : bytes32) :
  forallb (fun c => negb (is_createPosition c)) calls = true ->
  RM.user (mapping_get RM.zero_position (RM.positions (manager_trace calls s)) id)
  = RM.user (mapping_get RM.zero_position (RM.positions s) id)
  /\ RM.originChainId (mapping_get RM.zero_position (RM.positions (manager_trace calls s)) id)
     = RM.originChainId (mapping_get RM.zero_position (RM.positions s) id)
  /\ RM.originContract (mapping_get RM.zero_position (RM.positions (manager_trace calls s)) id)
     = RM.originContract (mapping_get RM.zero_position (RM.positions s) id)
  /\ RM.originToken (mapping_get RM.zero_position (RM.positions (manager_trace calls s)) id)
     = RM.originToken (mapping_get RM.zero_position (RM.positions s) id)
  /\ RM.positionIdentifier
       (mapping_get RM.zero_position (RM.positions (manager_trace calls s)) id)
     = RM.positionIdentifier (mapping_get RM.zero_position (RM.positions s) id)
  /\ RM.createdAt (mapping_get RM.zero_position (RM.positions (manager_trace calls s)) id)
     = RM.createdAt (mapping_get RM.zero_position (RM.positions s) id).
Proof.
  revert s. induction calls as [| c calls IH]; intros s Hcalls; [repeat split |].
  cbn [forallb] in Hcalls. apply andb_true_iff in Hcalls as [Hc Hcalls].
  apply negb_true_iff in Hc. rewrite manager_trace_cons.
  destruct (IH (manager_step c s) Hcalls) as (-> & -> & -> & -> & -> & ->).
  apply manager_step_frame with (s := s) in Hc as (_ & _ & _ & _ & Hpos).
  destruct Hpos as [-> | (id' & f & _ & -> & Hf)]; [repeat split |].
  destruct (Z.eq_dec id' id) as [-> | Hne].
  - rewrite mapping_get_insert_eq. apply Hf.
  - rewrite mapping_get_insert_ne by assumption. repeat split.
Qed.

End ManagerFrames.

Section ScenarioFrames.
#[local] Existing Instance Scenario.toy_crypto.

(** After the relay has delivered a price event, the admin pauses,
    unpauses and hands the manager over; the event is still on record. *)
Lemma manager_ledger_append_only_witness :
  mapping_get false
    (RM.processedEvents
       (manager_trace
          [MPause (Scenario.call Scenario.admin 0 1040);
           MUnpause (Scenario.call Scenario.admin 0 1050);
           MTransferOwnership (Scenario.call Scenario.admin 0 1060) Scenario.mallory]
          (exec Scenario.deliver_025 Scenario.manager1)))
    (dedup_key Scenario.price_event_025) = true.
Proof.
  pose proof (manager_ledger_append_only
                [MPause (Scenario.call Scenario.admin 0 1040);
                 MUnpause (Scenario.call Scenario.admin 0 1050);
                 MTransferOwnership (Scenario.call Scenario.admin 0 1060) Scenario.mallory]
                (exec Scenario.deliver_025 Scenario.manager1)
                (dedup_key Scenario.price_event_025)) as H.
  discharge H. exact H.
Defined.

(** alice deactivates her position; neither a price event, nor an update
    by alice, nor a new budget brings it back. *)
Lemma manager_inactive_position_frozen_witness :
  RM.isActive
    (mapping_get RM.zero_position
       (RM.positions
          (manager_trace
             [MReact (Scenario.call Scenario.relay 0 1040) Scenario.price_event_025;
              MUpdatePosition (Scenario.call Scenario.alice 0 1050) Scenario.position1
                (Scenario.ether 1) "rebalance" (Scenario.ether 1);
              MUpdateGasBudget (Scenario.call Scenario.alice (Scenario.ether 1) 1060)
                Scenario.position1 (Scenario.ether 1)]
             (exec (RM.deactivatePosition (Scenario.call Scenario.alice 0 1030)
                      Scenario.position1) Scenario.manager1)))
       Scenario.position1) = false.
Proof.
  pose proof (manager_inactive_position_frozen
                [MReact (Scenario.call Scenario.relay 0 1040) Scenario.price_event_025;
                 MUpdatePosition (Scenario.call Scenario.alice 0 1050) Scenario.position1
                   (Scenario.ether 1) "rebalance" (Scenario.ether 1);
                 MUpdateGasBudget (Scenario.call Scenario.alice (Scenario.ether 1) 1060)
                   Scenario.position1 (Scenario.ether 1)]
                (exec (RM.deactivatePosition (Scenario.call Scenario.alice 0 1030)
                         Scenario.position1) Scenario.manager1)
                Scenario.position1) as H.
  do 2 discharge H. rewrite H. vm_compute. reflexivity.
Defined.

(** The admin deactivates alice's position and hands the manager to
    mallory; the position is still alice's. *)
Lemma manager_position_identity_fixed_witness :
  RM.user
    (mapping_get RM.zero_position
       (RM.positions
          (manager_trace
             [MDeactivatePosition (Scenario.call Scenario.admin 0 1040) Scenario.position1;
              MTransferOwnership (Scenario.call Scenario.admin 0 1050) Scenario.mallory]
             Scenario.manager1))
       Scenario.position1) = Scenario.alice.
Proof.
  pose proof (manager_position_identity_fixed
                [MDeactivatePosition (Scenario.call Scenario.admin 0 1040)
                   Scenario.position1;
                 MTransferOwnership (Scenario.call Scenario.admin 0 1050) Scenario.mallory]
                Scenario.manager1 Scenario.position1) as H.
  discharge H. destruct H as [H _]. rewrite H. vm_compute. reflexivity.
Defined.

End ScenarioFrames.

(** ** ReactiveManager: retiring a position *)

Section ManagerRetire.
Context {crypto : Crypto}.

(** X15.  [deactivatePosition], called without value by the position's
    owner or by the admin on an active position, returns whether or not
    the manager is paused; it clears [isActive] and nothing else: the
    other fields read by [getPosition], every other position, the user's
    list of ids and the manager's balance are as before, so the deposited
    gas budget is not paid back.  One [PositionDeactivated] event names
    the position and its owner. *)
Theorem deactivatePosition_retires (s : RM.State) (env : Env) (id : bytes32) :
  msg_value env = 0 ->
  RM.isActive (mapping_get RM.zero_position (RM.positions s) id) = true ->
  RM.user (mapping_get RM.zero_position (RM.positions s) id) = msg_sender env
  \/ msg_sender env = RM.owner s ->
  succeeds (RM.deactivatePosition env id) s = true
  /\ RM.getPosition (exec (RM.deactivatePosition env id) s) id
     = (let '(u, chain, origin, threshold, action, budget, _) := RM.getPosition s id in
        (u, chain, origin, threshold, action, budget, false))
  /\ (forall id', id' <> id ->
        mapping_get RM.zero_position
          (RM.positions (exec (RM.deactivatePosition env id) s)) id'
        = mapping_get RM.zero_position (RM.positions s) id')
  /\ RM.userPositions (exec (RM.deactivatePosition env id) s) = RM.userPositions s
  /\ RM.balance (exec (RM.deactivatePosition env id) s) = RM.balance s
  /\ RM.paused (exec (RM.deactivatePosition env id) s) = RM.paused s
  /\ logged (RM.deactivatePosition env id) s
     = [RM.PositionDeactivated id
          (RM.user (mapping_get RM.zero_position (RM.positions s) id))].
Proof.
  intros Hv Hact Hauth.
  assert (Hc : (RM.user (mapping_get RM.zero_position (RM.positions s) id)
                  =? msg_sender env)
               || (msg_sender env =? RM.owner s) = true).
  { apply orb_true_iff. destruct Hauth as [H | H]; [left | right]; apply Z.eqb_eq, H. }
  unfold RM.getPosition, logged, RM.deactivatePosition, RM.store_position. tx_unfold.
  rewrite Hv. cbn [Z.eqb]. tx_simpl. rewrite Hact. tx_simpl. rewrite Hc. tx_simpl.
  rewrite mapping_get_insert_eq. tx_simpl.
  split; [reflexivity |]. split; [reflexivity |].
  split; [intros id' Hne; apply mapping_get_insert_ne; congruence |].
  repeat split.
Qed.

(** X16.  A position that is not active (deactivated, or never created)
    accepts nothing: [updatePosition], [updateGasBudget] and
    [deactivatePosition] for it, and [react] on any log that names it,
    are rejected for every caller, value and argument, with no state
    change and no event. *)
Theorem inactive_position_refuses_calls (s : RM.State) (id : bytes32) :
  RM.isActive (mapping_get RM.zero_position (RM.positions s) id) = false ->
  (forall env threshold actionType gasBudget,
     rejected (RM.updatePosition env id threshold actionType gasBudget) s)
  /\ (forall env gasBudget, rejected (RM.updateGasBudget env id gasBudget) s)
  /\ (forall env, rejected (RM.deactivatePosition env id) s)
  /\ (forall env log, be_to_Z (firstn 32 (skipn 32 log)) = id ->
        rejected (RM.react env log) s).
Proof.
  intros Hoff.
  split; [| split; [| split]]; intros; apply rejected_intro.
  - unfold RM.updatePosition, RM.whenNotPaused. tx_unfold. tx_simpl.
    repeat first [rewrite Hoff; tx_simpl | goal_case]; reflexivity.
  - unfold RM.updateGasBudget, RM.payable. tx_unfold. tx_simpl.
    rewrite Hoff. reflexivity.
  - unfold RM.deactivatePosition. tx_unfold. tx_simpl.
    repeat first [rewrite Hoff; tx_simpl | goal_case]; reflexivity.
  - subst id. unfold RM.react, RM.whenNotPaused, RM._parseLog. tx_unfold. tx_simpl.
    repeat first [rewrite Hoff; tx_simpl | goal_case]; reflexivity.
Qed.

End ManagerRetire.

Section ScenarioRetire.
#[local] Existing Instance Scenario.toy_crypto.

(** The admin retires alice's position while the manager is paused. *)
Lemma deactivatePosition_retires_witness :
  succeeds (RM.deactivatePosition (Scenario.call Scenario.admin 0 1040) Scenario.position1)
    Scenario.manager1_paused = true
  /\ RM.balance (exec (RM.deactivatePosition (Scenario.call Scenario.admin 0 1040)
                         Scenario.position1) Scenario.manager1_paused)
     = Scenario.ether 1.
Proof.
  pose proof (deactivatePosition_retires Scenario.manager1_paused
                (Scenario.call Scenario.admin 0 1040) Scenario.position1) as H.
  do 2 discharge H. specialize (H (or_intror eq_refl)).
  destruct H as (Hok & _ & _ & _ & Hbal & _).
  split; [exact Hok |]. rewrite Hbal. vm_compute. reflexivity.
Defined.

(** An id that was never created, and alice's position once retired. *)
Lemma inactive_position_refuses_calls_witness :
  rejected (RM.updateGasBudget (Scenario.call Scenario.alice (Scenario.ether 5) 1040) 77
              (Scenario.ether 5)) Scenario.manager1
  /\ rejected (RM.react (Scenario.call Scenario.relay 0 1050) Scenario.price_event_025)
       (exec (RM.deactivatePosition (Scenario.call Scenario.alice 0 1040)
                Scenario.position1) Scenario.manager1).
Proof.
  split.
  - pose proof (inactive_position_refuses_calls Scenario.manager1 77) as H.
    discharge H. destruct H as (_ & H & _). apply H.
  - pose proof (inactive_position_refuses_calls
                  (exec (RM.deactivatePosition (Scenario.call Scenario.alice 0 1040)
                           Scenario.position1) Scenario.manager1)
                  Scenario.position1) as H.
    discharge H. destruct H as (_ & _ & _ & H). apply H. vm_compute. reflexivity.
Defined.

End ScenarioRetire.

(** ** DestinationHandler: the entrypoints on their own *)

Section HandlerEntrypoints.
Context {crypto : Crypto}.

(** X17.  [processCallback] returns exactly when: no value is attached,
    the caller is allow-listed, the handler is neither paused nor inside
    a guarded call, the callback id is fresh, the signature is valid for
    the position, and the payload decodes to a supported rebalancing
    action of positive amount.  Although the function has no pause
    modifier of its own, it cannot return while the handler is paused. *)
Theorem processCallback_success_iff (s : DH.State) (env : Env) (w : World)
    (cb id : bytes32) (data sig : bytes) :
  succeeds (DH.processCallback env w cb id data sig) s = true
  <-> (msg_value env = 0
       /\ mapping_get false (DH.authorizedCallers s) (msg_sender env) = true
       /\ DH.paused s = false /\ DH.entered s = false
       /\ mapping_get false (DH.processedCallbacks s) cb = false
       /\ callback_valid env id sig s = true
       /\ exists a amount token,
            Abi.decode_string_uint_address data = Some (a, amount, token)
            /\ rebalancing_action a = true /\ 0 < amount).
Proof.
  split.
  - unfold succeeds, callback_valid, rebalancing_action.
    destruct (run (DH.processCallback env w cb id data sig) s)
      as [[b [s' events]] |] eqn:H; [intros _ | discriminate].
    revert H.
    unfold DH.processCallback, DH.validateCallback, DH.executeHedgingTrade,
      DH.executeRebalancing, DH.onlyAuthorized, DH.whenNotPaused, DH.nonReentrant,
      DH._executePartialUnwind, DH._executeRebalance, DH._calculateSwapOutput,
      DH._executeSwap.
    change (negb (0 =? 0)) with false.
    destruct (Abi.decode_string_uint_address data) as [[[a amount] token]|];
      destruct (ecdsa_recover _ sig);
      tx_unfold; tx_simpl; rewrite ?andb_false_r; intros H; repeat tx_case H.
    all: repeat (split; [first [assumption | reflexivity | apply Z.eqb_eq; assumption
                               | apply negb_true_iff; assumption] |]).
    all: eexists _, _, _; split; [reflexivity |];
      split; [| apply Z.ltb_lt; assumption];
      repeat match goal with Hb : ?c = _ |- context [?c] => rewrite Hb end;
      rewrite ?orb_true_r; reflexivity.
  - intros (Hv & Hauth & Hp & He & Hfresh & Hvalid & a & amount & token & Hdec & Hact & Hpos).
    eapply processCallback_rebalancing_succeeds; eassumption.
Qed.

(** The reentrancy flag is back where it was after a guarded call. *)
Lemma handler_entered_restored (s : DH.State) :
  DH.entered s = false -> DH.set_entered false s = s.
Proof. destruct s. cbn. intros ->. reflexivity. Qed.

(** X18.  [executeRebalancing], called without value by an allow-listed
    caller on a handler that is not paused: for a positive amount and a
    non-empty action type whose hash is that of "partial_unwind" or
    "rebalance" it reports success, logs one [RebalancingExecuted] event
    and changes nothing in the handler's state; for any other non-empty
    action type it fails with "Unsupported action type"; for an amount of
    zero it fails with "Invalid amount". *)
Theorem executeRebalancing_effect (s : DH.State) (env : Env) (id : bytes32)
    (actionType : string) (amount : uint256) :
  msg_value env = 0 ->
  mapping_get false (DH.authorizedCallers s) (msg_sender env) = true ->
  DH.paused s = false -> DH.entered s = false ->
  (0 < amount -> actionType <> ""%string ->
   keccak256 (bytes_of_string actionType) = keccak256 (bytes_of_string "partial_unwind")
   \/ keccak256 (bytes_of_string actionType) = keccak256 (bytes_of_string "rebalance") ->
   run (DH.executeRebalancing env id actionType amount) s
   = Ok ((true,
          keccak256 (Abi.encodePacked
            [Abi.word id; bytes_of_string actionType; Abi.word amount;
             Abi.word (block_timestamp env)])),
         (s, [DH.RebalancingExecuted id actionType amount
                (keccak256 (Abi.encodePacked
                   [Abi.word id; bytes_of_string actionType; Abi.word amount;
                    Abi.word (block_timestamp env)]))])))
  /\ (0 < amount -> actionType <> ""%string ->
      keccak256 (bytes_of_string actionType)
      <> keccak256 (bytes_of_string "partial_unwind") ->
      keccak256 (bytes_of_string actionType) <> keccak256 (bytes_of_string "rebalance") ->
      fails_with (DH.executeRebalancing env id actionType amount) s
        "Unsupported action type")
  /\ (amount <= 0 ->
      fails_with (DH.executeRebalancing env id actionType amount) s "Invalid amount").
Proof.
  intros Hv Hauth Hp He.
  unfold DH.executeRebalancing, DH.onlyAuthorized, DH.whenNotPaused, DH.nonReentrant,
    DH._executePartialUnwind, DH._executeRebalance.
  tx_unfold. rewrite Hv. cbn [Z.eqb]. tx_simpl. rewrite Hauth. tx_simpl.
  rewrite Hp. tx_simpl. rewrite He. tx_simpl.
  split; [| split].
  - intros Hpos Hne Hkind. apply Z.ltb_lt in Hpos. apply nonempty_string_length in Hne.
    rewrite Hpos. tx_simpl. rewrite Hne. tx_simpl.
    assert (Hs : forall (r : bool * bytes32) (l : list DH.Event) s',
              s' = s -> Ok (r, (s', l)) = Ok (r, (s, l)) :> result _)
      by (intros r l s' ->; reflexivity).
    destruct (_ =? keccak256 (bytes_of_string "partial_unwind")) eqn:Hpu;
      [apply Hs, (handler_entered_restored s He) |].
    destruct Hkind as [Hk | Hk]; [apply Z.eqb_neq in Hpu; contradiction |].
    rewrite Hk, Z.eqb_refl. apply Hs, (handler_entered_restored s He).
  - intros Hpos Hne Hpu Hrb. apply Z.ltb_lt in Hpos. apply nonempty_string_length in Hne.
    apply Z.eqb_neq in Hpu, Hrb.
    rewrite Hpos. tx_simpl. rewrite Hne. tx_simpl. rewrite Hpu, Hrb. reflexivity.
  - intros Hpos. apply Z.ltb_ge in Hpos. rewrite Hpos. reflexivity.
Qed.

(** X19.  [executeHedgingTrade] quotes 95% of the input, rounded down:
    with valid arguments and enough balance, the call returns
    [amountIn * 95 / 100] and leaves the handler's state as it was when
    [minAmountOut] is at most that quote and the token transfer goes
    through; it fails with "Slippage too high" when [minAmountOut] is
    above the quote, and it panics when [amountIn * 95] does not fit 256
    bits. *)
Theorem executeHedgingTrade_quote (s : DH.State) (env : Env) (w : World) (id : bytes32)
    (tokenIn tokenOut : address) (amountIn minAmountOut held : uint256) :
  msg_value env = 0 ->
  mapping_get false (DH.authorizedCallers s) (msg_sender env) = true ->
  DH.paused s = false -> DH.entered s = false ->
  tokenIn <> 0 -> tokenOut <> 0 -> tokenIn <> tokenOut ->
  0 < amountIn -> 0 < minAmountOut ->
  erc20_balanceOf w tokenIn (this w) = Some held -> amountIn <= held ->
  (amountIn * 95 <= MAX_UINT256 -> minAmountOut <= amountIn * 95 / 100 ->
   erc20_transfer w tokenIn (this w) amountIn = true ->
   run (DH.executeHedgingTrade env w id tokenIn tokenOut amountIn minAmountOut) s
   = Ok ((amountIn * 95 / 100,
          keccak256 (Abi.encodePacked
            [Abi.word id; Abi.addr20 tokenIn; Abi.addr20 tokenOut; Abi.word amountIn;
             Abi.word (amountIn * 95 / 100); Abi.word (block_timestamp env)])),
         (s, [DH.HedgingTradeExecuted id tokenIn tokenOut amountIn (amountIn * 95 / 100)
                (keccak256 (Abi.encodePacked
                   [Abi.word id; Abi.addr20 tokenIn; Abi.addr20 tokenOut;
                    Abi.word amountIn; Abi.word (amountIn * 95 / 100);
                    Abi.word (block_timestamp env)]))])))
  /\ (amountIn * 95 <= MAX_UINT256 -> amountIn * 95 / 100 < minAmountOut ->
      fails_with (DH.executeHedgingTrade env w id tokenIn tokenOut amountIn minAmountOut) s
        "Slippage too high")
  /\ (MAX_UINT256 < amountIn * 95 ->
      run (DH.executeHedgingTrade env w id tokenIn tokenOut amountIn minAmountOut) s
      = Err (Panic 17)).
Proof.
  intros Hv Hauth Hp He Hin Hout Hdiff Hamt Hmin Hbal Hheld.
  apply Z.eqb_neq in Hin, Hout, Hdiff. apply Z.ltb_lt in Hamt, Hmin.
  apply Z.leb_le in Hheld.
  unfold DH.executeHedgingTrade, DH.onlyAuthorized, DH.whenNotPaused, DH.nonReentrant,
    DH._calculateSwapOutput, DH._executeSwap.
  rewrite Hbal. tx_unfold. rewrite Hv. cbn [Z.eqb]. tx_simpl. rewrite Hauth. tx_simpl.
  rewrite Hp. tx_simpl. rewrite He. tx_simpl. rewrite Hin, Hout. tx_simpl.
  rewrite Hdiff. tx_simpl. rewrite Hamt. tx_simpl. rewrite Hmin. tx_simpl.
  rewrite Hheld. tx_simpl. change (100 =? 0) with false.
  split; [| split].
  - intros Hfit Hq Hsend. apply Z.leb_le in Hfit, Hq.
    rewrite Hfit. tx_simpl. rewrite Hq. tx_simpl. rewrite Hsend. tx_simpl.
    assert (Hs : forall (r : uint256 * bytes32) (l : list DH.Event) s',
              s' = s -> Ok (r, (s', l)) = Ok (r, (s, l)) :> result _)
      by (intros r l s' ->; reflexivity).
    apply Hs, (handler_entered_restored s He).
  - intros Hfit Hq. apply Z.leb_le in Hfit. apply Z.leb_gt in Hq.
    rewrite Hfit. tx_simpl. rewrite Hq. reflexivity.
  - intros Hover. apply Z.leb_gt in Hover. rewrite Hover. reflexivity.
Qed.

(** X20.  [updateAuthorizedCaller], called without value by the owner,
    sets the allow-list entry of the caller it names to the flag it is
    given and touches no other entry, no callback mark and not the pause
    flag; it works on a paused handler too, and the owner can revoke its
    own entry.  From anyone else the call fails with "Ownable: caller is
    not the owner". *)
Theorem updateAuthorizedCaller_effect (s : DH.State) (env : Env) (caller : address)
    (authorized : bool) :
  msg_value env = 0 ->
  (DH.owner s = msg_sender env ->
   succeeds (DH.updateAuthorizedCaller env caller authorized) s = true
   /\ mapping_get false
        (DH.authorizedCallers (exec (DH.updateAuthorizedCaller env caller authorized) s))
        caller = authorized
   /\ (forall other, other <> caller ->
         mapping_get false
           (DH.authorizedCallers (exec (DH.updateAuthorizedCaller env caller authorized) s))
           other
         = mapping_get false (DH.authorizedCallers s) other)
   /\ DH.processedCallbacks (exec (DH.updateAuthorizedCaller env caller authorized) s)
      = DH.processedCallbacks s
   /\ DH.paused (exec (DH.updateAuthorizedCaller env caller authorized) s) = DH.paused s
   /\ logged (DH.updateAuthorizedCaller env caller authorized) s
      = [DH.AuthorizedCallerUpdated caller authorized])
  /\ (DH.owner s <> msg_sender env ->
      fails_with (DH.updateAuthorizedCaller env caller authorized) s
        "Ownable: caller is not the owner").
Proof.
  intros Hv. unfold logged, DH.updateAuthorizedCaller, DH.onlyOwner. tx_unfold.
  rewrite Hv. cbn [Z.eqb]. tx_simpl. split.
  - intros Ho. rewrite Ho, Z.eqb_refl. tx_simpl.
    split; [reflexivity |]. split; [apply mapping_get_insert_eq |].
    split; [intros other Hne; apply mapping_get_insert_ne; congruence |].
    repeat split.
  - intros Ho. apply Z.eqb_neq in Ho. rewrite Ho. reflexivity.
Qed.

(** What each entrypoint of the handler leaves in place. *)
Lemma handler_step_frame (c : HandlerCall) (s : DH.State) :
  (forall k, mapping_get false (DH.processedCallbacks s) k = true ->
             mapping_get false (DH.processedCallbacks (handler_step c s)) k = true)
  /\ ((match c with HUpdateAuthorizedCaller _ _ _ => false | _ => true end) = true ->
      DH.authorizedCallers (handler_step c s) = DH.authorizedCallers s).
Proof.
  assert (Hid : (forall k, mapping_get false (DH.processedCallbacks s) k = true ->
                           mapping_get false (DH.processedCallbacks s) k = true)
                /\ (true = true -> DH.authorizedCallers s = DH.authorizedCallers s))
    by (split; auto).
  destruct c; cbn [handler_step]; unfold exec;
    match goal with
    | |- context [run ?m s] => destruct (run m s) as [[u [s' l]] |] eqn:H;
                               [| first [exact Hid | split; [auto | reflexivity]]]
    end; clear Hid.
  - unfold DH.executeHedgingTrade, DH.onlyAuthorized, DH.whenNotPaused, DH.nonReentrant,
      DH._calculateSwapOutput, DH._executeSwap in H.
    destruct (erc20_balanceOf w tokenIn (this w));
      tx_unfold; tx_simpl; repeat tx_case H;
      apply returned_inv in H as (_ & <- & _); tx_simpl; split; auto.
  - unfold DH.executeRebalancing, DH.onlyAuthorized, DH.whenNotPaused, DH.nonReentrant,
      DH._executePartialUnwind, DH._executeRebalance in H.
    tx_unfold. tx_simpl. repeat tx_case H;
      apply returned_inv in H as (_ & <- & _); tx_simpl; split; auto.
  - apply processCallback_returned in H as (Hmarks & Hallow & _).
    split; [| intros _; exact Hallow].
    intros k Hk. rewrite Hmarks. destruct (Z.eq_dec callbackId k) as [<- | Hne].
    + apply mapping_get_insert_eq.
    + rewrite mapping_get_insert_ne by assumption. exact Hk.
  - unfold DH.updateAuthorizedCaller, DH.onlyOwner in H.
    tx_unfold. tx_simpl. repeat tx_case H.
    apply returned_inv in H as (_ & <- & _). tx_simpl. split; [auto | discriminate].
  - unfold DH.pause, DH.onlyOwner, DH.whenNotPaused in H.
    tx_unfold. tx_simpl. repeat tx_case H.
    apply returned_inv in H as (_ & <- & _). tx_simpl. split; auto.
  - unfold DH.unpause, DH.onlyOwner, DH.whenPaused in H.
    tx_unfold. tx_simpl. repeat tx_case H.
    apply returned_inv in H as (_ & <- & _). tx_simpl. split; auto.
  - unfold DH.emergencyWithdraw, DH.onlyOwner in H.
    tx_unfold. tx_simpl. repeat tx_case H.
    apply returned_inv in H as (_ & <- & _). tx_simpl. split; auto.
  - unfold DH.transferOwnership, DH.onlyOwner in H.
    tx_unfold. tx_simpl. repeat tx_case H.
    apply returned_inv in H as (_ & <- & _). tx_simpl. split; auto.
  - unfold DH.renounceOwnership, DH.onlyOwner in H.
    tx_unfold. tx_simpl. repeat tx_case H.
    apply returned_inv in H as (_ & <- & _). tx_simpl. split; auto.
Qed.

Lemma handler_trace_cons (c : HandlerCall) (calls : list HandlerCall) (s : DH.State) :
  handler_trace (c :: calls) s = handler_trace calls (handler_step c s).
Proof. reflexivity. Qed.

(** X21.  A callback id that is marked as processed stays marked through
    every sequence of calls to the handler: no entrypoint, the owner's
    included, clears a mark. *)
Theorem handler_marks_append_only (calls : list HandlerCall) (s : DH.State) (cb : bytes32) :
  mapping_get false (DH.processedCallbacks s) cb = true ->
  mapping_get false (DH.processedCallbacks (handler_trace calls s)) cb = true.
Proof.
  revert s. induction calls as [| c calls IH]; intros s Hk; [exact Hk |].
  rewrite handler_trace_cons. apply IH. apply handler_step_frame. exact Hk.
Qed.

(** X22.  The allow-list is written by [updateAuthorizedCaller] only: a
    sequence of calls without it leaves every entry as it was, so neither
    a callback nor a transfer of ownership grants or revokes
    authorization, and a former owner keeps the entry the constructor
    gave it. *)
Theorem handler_allow_list_fixed (calls : list HandlerCall) (s : DH.State) :
  forallb (fun c => match c with HUpdateAuthorizedCaller _ _ _ => false | _ => true end)
    calls = true ->
  DH.authorizedCallers (handler_trace calls s) = DH.authorizedCallers s.
Proof.
  revert s. induction calls as [| c calls IH]; intros s Hcalls; [reflexivity |].
  cbn [forallb] in Hcalls. apply andb_true_iff in Hcalls as [Hc Hcalls].
  rewrite handler_trace_cons, IH by assumption. apply handler_step_frame. exact Hc.
Qed.

End HandlerEntrypoints.

Section ScenarioEntrypoints.
#[local] Existing Instance Scenario.toy_crypto.

(** admin's callback to rebalance alice's position. *)
Lemma processCallback_success_iff_witness :
  succeeds (DH.processCallback (Scenario.call Scenario.admin 0 1030) Scenario.world 1
              Scenario.position1 Scenario.rebalance_data Scenario.signature1)
    Scenario.handler0 = true.
Proof.
  apply (proj2 (processCallback_success_iff Scenario.handler0
                  (Scenario.call Scenario.admin 0 1030) Scenario.world 1
                  Scenario.position1 Scenario.rebalance_data Scenario.signature1)).
  repeat (split; [vm_compute; reflexivity |]).
  exists "rebalance"%string, (Scenario.ether 2), Scenario.tokenA.
  repeat split; vm_compute; reflexivity.
Defined.

(** admin rebalances directly. *)
Lemma executeRebalancing_effect_witness :
  succeeds (DH.executeRebalancing (Scenario.call Scenario.admin 0 1030) Scenario.position1
              "rebalance" (Scenario.ether 2)) Scenario.handler0 = true
  /\ exec (DH.executeRebalancing (Scenario.call Scenario.admin 0 1030) Scenario.position1
             "rebalance" (Scenario.ether 2)) Scenario.handler0 = Scenario.handler0
  /\ fails_with (DH.executeRebalancing (Scenario.call Scenario.admin 0 1030)
                   Scenario.position1 "hedge" (Scenario.ether 2)) Scenario.handler0
       "Unsupported action type".
Proof.
  pose proof (executeRebalancing_effect Scenario.handler0
                (Scenario.call Scenario.admin 0 1030) Scenario.position1 "rebalance"
                (Scenario.ether 2)) as H.
  do 4 discharge H. destruct H as [H _]. do 2 discharge H.
  specialize (H (or_intror eq_refl)).
  pose proof (executeRebalancing_effect Scenario.handler0
                (Scenario.call Scenario.admin 0 1030) Scenario.position1 "hedge"
                (Scenario.ether 2)) as H'.
  do 4 discharge H'. destruct H' as (_ & H' & _). do 4 discharge H'.
  unfold succeeds, exec. rewrite H. split; [reflexivity | split; [reflexivity | exact H']].
Defined.

(** admin trades 2 of token A for at least 1.9 of token B, then asks for
    at least 2. *)
Lemma executeHedgingTrade_quote_witness :
  succeeds (DH.executeHedgingTrade (Scenario.call Scenario.admin 0 1030) Scenario.world
              Scenario.position1 Scenario.tokenA Scenario.tokenB (Scenario.ether 20)
              (Scenario.ether 19)) Scenario.handler0 = true
  /\ fails_with (DH.executeHedgingTrade (Scenario.call Scenario.admin 0 1030) Scenario.world
                   Scenario.position1 Scenario.tokenA Scenario.tokenB (Scenario.ether 20)
                   (Scenario.ether 20)) Scenario.handler0 "Slippage too high".
Proof.
  pose proof (executeHedgingTrade_quote Scenario.handler0
                (Scenario.call Scenario.admin 0 1030) Scenario.world Scenario.position1
                Scenario.tokenA Scenario.tokenB (Scenario.ether 20) (Scenario.ether 19)
                (10 ^ 30)) as H.
  do 11 discharge H. destruct H as [H _]. do 3 discharge H.
  pose proof (executeHedgingTrade_quote Scenario.handler0
                (Scenario.call Scenario.admin 0 1030) Scenario.world Scenario.position1
                Scenario.tokenA Scenario.tokenB (Scenario.ether 20) (Scenario.ether 20)
                (10 ^ 30)) as H'.
  do 11 discharge H'. destruct H' as (_ & H' & _). do 2 discharge H'.
  unfold succeeds. rewrite H. split; [reflexivity | exact H'].
Defined.

(** admin puts mallory on the allow-list; mallory cannot do the same for
    herself. *)
Lemma updateAuthorizedCaller_effect_witness :
  mapping_get false
    (DH.authorizedCallers
       (exec (DH.updateAuthorizedCaller (Scenario.call Scenario.admin 0 1030)
                Scenario.mallory true) Scenario.handler0)) Scenario.mallory = true
  /\ fails_with (DH.updateAuthorizedCaller (Scenario.call Scenario.mallory 0 1030)
                   Scenario.mallory true) Scenario.handler0
       "Ownable: caller is not the owner".
Proof.
  pose proof (updateAuthorizedCaller_effect Scenario.handler0
                (Scenario.call Scenario.admin 0 1030) Scenario.mallory true) as H.
  discharge H. destruct H as [H _]. discharge H. destruct H as (_ & H & _).
  pose proof (updateAuthorizedCaller_effect Scenario.handler0
                (Scenario.call Scenario.mallory 0 1030) Scenario.mallory true) as H'.
  discharge H'. destruct H' as [_ H']. discharge H'.
  split; [exact H | exact H'].
Defined.

(** After a callback, admin revokes itself, pauses and hands the handler
    over; the callback id is still marked. *)
Lemma handler_marks_append_only_witness :
  mapping_get false
    (DH.processedCallbacks
       (handler_trace
          [HUpdateAuthorizedCaller (Scenario.call Scenario.admin 0 1040) Scenario.admin false;
           HPause (Scenario.call Scenario.admin 0 1050);
           HTransferOwnership (Scenario.call Scenario.admin 0 1060) Scenario.mallory]
          (exec (Scenario.callback 1 Scenario.rebalance_data) Scenario.handler0))) 1
  = true.
Proof.
  pose proof (handler_marks_append_only
                [HUpdateAuthorizedCaller (Scenario.call Scenario.admin 0 1040)
                   Scenario.admin false;
                 HPause (Scenario.call Scenario.admin 0 1050);
                 HTransferOwnership (Scenario.call Scenario.admin 0 1060) Scenario.mallory]
                (exec (Scenario.callback 1 Scenario.rebalance_data) Scenario.handler0)
                1) as H.
  discharge H. exact H.
Defined.

(** admin hands the handler to mallory, who pauses it; admin is still on
    the allow-list. *)
Lemma handler_allow_list_fixed_witness :
  mapping_get false
    (DH.authorizedCallers
       (handler_trace
          [HTransferOwnership (Scenario.call Scenario.admin 0 1040) Scenario.mallory;
           HPause (Scenario.call Scenario.mallory 0 1050)]
          Scenario.handler0)) Scenario.admin = true.
Proof.
  pose proof (handler_allow_list_fixed
                [HTransferOwnership (Scenario.call Scenario.admin 0 1040) Scenario.mallory;
                 HPause (Scenario.call Scenario.mallory 0 1050)]
                Scenario.handler0) as H.
  discharge H. rewrite H. vm_compute. reflexivity.
Defined.

End ScenarioEntrypoints.

(** ** OriginPosition: the life of a position *)

Section RegistryLifecycle.
Context {crypto : Crypto}.

(** The state a successful [createPosition] of the registry leaves. *)
Lemma registry_create_run (s : OP.State) (env : Env) (w : World)
    (token0 token1 : address) (amount0 amount1 : uint256) :
  msg_value env = 0 -> OP.paused s = false -> OP.entered s = false ->
  token0 <> 0 -> token1 <> 0 -> token0 <> token1 -> 0 < amount0 -> 0 < amount1 ->
  erc20_transferFrom w token0 (msg_sender env) (this w) amount0 = true ->
  erc20_transferFrom w token1 (msg_sender env) (this w) amount1 = true ->
  amount1 * OP.PRICE_PRECISION <= MAX_UINT256 ->
  amount0 + amount1 <= MAX_UINT256 ->
  OP.totalPositions s + 1 <= MAX_UINT256 ->
  run (OP.createPosition env w token0 token1 amount0 amount1) s
  = Ok (OP.position_id env token0 token1 amount0 amount1,
        (OP.set_entered false
           (OP.set_totalPositions (OP.totalPositions s + 1)
              (OP.with_userPositions
                 (fun m => <[msg_sender env :=
                               mapping_get [] m (msg_sender env)
                               ++ [OP.position_id env token0 token1 amount0 amount1]]> m)
                 (OP.with_positions
                    <[OP.position_id env token0 token1 amount0 amount1 :=
                        {| OP.user := msg_sender env; OP.token0 := token0;
                           OP.token1 := token1; OP.amount0 := amount0;
                           OP.amount1 := amount1;
                           OP.currentPrice := amount1 * OP.PRICE_PRECISION / amount0;
                           OP.liquidity := amount0 + amount1;
                           OP.createdAt := block_timestamp env; OP.isActive := true |}]>
                    (OP.set_entered true s)))),
         [OP.PositionCreated (OP.position_id env token0 token1 amount0 amount1)
            (msg_sender env) token0 token1 amount0 amount1
            (amount1 * OP.PRICE_PRECISION / amount0)])).
Proof.
  intros Hv Hp He H0 H1 Hd Ha0 Ha1 Ht0 Ht1 Hmul Hadd Htotal.
  assert (Hz : (amount0 =? 0) = false) by (apply Z.eqb_neq; lia).
  apply Z.eqb_neq in H0, H1, Hd. apply Z.ltb_lt in Ha0, Ha1.
  apply Z.leb_le in Hmul, Hadd, Htotal.
  unfold OP.createPosition, OP.whenNotPaused, OP.nonReentrant, OP.position_id.
  tx_unfold. rewrite Hv. cbn [Z.eqb]. tx_forward. reflexivity.
Qed.

(** X23.  A valid [createPosition] of the registry (no value, registry
    not paused, two distinct non-zero tokens, two positive amounts that
    the token contracts hand over, no overflow) registers the position
    under the id it returns: the price is [amount1 * 10^18 / amount0]
    rounded down, the liquidity is [amount0 + amount1], the position is
    active, its id is appended to the caller's list, [totalPositions]
    grows by one and a [PositionCreated] event carries the price. *)
Theorem registry_create_registers (s : OP.State) (env : Env) (w : World)
    (token0 token1 : address) (amount0 amount1 : uint256) :
  msg_value env = 0 -> OP.paused s = false -> OP.entered s = false ->
  token0 <> 0 -> token1 <> 0 -> token0 <> token1 -> 0 < amount0 -> 0 < amount1 ->
  erc20_transferFrom w token0 (msg_sender env) (this w) amount0 = true ->
  erc20_transferFrom w token1 (msg_sender env) (this w) amount1 = true ->
  amount1 * OP.PRICE_PRECISION <= MAX_UINT256 ->
  amount0 + amount1 <= MAX_UINT256 ->
  OP.totalPositions s + 1 <= MAX_UINT256 ->
  let create := OP.createPosition env w token0 token1 amount0 amount1 in
  let id := OP.position_id env token0 token1 amount0 amount1 in
  succeeds create s = true
  /\ OP.getPosition (exec create s) id
     = (msg_sender env, token0, token1, amount0, amount1,
        amount1 * 10 ^ 18 / amount0, amount0 + amount1)
  /\ OP.isActive (mapping_get OP.zero_position (OP.positions (exec create s)) id) = true
  /\ OP.getUserPositions (exec create s) (msg_sender env)
     = OP.getUserPositions s (msg_sender env) ++ [id]
  /\ OP.totalPositions (exec create s) = OP.totalPositions s + 1
  /\ logged create s
     = [OP.PositionCreated id (msg_sender env) token0 token1 amount0 amount1
          (amount1 * 10 ^ 18 / amount0)]
  /\ (forall other, other <> id ->
        mapping_get OP.zero_position (OP.positions (exec create s)) other
        = mapping_get OP.zero_position (OP.positions s) other).
Proof.
  intros Hv Hp He H0 H1 Hd Ha0 Ha1 Ht0 Ht1 Hmul Hadd Htotal create id.
  pose proof (registry_create_run s env w token0 token1 amount0 amount1
                Hv Hp He H0 H1 Hd Ha0 Ha1 Ht0 Ht1 Hmul Hadd Htotal) as Hrun.
  fold create id in Hrun.
  unfold succeeds, exec, logged, OP.getPosition, OP.getUserPositions. rewrite Hrun. tx_simpl.
  rewrite !mapping_get_insert_eq. tx_simpl.
  repeat split; try reflexivity.
  intros other Hother. apply mapping_get_insert_ne. congruence.
Qed.

(** X24.  The registry's [createPosition] turns down a zero token, equal
    tokens and a zero amount, and it panics on amounts whose scaled price
    [amount1 * 10^18] or whose sum does not fit 256 bits; in each case
    nothing is stored. *)
Theorem registry_create_validates (s : OP.State) (env : Env) (w : World)
    (token0 token1 : address) (amount0 amount1 : uint256) :
  token0 = 0 \/ token1 = 0 \/ token0 = token1 \/ amount0 <= 0 \/ amount1 <= 0
  \/ MAX_UINT256 < amount1 * OP.PRICE_PRECISION \/ MAX_UINT256 < amount0 + amount1 ->
  rejected (OP.createPosition env w token0 token1 amount0 amount1) s.
Proof.
  intros H. apply rejected_intro.
  unfold OP.createPosition, OP.whenNotPaused, OP.nonReentrant.
  tx_unfold. tx_simpl.
  destruct H as [H | [H | [H | [H | [H | [H | H]]]]]].
  - rewrite H. change (negb (0 =? 0)) with false. repeat goal_case.
  - rewrite H. change (negb (0 =? 0)) with false. rewrite andb_false_r. repeat goal_case.
  - rewrite H, Z.eqb_refl. repeat goal_case.
  - apply Z.ltb_ge in H. repeat first [rewrite H; tx_simpl | goal_case].
  - apply Z.ltb_ge in H. rewrite H, andb_false_r. repeat goal_case.
  - apply Z.leb_gt in H. repeat first [rewrite H; tx_simpl | goal_case].
  - apply Z.leb_gt in H. repeat first [rewrite H; tx_simpl | goal_case].
Qed.

(** X25.  A position whose price is zero can never be repriced: every
    [updatePrice] for it is rejected, whatever the caller and the new
    price, because the relative change divides by the old price.
    [createPosition] gives such a price whenever [amount1 * 10^18] is
    below [amount0]. *)
Theorem zero_price_position_stuck (s : OP.State) (id : bytes32) :
  OP.currentPrice (mapping_get OP.zero_position (OP.positions s) id) = 0 ->
  forall env newPrice, rejected (OP.updatePrice env id newPrice) s.
Proof.
  intros Hzero env newPrice. apply rejected_intro.
  unfold OP.updatePrice, OP.onlyOwner, OP.abs, OP.store_position. tx_unfold. tx_simpl.
  destruct (msg_value env =? 0); tx_simpl; [| reflexivity].
  destruct (OP.owner s =? msg_sender env); tx_simpl; [| reflexivity].
  destruct (OP.isActive _); tx_simpl; [| reflexivity].
  destruct (0 <? newPrice) eqn:Hpos; tx_simpl; [| reflexivity].
  rewrite Hzero, Hpos. change (0 =? 0) with true. tx_simpl.
  repeat goal_case.
Qed.

(** X26.  [updateLiquidity], called without value by the owner on an
    active position with old and new liquidity within the positive
    [int256] range, stores the new liquidity and reports the signed
    difference [new - old]; there is no bound on the change, and the
    registry need not be running.  A new liquidity of zero is refused. *)
Theorem updateLiquidity_effect (s : OP.State) (env : Env) (id : bytes32)
    (newLiquidity : uint256) :
  msg_value env = 0 -> OP.owner s = msg_sender env ->
  OP.isActive (mapping_get OP.zero_position (OP.positions s) id) = true ->
  0 <= OP.liquidity (mapping_get OP.zero_position (OP.positions s) id) <= MAX_INT256 ->
  (0 < newLiquidity <= MAX_INT256 ->
   run (OP.updateLiquidity env id newLiquidity) s
   = Ok (tt,
         (OP.with_positions
            <[id := OP.set_liquidity newLiquidity
                      (mapping_get OP.zero_position (OP.positions s) id)]> s,
          [OP.LiquidityUpdate id
             (OP.liquidity (mapping_get OP.zero_position (OP.positions s) id))
             newLiquidity
             (newLiquidity
              - OP.liquidity (mapping_get OP.zero_position (OP.positions s) id))])))
  /\ (newLiquidity <= 0 ->
      fails_with (OP.updateLiquidity env id newLiquidity) s "Invalid liquidity").
Proof.
  intros Hv Ho Hact Hold.
  unfold OP.updateLiquidity, OP.onlyOwner, OP.checked_sub_int, OP.store_position.
  tx_unfold. rewrite Hv. cbn [Z.eqb]. tx_simpl. rewrite Ho, Z.eqb_refl. tx_simpl.
  rewrite Hact. tx_simpl. split.
  - intros Hnew. assert (Hpos : (0 <? newLiquidity) = true) by (apply Z.ltb_lt; lia).
    rewrite Hpos. tx_simpl.
    assert (Hint : forall x, 0 <= x <= MAX_INT256 -> to_int256 x = x).
    { intros x Hx. unfold to_int256, MAX_INT256 in *.
      destruct (x <? 2 ^ 255) eqn:Hc; [reflexivity | apply Z.ltb_ge in Hc; lia]. }
    rewrite !Hint by assumption || lia.
    assert (Hfit : (MIN_INT256 <=? newLiquidity
                      - OP.liquidity (mapping_get OP.zero_position (OP.positions s) id))
                   && (newLiquidity
                         - OP.liquidity (mapping_get OP.zero_position (OP.positions s) id)
                       <=? MAX_INT256) = true).
    { apply andb_true_iff. unfold MIN_INT256, MAX_INT256 in *.
      split; apply Z.leb_le; lia. }
    rewrite Hfit. reflexivity.
  - intros Hnew. apply Z.ltb_ge in Hnew. rewrite Hnew. reflexivity.
Qed.

(** X27.  [closePosition], called without value by the position's user
    or by the owner on an active position, pays the two deposited amounts
    to the position's user, whoever the caller is.  When both transfers go
    through, the position is no longer active, the fields read by
    [getPosition] and every other position are as before, and a
    [PositionClosed] event names the user; the registry need not be
    running.  When a transfer fails, the call is rejected and the position
    stays active. *)
Theorem closePosition_effect (s : OP.State) (env : Env) (w : World) (id : bytes32) :
  msg_value env = 0 -> OP.entered s = false ->
  OP.isActive (mapping_get OP.zero_position (OP.positions s) id) = true ->
  OP.user (mapping_get OP.zero_position (OP.positions s) id) = msg_sender env
  \/ msg_sender env = OP.owner s ->
  (erc20_transfer w (OP.token0 (mapping_get OP.zero_position (OP.positions s) id))
     (OP.user (mapping_get OP.zero_position (OP.positions s) id))
     (OP.amount0 (mapping_get OP.zero_position (OP.positions s) id)) = true ->
   erc20_transfer w (OP.token1 (mapping_get OP.zero_position (OP.positions s) id))
     (OP.user (mapping_get OP.zero_position (OP.positions s) id))
     (OP.amount1 (mapping_get OP.zero_position (OP.positions s) id)) = true ->
   succeeds (OP.closePosition env w id) s = true
   /\ OP.isActive (mapping_get OP.zero_position
                     (OP.positions (exec (OP.closePosition env w id) s)) id) = false
   /\ OP.getPosition (exec (OP.closePosition env w id) s) id = OP.getPosition s id
   /\ (forall other, other <> id ->
         mapping_get OP.zero_position
           (OP.positions (exec (OP.closePosition env w id) s)) other
         = mapping_get OP.zero_position (OP.positions s) other)
   /\ OP.paused (exec (OP.closePosition env w id) s) = OP.paused s
   /\ logged (OP.closePosition env w id) s
      = [OP.PositionClosed id
           (OP.user (mapping_get OP.zero_position (OP.positions s) id))])
  /\ (erc20_transfer w (OP.token0 (mapping_get OP.zero_position (OP.positions s) id))
        (OP.user (mapping_get OP.zero_position (OP.positions s) id))
        (OP.amount0 (mapping_get OP.zero_position (OP.positions s) id)) = false
      \/ erc20_transfer w (OP.token1 (mapping_get OP.zero_position (OP.positions s) id))
           (OP.user (mapping_get OP.zero_position (OP.positions s) id))
           (OP.amount1 (mapping_get OP.zero_position (OP.positions s) id)) = false ->
      rejected (OP.closePosition env w id) s).
Proof.
  intros Hv He Hact Hauth.
  assert (Hc : (OP.user (mapping_get OP.zero_position (OP.positions s) id)
                  =? msg_sender env)
               || (msg_sender env =? OP.owner s) = true).
  { apply orb_true_iff. destruct Hauth as [H | H]; [left | right]; apply Z.eqb_eq, H. }
  split.
  - intros H0 H1.
    unfold logged, OP.getPosition, OP.closePosition, OP.nonReentrant, OP.store_position.
    tx_unfold. rewrite Hv. cbn [Z.eqb]. tx_simpl. rewrite He. tx_simpl.
    rewrite Hact. tx_simpl. rewrite Hc. tx_simpl. rewrite H0. tx_simpl.
    rewrite H1. tx_simpl. rewrite mapping_get_insert_eq. tx_simpl.
    split; [reflexivity |]. split; [reflexivity |]. split; [reflexivity |].
    split; [intros other Hne; apply mapping_get_insert_ne; congruence |].
    split; reflexivity.
  - intros Hfail. apply rejected_intro.
    unfold OP.closePosition, OP.nonReentrant, OP.store_position.
    tx_unfold. rewrite Hv. cbn [Z.eqb]. tx_simpl. rewrite He. tx_simpl.
    rewrite Hact. tx_simpl. rewrite Hc. tx_simpl.
    destruct Hfail as [H | H]; rewrite H; [reflexivity |].
    goal_case; try reflexivity.
Qed.

(** X28.  The registry's [emergencyWithdraw] is for the owner alone and
    pays the two deposited amounts of an active position to the owner,
    not to the position's user: when both transfers go through, the
    position is no longer active and an [EmergencyWithdraw] event names
    the user; when a transfer fails the call is rejected.  Other callers
    get "Ownable: caller is not the owner". *)
Theorem registry_emergencyWithdraw_effect (s : OP.State) (env : Env) (w : World)
    (id : bytes32) :
  msg_value env = 0 ->
  (OP.owner s = msg_sender env ->
   OP.isActive (mapping_get OP.zero_position (OP.positions s) id) = true ->
   (erc20_transfer w (OP.token0 (mapping_get OP.zero_position (OP.positions s) id))
      (OP.owner s) (OP.amount0 (mapping_get OP.zero_position (OP.positions s) id)) = true ->
    erc20_transfer w (OP.token1 (mapping_get OP.zero_position (OP.positions s) id))
      (OP.owner s) (OP.amount1 (mapping_get OP.zero_position (OP.positions s) id)) = true ->
    succeeds (OP.emergencyWithdraw env w id) s = true
    /\ OP.isActive (mapping_get OP.zero_position
                      (OP.positions (exec (OP.emergencyWithdraw env w id) s)) id) = false
    /\ OP.getPosition (exec (OP.emergencyWithdraw env w id) s) id = OP.getPosition s id
    /\ logged (OP.emergencyWithdraw env w id) s
       = [OP.EmergencyWithdraw id
            (OP.user (mapping_get OP.zero_position (OP.positions s) id))])
   /\ (erc20_transfer w (OP.token0 (mapping_get OP.zero_position (OP.positions s) id))
         (OP.owner s) (OP.amount0 (mapping_get OP.zero_position (OP.positions s) id))
       = false
       \/ erc20_transfer w (OP.token1 (mapping_get OP.zero_position (OP.positions s) id))
            (OP.owner s) (OP.amount1 (mapping_get OP.zero_position (OP.positions s) id))
          = false ->
       rejected (OP.emergencyWithdraw env w id) s))
  /\ (OP.owner s <> msg_sender env ->
      fails_with (OP.emergencyWithdraw env w id) s "Ownable: caller is not the owner").
Proof.
  intros Hv. split.
  - intros Ho Hact.
    assert (Hoe : (OP.owner s =? msg_sender env) = true) by (apply Z.eqb_eq, Ho).
    split.
    + intros H0 H1.
      unfold logged, OP.getPosition, OP.emergencyWithdraw, OP.onlyOwner, OP.store_position.
      tx_unfold. rewrite Hv. cbn [Z.eqb]. tx_simpl. rewrite Hoe. tx_simpl.
      rewrite Hact. tx_simpl. rewrite H0. tx_simpl.
      rewrite H1. tx_simpl. rewrite mapping_get_insert_eq. tx_simpl.
      repeat split.
    + intros Hfail. apply rejected_intro.
      unfold OP.emergencyWithdraw, OP.onlyOwner, OP.store_position.
      tx_unfold. rewrite Hv. cbn [Z.eqb]. tx_simpl. rewrite Hoe. tx_simpl.
      rewrite Hact. tx_simpl.
      destruct Hfail as [H | H]; rewrite H; [reflexivity |].
      goal_case; try reflexivity.
  - intros Ho. apply Z.eqb_neq in Ho.
    unfold OP.emergencyWithdraw, OP.onlyOwner. tx_unfold.
    rewrite Hv. cbn [Z.eqb]. tx_simpl. rewrite Ho. reflexivity.
Qed.

(** Every entrypoint of the registry other than [createPosition] leaves
    the counter and the position lists alone, and either changes no
    position record or rewrites one that is active, keeping its user,
    tokens, amounts and creation time. *)
Lemma registry_step_frame (c : RegistryCall) (s : OP.State) :
  is_registry_create c = false ->
  OP.userPositions (registry_step c s) = OP.userPositions s
  /\ OP.totalPositions (registry_step c s) = OP.totalPositions s
  /\ (OP.positions (registry_step c s) = OP.positions s
      \/ exists id f,
           OP.isActive (mapping_get OP.zero_position (OP.positions s) id) = true
           /\ OP.positions (registry_step c s)
              = <[id := f (mapping_get OP.zero_position (OP.positions s) id)]>
                  (OP.positions s)
           /\ forall p, OP.user (f p) = OP.user p
                        /\ OP.token0 (f p) = OP.token0 p
                        /\ OP.token1 (f p) = OP.token1 p
                        /\ OP.amount0 (f p) = OP.amount0 p
                        /\ OP.amount1 (f p) = OP.amount1 p
                        /\ OP.createdAt (f p) = OP.createdAt p).
Proof.
  intros Hc.
  destruct c; try discriminate Hc; cbn [registry_step]; unfold exec;
    match goal with
    | |- context [run ?m s] =>
        destruct (run m s) as [[u [s' l]] |] eqn:H; [| repeat split; left; reflexivity]
    end.
  - (* updatePrice *)
    unfold OP.updatePrice, OP.onlyOwner, OP.abs, OP.store_position in H.
    tx_unfold. tx_simpl. repeat tx_case H.
    all: apply returned_inv in H as (_ & <- & _); tx_simpl.
    all: split; [reflexivity |]; split; [reflexivity |]; right.
    all: exists positionId, (OP.set_currentPrice newPrice).
    all: split; [assumption |]; split; [reflexivity | intros p; repeat split].
  - (* updateLiquidity *)
    unfold OP.updateLiquidity, OP.onlyOwner, OP.checked_sub_int, OP.store_position in H.
    tx_unfold. tx_simpl. repeat tx_case H.
    apply returned_inv in H as (_ & <- & _). tx_simpl.
    split; [reflexivity |]. split; [reflexivity |]. right.
    exists positionId, (OP.set_liquidity newLiquidity).
    split; [assumption |]. split; [reflexivity | intros p; repeat split].
  - (* closePosition *)
    unfold OP.closePosition, OP.nonReentrant, OP.store_position in H.
    tx_unfold. tx_simpl. repeat tx_case H.
    apply returned_inv in H as (_ & <- & _). tx_simpl.
    split; [reflexivity |]. split; [reflexivity |]. right.
    exists positionId, (OP.set_isActive false).
    split; [assumption |]. split; [reflexivity | intros p; repeat split].
  - (* emergencyWithdraw *)
    unfold OP.emergencyWithdraw, OP.onlyOwner, OP.store_position in H.
    tx_unfold. tx_simpl. repeat tx_case H.
    apply returned_inv in H as (_ & <- & _). tx_simpl.
    split; [reflexivity |]. split; [reflexivity |]. right.
    exists positionId, (OP.set_isActive false).
    split; [assumption |]. split; [reflexivity | intros p; repeat split].
  - unfold OP.pause, OP.onlyOwner, OP.whenNotPaused in H.
    tx_unfold. tx_simpl. repeat tx_case H.
    apply returned_inv in H as (_ & <- & _). tx_simpl. repeat split. left. reflexivity.
  - unfold OP.unpause, OP.onlyOwner, OP.whenPaused in H.
    tx_unfold. tx_simpl. repeat tx_case H.
    apply returned_inv in H as (_ & <- & _). tx_simpl. repeat split. left. reflexivity.
  - unfold OP.transferOwnership, OP.onlyOwner in H.
    tx_unfold. tx_simpl. repeat tx_case H.
    apply returned_inv in H as (_ & <- & _). tx_simpl. repeat split. left. reflexivity.
  - unfold OP.renounceOwnership, OP.onlyOwner in H.
    tx_unfold. tx_simpl. repeat tx_case H.
    apply returned_inv in H as (_ & <- & _). tx_simpl. repeat split. left. reflexivity.
Qed.

Lemma registry_trace_cons (c : RegistryCall) (calls : list RegistryCall) (s : OP.State) :
  registry_trace (c :: calls) s = registry_trace calls (registry_step c s).
Proof. reflexivity. Qed.

(** X29.  Closing is final for every entrypoint of the registry but
    [createPosition]: through a sequence of calls that creates no
    position, the record of an inactive position (closed, withdrawn or
    never created) does not change, so its price and liquidity can no
    longer be updated and it cannot be paid out a second time. *)
Theorem registry_closed_position_frozen (calls : list RegistryCall) (s : OP.State)
    (id : bytes32) :
  forallb (fun c => negb (is_registry_create c)) calls = true ->
  OP.isActive (mapping_get OP.zero_position (OP.positions s) id) = false ->
  mapping_get OP.zero_position (OP.positions (registry_trace calls s)) id
  = mapping_get OP.zero_position (OP.positions s) id.
Proof.
  revert s. induction calls as [| c calls IH]; intros s Hcalls Hoff; [reflexivity |].
  cbn [forallb] in Hcalls. apply andb_true_iff in Hcalls as [Hc Hcalls].
  apply negb_true_iff in Hc. rewrite registry_trace_cons.
  assert (Hstep : mapping_get OP.zero_position (OP.positions (registry_step c s)) id
                  = mapping_get OP.zero_position (OP.positions s) id).
  { apply registry_step_frame with (s := s) in Hc as (_ & _ & Hpos).
    destruct Hpos as [-> | (id' & f & Hact & -> & _)]; [reflexivity |].
    apply mapping_get_insert_ne. intros <-. congruence. }
  rewrite IH by (try assumption; rewrite Hstep; exact Hoff). exact Hstep.
Qed.

(** X30.  The deposit of a position is fixed at creation: no sequence of
    calls that creates no position changes the user, the tokens or the
    amounts of a position, so what [closePosition] pays out is what
    [createPosition] took in, whatever prices and liquidities were
    reported in between; nor does such a sequence change a user's list of
    positions or [totalPositions]. *)
Theorem registry_deposit_fixed (calls : list RegistryCall) (s : OP.State) (id : bytes32) :
  forallb (fun c => negb (is_registry_create c)) calls = true ->
  OP.user (mapping_get OP.zero_position (OP.positions (registry_trace calls s)) id)
  = OP.user (mapping_get OP.zero_position (OP.positions s) id)
  /\ OP.token0 (mapping_get OP.zero_position (OP.positions (registry_trace calls s)) id)
     = OP.token0 (mapping_get OP.zero_position (OP.positions s) id)
  /\ OP.token1 (mapping_get OP.zero_position (OP.positions (registry_trace calls s)) id)
     = OP.token1 (mapping_get OP.zero_position (OP.positions s) id)
  /\ OP.amount0 (mapping_get OP.zero_position (OP.positions (registry_trace calls s)) id)
     = OP.amount0 (mapping_get OP.zero_position (OP.positions s) id)
  /\ OP.amount1 (mapping_get OP.zero_position (OP.positions (registry_trace calls s)) id)
     = OP.amount1 (mapping_get OP.zero_position (OP.positions s) id)
  /\ OP.userPositions (registry_trace calls s) = OP.userPositions s
  /\ OP.totalPositions (registry_trace calls s) = OP.totalPositions s.
Proof.
  revert s. induction calls as [| c calls IH]; intros s Hcalls; [repeat split |].
  cbn [forallb] in Hcalls. apply andb_true_iff in Hcalls as [Hc Hcalls].
  apply negb_true_iff in Hc. rewrite registry_trace_cons.
  destruct (IH (registry_step c s) Hcalls) as (-> & -> & -> & -> & -> & -> & ->).
  apply registry_step_frame with (s := s) in Hc as (-> & -> & Hpos).
  destruct Hpos as [-> | (id' & f & _ & -> & Hf)]; [repeat split |].
  destruct (Z.eq_dec id' id) as [-> | Hne].
  - rewrite mapping_get_insert_eq. destruct (Hf (mapping_get OP.zero_position (OP.positions s) id))
      as (-> & -> & -> & -> & -> & _). repeat split.
  - rewrite mapping_get_insert_ne by assumption. repeat split.
Qed.

End RegistryLifecycle.

Section ScenarioLifecycle.
#[local] Existing Instance Scenario.toy_crypto.

(** alice deposits 1 of token A and 2 of token B: the price is 2. *)
Lemma registry_create_registers_witness :
  OP.getPosition (Scenario.registry_of (Scenario.ether 10) (Scenario.ether 20))
    (Scenario.origin_id (Scenario.ether 10) (Scenario.ether 20))
  = (Scenario.alice, Scenario.tokenA, Scenario.tokenB, Scenario.ether 10, Scenario.ether 20,
     2 * 10 ^ 18, Scenario.ether 30)
  /\ OP.totalPositions (Scenario.registry_of (Scenario.ether 10) (Scenario.ether 20)) = 1.
Proof.
  pose proof (registry_create_registers Scenario.registry0
                (Scenario.call Scenario.alice 0 1012) Scenario.world Scenario.tokenA
                Scenario.tokenB (Scenario.ether 10) (Scenario.ether 20)) as H.
  do 13 discharge H. cbv zeta in H.
  destruct H as (_ & Hget & _ & _ & Htotal & _).
  split; [| exact Htotal].
  etransitivity; [exact Hget |]. vm_compute. reflexivity.
Defined.

(** The same token twice. *)
Lemma registry_create_validates_witness :
  rejected (OP.createPosition (Scenario.call Scenario.alice 0 1012) Scenario.world
              Scenario.tokenA Scenario.tokenA 1 1) Scenario.registry0.
Proof.
  apply registry_create_validates. right. right. left. reflexivity.
Defined.

(** A position created with amounts [10^24] and [10^5] has price zero. *)
Lemma zero_price_position_stuck_witness :
  rejected (OP.updatePrice (Scenario.call Scenario.admin 0 1030)
              (Scenario.origin_id (10 ^ 24) (10 ^ 5)) 1)
    (Scenario.registry_of (10 ^ 24) (10 ^ 5)).
Proof.
  pose proof (zero_price_position_stuck (Scenario.registry_of (10 ^ 24) (10 ^ 5))
                (Scenario.origin_id (10 ^ 24) (10 ^ 5))) as H.
  discharge H. apply H.
Defined.

(** admin reports a liquidity of 5 for alice's position of liquidity 3. *)
Lemma updateLiquidity_effect_witness :
  logged (OP.updateLiquidity (Scenario.call Scenario.admin 0 1030)
            (Scenario.origin_id (Scenario.ether 10) (Scenario.ether 20)) (Scenario.ether 50))
    (Scenario.registry_of (Scenario.ether 10) (Scenario.ether 20))
  = [OP.LiquidityUpdate (Scenario.origin_id (Scenario.ether 10) (Scenario.ether 20))
       (Scenario.ether 30) (Scenario.ether 50) (Scenario.ether 20)].
Proof.
  pose proof (updateLiquidity_effect
                (Scenario.registry_of (Scenario.ether 10) (Scenario.ether 20))
                (Scenario.call Scenario.admin 0 1030)
                (Scenario.origin_id (Scenario.ether 10) (Scenario.ether 20))
                (Scenario.ether 50)) as H.
  do 3 discharge H. specialize (H ltac:(vm_compute; split; discriminate)).
  destruct H as [H _]. specialize (H ltac:(vm_compute; split; [reflexivity | discriminate])).
  unfold logged. rewrite H. vm_compute. reflexivity.
Defined.

(** alice closes her position. *)
Lemma closePosition_effect_witness :
  succeeds (OP.closePosition (Scenario.call Scenario.alice 0 1040) Scenario.world
              (Scenario.origin_id (Scenario.ether 10) (Scenario.ether 20)))
    (Scenario.registry_of (Scenario.ether 10) (Scenario.ether 20)) = true
  /\ OP.isActive
       (mapping_get OP.zero_position
          (OP.positions
             (exec (OP.closePosition (Scenario.call Scenario.alice 0 1040) Scenario.world
                      (Scenario.origin_id (Scenario.ether 10) (Scenario.ether 20)))
                (Scenario.registry_of (Scenario.ether 10) (Scenario.ether 20))))
          (Scenario.origin_id (Scenario.ether 10) (Scenario.ether 20))) = false.
Proof.
  pose proof (closePosition_effect
                (Scenario.registry_of (Scenario.ether 10) (Scenario.ether 20))
                (Scenario.call Scenario.alice 0 1040) Scenario.world
                (Scenario.origin_id (Scenario.ether 10) (Scenario.ether 20))) as H.
  do 3 discharge H. specialize (H ltac:(left; vm_compute; reflexivity)).
  destruct H as [H _]. do 2 discharge H. destruct H as (Hok & Hoff & _).
  split; [exact Hok | exact Hoff].
Defined.

(** admin withdraws alice's position; alice cannot. *)
Lemma registry_emergencyWithdraw_effect_witness :
  succeeds (OP.emergencyWithdraw (Scenario.call Scenario.admin 0 1040) Scenario.world
              (Scenario.origin_id (Scenario.ether 10) (Scenario.ether 20)))
    (Scenario.registry_of (Scenario.ether 10) (Scenario.ether 20)) = true
  /\ fails_with (OP.emergencyWithdraw (Scenario.call Scenario.alice 0 1040) Scenario.world
                   (Scenario.origin_id (Scenario.ether 10) (Scenario.ether 20)))
       (Scenario.registry_of (Scenario.ether 10) (Scenario.ether 20))
       "Ownable: caller is not the owner".
Proof.
  pose proof (registry_emergencyWithdraw_effect
                (Scenario.registry_of (Scenario.ether 10) (Scenario.ether 20))
                (Scenario.call Scenario.admin 0 1040) Scenario.world
                (Scenario.origin_id (Scenario.ether 10) (Scenario.ether 20))) as H.
  discharge H. destruct H as [H _]. do 2 discharge H. destruct H as [H _].
  do 2 discharge H. destruct H as (Hok & _).
  pose proof (registry_emergencyWithdraw_effect
                (Scenario.registry_of (Scenario.ether 10) (Scenario.ether 20))
                (Scenario.call Scenario.alice 0 1040) Scenario.world
                (Scenario.origin_id (Scenario.ether 10) (Scenario.ether 20))) as H'.
  discharge H'. destruct H' as [_ H']. discharge H'.
  split; [exact Hok | exact H'].
Defined.

(** alice closes her position; a new price, a new liquidity and a second
    closing leave the record as it is. *)
Lemma registry_closed_position_frozen_witness :
  OP.getPosition
    (registry_trace
       [OUpdatePrice (Scenario.call Scenario.admin 0 1050)
          (Scenario.origin_id (Scenario.ether 10) (Scenario.ether 20)) (Scenario.ether 25);
        OUpdateLiquidity (Scenario.call Scenario.admin 0 1060)
          (Scenario.origin_id (Scenario.ether 10) (Scenario.ether 20)) (Scenario.ether 50);
        OClosePosition (Scenario.call Scenario.alice 0 1070) Scenario.world
          (Scenario.origin_id (Scenario.ether 10) (Scenario.ether 20))]
       (exec (OP.closePosition (Scenario.call Scenario.alice 0 1040) Scenario.world
                (Scenario.origin_id (Scenario.ether 10) (Scenario.ether 20)))
          (Scenario.registry_of (Scenario.ether 10) (Scenario.ether 20))))
    (Scenario.origin_id (Scenario.ether 10) (Scenario.ether 20))
  = (Scenario.alice, Scenario.tokenA, Scenario.tokenB, Scenario.ether 10, Scenario.ether 20,
     2 * 10 ^ 18, Scenario.ether 30).
Proof.
  pose proof (registry_closed_position_frozen
                [OUpdatePrice (Scenario.call Scenario.admin 0 1050)
                   (Scenario.origin_id (Scenario.ether 10) (Scenario.ether 20))
                   (Scenario.ether 25);
                 OUpdateLiquidity (Scenario.call Scenario.admin 0 1060)
                   (Scenario.origin_id (Scenario.ether 10) (Scenario.ether 20))
                   (Scenario.ether 50);
                 OClosePosition (Scenario.call Scenario.alice 0 1070) Scenario.world
                   (Scenario.origin_id (Scenario.ether 10) (Scenario.ether 20))]
                (exec (OP.closePosition (Scenario.call Scenario.alice 0 1040) Scenario.world
                         (Scenario.origin_id (Scenario.ether 10) (Scenario.ether 20)))
                   (Scenario.registry_of (Scenario.ether 10) (Scenario.ether 20)))
                (Scenario.origin_id (Scenario.ether 10) (Scenario.ether 20))) as H.
  do 2 discharge H. unfold OP.getPosition. rewrite H. vm_compute. reflexivity.
Defined.

(** A new price, a new liquidity and a new owner of the registry later,
    alice's deposit is what it was. *)
Lemma registry_deposit_fixed_witness :
  OP.amount0
    (mapping_get OP.zero_position
       (OP.positions
          (registry_trace
             [OUpdatePrice (Scenario.call Scenario.admin 0 1050)
                (Scenario.origin_id (Scenario.ether 10) (Scenario.ether 20))
                (Scenario.ether 25);
              OUpdateLiquidity (Scenario.call Scenario.admin 0 1060)
                (Scenario.origin_id (Scenario.ether 10) (Scenario.ether 20))
                (Scenario.ether 50);
              OTransferOwnership (Scenario.call Scenario.admin 0 1070) Scenario.mallory]
             (Scenario.registry_of (Scenario.ether 10) (Scenario.ether 20))))
       (Scenario.origin_id (Scenario.ether 10) (Scenario.ether 20)))
  = Scenario.ether 10.
Proof.
  pose proof (registry_deposit_fixed
                [OUpdatePrice (Scenario.call Scenario.admin 0 1050)
                   (Scenario.origin_id (Scenario.ether 10) (Scenario.ether 20))
                   (Scenario.ether 25);
                 OUpdateLiquidity (Scenario.call Scenario.admin 0 1060)
                   (Scenario.origin_id (Scenario.ether 10) (Scenario.ether 20))
                   (Scenario.ether 50);
                 OTransferOwnership (Scenario.call Scenario.admin 0 1070) Scenario.mallory]
                (Scenario.registry_of (Scenario.ether 10) (Scenario.ether 20))
                (Scenario.origin_id (Scenario.ether 10) (Scenario.ether 20))) as H.
  discharge H. destruct H as (_ & _ & _ & H & _). rewrite H. vm_compute. reflexivity.
Defined.

End ScenarioLifecycle.
